(** * StudyQ: the account guard of [services/authService.ts]

    A shallow embedding of [AuthService.login], [AuthService.changePassword],
    [AuthService.resetUserPassword], [AuthService.generateTempPassword] and
    [AuthService.logAuditEvent], together with the helpers of
    [lib/supabase.ts] they call ([db.getUserByUsername], [db.getUserById],
    [db.updateUser], [db.createAuditLog]).

    Conventions of the embedding.
    - A timestamp (an ISO string in the source, compared through [new Date])
      is the number of milliseconds since the epoch, a [Z].
    - A nullable column is an [option].
    - The hosted store is a list of rows; what the outside world answers during
      one call (clock readings, store faults, random draws, the bcrypt salt) is
      an [Env], one per call.
    - [async] code is sequential here: every [await] is a bind of the monad [M],
      which threads the [World] and an exception.
    - [bcrypt.hash], [bcrypt.compare] and [btoa(JSON.stringify(..))] are
      parameters of the service; they are total, and strings are byte strings. *)

From Stdlib Require Import String Ascii ZArith List Bool Lia DecimalString.
Import ListNotations.

Open Scope string_scope.
Open Scope Z_scope.

(** ** Data model *)

Inductive Role : Type := admin | teacher | student.

(** A row of the [users] table, as [select('*')] returns it. *)
Module Row.
Record t : Type := mk {
    user_id : string;
    name : string;
    email : string;
    role : Role;
    password_hash : string;
    whatsapp_number : option string;
    academic_year : option Z;
    current_semester : option Z;
    is_active : bool;
    force_password_change : bool;
    failed_login_attempts : option Z;
    locked_until : option Z;
    last_login : option Z;
    created_at : Z
  }.
End Row.

(** [interface AuthUser]: the public profile, without the password hash and
    without the lockout columns. *)
Module AuthUser.
Record t : Type := mk {
    user_id : string;
    name : string;
    email : string;
    role : Role;
    whatsapp_number : option string;
    academic_year : option Z;
    current_semester : option Z;
    is_active : bool;
    force_password_change : bool;
    last_login : option Z;
    created_at : Z
  }.
End AuthUser.

Record LoginCredentials : Type := {
  username : string;
  password : string
}.

(** The object literal handed to [db.updateUser]: a key that is absent leaves
    the column alone; [locked_until: null] is [Some None]. *)
Record Updates : Type := {
  set_failed_login_attempts : option Z;
  set_locked_until : option (option Z);
  set_last_login : option Z;
  set_password_hash : option string;
  set_force_password_change : option bool
}.

Definition or_else {A : Type} (o : option A) (d : A) : A :=
  match o with Some a => a | None => d end.

Definition apply_updates (u : Updates) (r : Row.t) : Row.t :=
  {| Row.user_id := Row.user_id r;
     Row.name := Row.name r;
     Row.email := Row.email r;
     Row.role := Row.role r;
     Row.password_hash := or_else (set_password_hash u) (Row.password_hash r);
     Row.whatsapp_number := Row.whatsapp_number r;
     Row.academic_year := Row.academic_year r;
     Row.current_semester := Row.current_semester r;
     Row.is_active := Row.is_active r;
     Row.force_password_change :=
       or_else (set_force_password_change u) (Row.force_password_change r);
     Row.failed_login_attempts :=
       match set_failed_login_attempts u with
       | Some n => Some n
       | None => Row.failed_login_attempts r
       end;
     Row.locked_until := or_else (set_locked_until u) (Row.locked_until r);
     Row.last_login :=
       match set_last_login u with
       | Some t => Some t
       | None => Row.last_login r
       end;
     Row.created_at := Row.created_at r |}.

(** [JSON.stringify({ message: details })], kept structured. *)
Inductive Json : Type := JsonMessage (message : string).

(** A row of the [audit_trail] table. *)
Module Audit.
Record t : Type := mk {
    user_id : option string;
    action : string;
    details : Json;
    ip_address : string;
    user_agent : string;
    created_at : Z
  }.
End Audit.

(** The payload of [generateToken]. *)
Record TokenPayload : Type := {
  tok_user_id : string;
  tok_role : Role;
  iat : Z;
  exp : Z
}.

(** What the supabase client reports in [error]. *)
Record PostgrestError : Type := {
  code : string;
  message : string
}.

Inductive Exn : Type :=
| DbError (e : PostgrestError)
| DomError (what : string).

(** The result objects of the three operations. *)
Record LoginResult : Type := {
  success : bool;
  user : option AuthUser.t;
  token : option string;
  error : option string
}.

Record ChangeResult : Type := {
  c_success : bool;
  c_error : option string
}.

Record ResetResult : Type := {
  r_success : bool;
  r_tempPassword : option string;
  r_error : option string
}.

(** ** The world and its answers *)

Record World : Type := {
  users : list Row.t;
  audit_trail : list Audit.t;
  currentUser : option AuthUser.t;
  authToken : option string;
  stored_auth_user : option AuthUser.t;   (* localStorage 'auth_user' *)
  stored_auth_token : option string;      (* localStorage 'auth_token' *)
  console : list (string * Exn)           (* console.error *)
}.

(** The places of the source that read the clock. *)
Inductive ClockSite : Type :=
| AtLockCheck      (* login: new Date() compared with locked_until *)
| AtLockSet        (* login: Date.now() + 15 * 60 * 1000 *)
| AtLastLogin      (* login: last_login: new Date().toISOString() *)
| AtTokenIat       (* generateToken: iat *)
| AtTokenExp       (* generateToken: exp *)
| AtAuditCreated.  (* logAuditEvent: created_at *)

Record Env : Type := {
  clock : ClockSite -> Z;
  select_error : option PostgrestError;   (* fault of the users select *)
  update_error : option PostgrestError;   (* fault of the users update *)
  insert_error : option PostgrestError;   (* fault of the audit insert *)
  setItem_error : string -> option string;(* localStorage.setItem throws *)
  random : nat -> nat;                    (* the successive Math.random draws *)
  bcrypt_salt : string;
  userAgent : string
}.

(** ** The monad of the service: environment, world, exception *)

Inductive Res (A : Type) : Type :=
| Ok (a : A)
| Throw (e : Exn).
Arguments Ok {A} a.
Arguments Throw {A} e.

Definition M (A : Type) : Type := Env -> World -> Res A * World.

Definition ret {A : Type} (a : A) : M A := fun _ w => (Ok a, w).

Definition bind {A B : Type} (m : M A) (k : A -> M B) : M B :=
  fun env w =>
    match m env w with
    | (Ok a, w') => k a env w'
    | (Throw e, w') => (Throw e, w')
    end.

Definition throw {A : Type} (e : Exn) : M A := fun _ w => (Throw e, w).

Definition try_catch {A : Type} (body : M A) (handler : Exn -> M A) : M A :=
  fun env w =>
    match body env w with
    | (Ok a, w') => (Ok a, w')
    | (Throw e, w') => handler e env w'
    end.

Definition ask : M Env := fun env w => (Ok env, w).
Definition get_world : M World := fun _ w => (Ok w, w).
Definition put_world (w : World) : M unit := fun _ _ => (Ok tt, w).

Declare Scope service_scope.
Delimit Scope service_scope with service.
Notation "x <- c ;; k" := (bind c (fun x => k))
  (at level 100, c at next level, right associativity) : service_scope.
Notation "c ;;; k" := (bind c (fun _ => k))
  (at level 100, right associativity) : service_scope.
Open Scope service_scope.

Definition now (site : ClockSite) : M Z :=
  env <- ask ;; ret (clock env site).

Definition console_error (label : string) (e : Exn) : M unit :=
  fun _ w =>
    (Ok tt,
     {| users := users w;
        audit_trail := audit_trail w;
        currentUser := currentUser w;
        authToken := authToken w;
        stored_auth_user := stored_auth_user w;
        stored_auth_token := stored_auth_token w;
        console := console w ++ [(label, e)] |}).

Definition with_users (us : list Row.t) (w : World) : World :=
  {| users := us;
     audit_trail := audit_trail w;
     currentUser := currentUser w;
     authToken := authToken w;
     stored_auth_user := stored_auth_user w;
     stored_auth_token := stored_auth_token w;
     console := console w |}.

Definition with_audit (a : list Audit.t) (w : World) : World :=
  {| users := users w;
     audit_trail := a;
     currentUser := currentUser w;
     authToken := authToken w;
     stored_auth_user := stored_auth_user w;
     stored_auth_token := stored_auth_token w;
     console := console w |}.

(** ** [lib/supabase.ts] *)

Definition PGRST116 : PostgrestError :=
  {| code := "PGRST116";
     message := "JSON object requested, multiple (or no) rows returned" |}.

(** [.single()]: the one row of the result, an error when there is not
    exactly one. *)
Definition single {A : Type} (rows : list A) : option A :=
  match rows with
  | [r] => Some r
  | _ => None
  end.

Definition eq_name (username : string) (r : Row.t) : bool :=
  String.eqb (Row.name r) username.

Definition eq_user_id (userId : string) (r : Row.t) : bool :=
  String.eqb (Row.user_id r) userId.

(** [supabase.from('users').select('*').eq(..).single()]: the pair
    [{ data, error }]. *)
Definition select_single (p : Row.t -> bool) : M (option Row.t * option PostgrestError) :=
  env <- ask ;;
  w <- get_world ;;
  match select_error env with
  | Some e => ret (None, Some e)
  | None =>
      match single (filter p (users w)) with
      | Some r => ret (Some r, None)
      | None => ret (None, Some PGRST116)
      end
  end.

(** [if (error && error.code !== 'PGRST116') throw error; return data] *)
Definition db_getUserByUsername (username : string) : M (option Row.t) :=
  r <- select_single (eq_name username) ;;
  match snd r with
  | Some e =>
      if negb (String.eqb (code e) "PGRST116") then throw (DbError e)
      else ret (fst r)
  | None => ret (fst r)
  end.

Definition db_getUserById (userId : string) : M (option Row.t) :=
  r <- select_single (eq_user_id userId) ;;
  match snd r with
  | Some e =>
      if negb (String.eqb (code e) "PGRST116") then throw (DbError e)
      else ret (fst r)
  | None => ret (fst r)
  end.

(** The table after [update(..).eq('user_id', userId)]. *)
Definition updated_users (userId : string) (upd : Updates) (us : list Row.t) : list Row.t :=
  map (fun x => if eq_user_id userId x then apply_updates upd x else x) us.

(** [supabase.from('users').update(updates).eq('user_id', userId).select()
    .single()], then [if (error) throw error]. A fault of the store, or a
    result that is not exactly one row, leaves the table as it was. *)
Definition db_updateUser (userId : string) (updates : Updates) : M Row.t :=
  env <- ask ;;
  w <- get_world ;;
  match update_error env with
  | Some e => throw (DbError e)
  | None =>
      match single (filter (eq_user_id userId) (users w)) with
      | Some r =>
          put_world (with_users (updated_users userId updates (users w)) w) ;;;
          ret (apply_updates updates r)
      | None => throw (DbError PGRST116)
      end
  end.

Definition db_createAuditLog (auditData : Audit.t) : M Audit.t :=
  env <- ask ;;
  w <- get_world ;;
  match insert_error env with
  | Some e => throw (DbError e)
  | None =>
      put_world (with_audit (audit_trail w ++ [auditData]) w) ;;;
      ret auditData
  end.

(** ** [services/authService.ts] *)

Definition invalid_credentials : LoginResult :=
  {| success := false; user := None; token := None;
     error := Some "Invalid username or password" |}.

Definition account_inactive : LoginResult :=
  {| success := false; user := None; token := None;
     error := Some "Account is inactive. Please contact administrator." |}.

Definition account_locked : LoginResult :=
  {| success := false; user := None; token := None;
     error := Some "Account is temporarily locked due to too many failed attempts" |}.

Definition system_error : LoginResult :=
  {| success := false; user := None; token := None;
     error := Some "Login failed due to system error" |}.

(** [x || 0] on a nullable number. *)
Definition or_zero (x : option Z) : Z :=
  match x with
  | Some n => n
  | None => 0
  end.

(** [user.locked_until && new Date(user.locked_until) > new Date()], the clock
    reading being [t]. *)
Definition is_locked (locked_until : option Z) (t : Z) : bool :=
  match locked_until with
  | Some l => t <? l
  | None => false
  end.

(** [s || null] on a string: the empty string is falsy. *)
Definition or_null (s : option string) : option string :=
  match s with
  | Some "" => None
  | Some x => Some x
  | None => None
  end.

(** The alphabet of [generateTempPassword]. *)
Definition chars : string :=
  "ABCDEFGHJKMNPQRSTUVWXYZabcdefghijkmnpqrstuvwxyz23456789!@#$%&*".

(** [s.charAt(i)]: the empty string out of range. *)
Definition charAt (s : string) (i : nat) : string :=
  match String.get i s with
  | Some c => String c EmptyString
  | None => EmptyString
  end.

(** [Math.floor(Math.random() * n)]: [Math.random()] lies in [0, 1), so the
    result is a whole number below [n]; the draw of the environment is reduced
    to that range. *)
Definition Math_floor_random (n : nat) (draw : nat) : nat :=
  Nat.modulo draw n.

(** [for (let i = 0; i < 12; i++) password += chars.charAt(...)], with [n]
    rounds left. *)
Fixpoint generateTempPassword_loop (rnd : nat -> nat) (n i : nat) (password : string)
  : string :=
  match n with
  | O => password
  | S n' =>
      generateTempPassword_loop rnd n' (S i)
        (password ++ charAt chars (Math_floor_random (String.length chars) (rnd i)))
  end.

Definition generateTempPassword : M string :=
  env <- ask ;;
  ret (generateTempPassword_loop (random env) 12 0 "").

(** The alphanumeric glyphs that [chars] leaves out: capital I, L and O,
    small l and o, the digits 0 and 1. *)
Definition ambiguous_glyphs : string := "ILOlo01".

Definition alphanumeric : string :=
  "ABCDEFGHIJKLMNOPQRSTUVWXYZabcdefghijklmnopqrstuvwxyz0123456789".

(** Printable and not a space: code 33 to 126. *)
Definition printable (c : ascii) : bool :=
  andb (Nat.ltb 32 (nat_of_ascii c)) (Nat.ltb (nat_of_ascii c) 127).

Definition mem_string (c : ascii) (s : string) : bool :=
  existsb (Ascii.eqb c) (list_ascii_of_string s).

(** The object handed to [db.updateUser] by [changePassword]. *)
Definition change_updates (hashedNewPassword : string) : Updates :=
  {| set_failed_login_attempts := None;
     set_locked_until := None;
     set_last_login := None;
     set_password_hash := Some hashedNewPassword;
     set_force_password_change := Some false |}.

(** The object handed to [db.updateUser] by [resetUserPassword]. *)
Definition reset_updates (hashedPassword : string) : Updates :=
  {| set_failed_login_attempts := Some 0;
     set_locked_until := Some None;
     set_last_login := None;
     set_password_hash := Some hashedPassword;
     set_force_password_change := Some true |}.

(** The [success] field of what a call returned, when it returned. *)
Definition success_of (r : Res LoginResult) : option bool :=
  match r with
  | Ok x => Some (success x)
  | Throw _ => None
  end.

(** The object [updates] of [login] after a wrong password. *)
Definition failed_updates (env : Env) (u : Row.t) : Updates :=
  {| set_failed_login_attempts := Some (or_zero (Row.failed_login_attempts u) + 1);
     set_locked_until :=
       if 5 <=? or_zero (Row.failed_login_attempts u) + 1
       then Some (Some (clock env AtLockSet + 15 * 60 * 1000))
       else None;
     set_last_login := None;
     set_password_hash := None;
     set_force_password_change := None |}.

(** The object handed to [db.updateUser] by [login] after a right password. *)
Definition success_updates (env : Env) : Updates :=
  {| set_failed_login_attempts := Some 0;
     set_locked_until := Some None;
     set_last_login := Some (clock env AtLastLogin);
     set_password_hash := None;
     set_force_password_change := None |}.

Definition toAuthUser (u : Row.t) : AuthUser.t :=
  {| AuthUser.user_id := Row.user_id u;
     AuthUser.name := Row.name u;
     AuthUser.email := Row.email u;
     AuthUser.role := Row.role u;
     AuthUser.whatsapp_number := Row.whatsapp_number u;
     AuthUser.academic_year := Row.academic_year u;
     AuthUser.current_semester := Row.current_semester u;
     AuthUser.is_active := Row.is_active u;
     AuthUser.force_password_change := Row.force_password_change u;
     AuthUser.last_login := Row.last_login u;
     AuthUser.created_at := Row.created_at u |}.

Definition set_memory_auth (a : AuthUser.t) (tok : string) : M unit :=
  fun _ w =>
    (Ok tt,
     {| users := users w;
        audit_trail := audit_trail w;
        currentUser := Some a;
        authToken := Some tok;
        stored_auth_user := stored_auth_user w;
        stored_auth_token := stored_auth_token w;
        console := console w |}).

Definition setItem_auth_user (a : AuthUser.t) : M unit :=
  fun env w =>
    match setItem_error env "auth_user" with
    | Some m => (Throw (DomError m), w)
    | None =>
        (Ok tt,
         {| users := users w;
            audit_trail := audit_trail w;
            currentUser := currentUser w;
            authToken := authToken w;
            stored_auth_user := Some a;
            stored_auth_token := stored_auth_token w;
            console := console w |})
    end.

Definition setItem_auth_token (tok : string) : M unit :=
  fun env w =>
    match setItem_error env "auth_token" with
    | Some m => (Throw (DomError m), w)
    | None =>
        (Ok tt,
         {| users := users w;
            audit_trail := audit_trail w;
            currentUser := currentUser w;
            authToken := authToken w;
            stored_auth_user := stored_auth_user w;
            stored_auth_token := Some tok;
            console := console w |})
    end.

Section AuthService.

  (** The password library and the token encoding are taken as given:
      [bcrypt.hash(password, 12)] with the salt it drew, [bcrypt.compare], and
      [btoa(JSON.stringify(payload))]. *)
Variable bcrypt_hash : string -> string -> string.
Variable bcrypt_compare : string -> string -> bool.
Variable btoa_json : TokenPayload -> string.

Definition hashPassword (password : string) : M string :=
    env <- ask ;; ret (bcrypt_hash password (bcrypt_salt env)).

Definition verifyPassword (password hash : string) : M bool :=
    ret (bcrypt_compare password hash).

Definition generateToken (a : AuthUser.t) : M string :=
    t_iat <- now AtTokenIat ;;
    t_exp <- now AtTokenExp ;;
    ret (btoa_json
           {| tok_user_id := AuthUser.user_id a;
              tok_role := AuthUser.role a;
              iat := t_iat;
              exp := t_exp + 2 * 60 * 60 * 1000 |}).

Definition storeAuth (a : AuthUser.t) (tok : string) : M unit :=
    set_memory_auth a tok ;;;
    setItem_auth_user a ;;;
    setItem_auth_token tok.

  (** The token [generateToken] mints for a row. *)
Definition minted (env : Env) (u : Row.t) : string :=
    btoa_json
      {| tok_user_id := Row.user_id u;
         tok_role := Row.role u;
         iat := clock env AtTokenIat;
         exp := clock env AtTokenExp + 2 * 60 * 60 * 1000 |}.

Definition success_result (env : Env) (u : Row.t) : LoginResult :=
    {| success := true; user := Some (toAuthUser u); token := Some (minted env u);
       error := None |}.

  (** The whole body is inside [try], so a failing insert is only logged. *)
Definition logAuditEvent (userId : option string) (action details : string) : M unit :=
    try_catch
      (env <- ask ;;
       t <- now AtAuditCreated ;;
       db_createAuditLog
         {| Audit.user_id := userId;
            Audit.action := action;
            Audit.details := JsonMessage details;
            Audit.ip_address := "127.0.0.1";
            Audit.user_agent := userAgent env;
            Audit.created_at := t |} ;;;
       ret tt)
      (fun e => console_error "Failed to log audit event:" e).

  (** The [try] block of [login]. *)
Definition login_body (credentials : LoginCredentials) : M LoginResult :=
    found <- db_getUserByUsername (username credentials) ;;
    match found with
    | None =>
        logAuditEvent None "LOGIN_FAILED"
          ("Failed login attempt for username: " ++ username credentials) ;;;
        ret invalid_credentials
    | Some u =>
        if negb (Row.is_active u) then ret account_inactive
        else
          locked <- match Row.locked_until u with
                    | Some l => t <- now AtLockCheck ;; ret (t <? l)
                    | None => ret false
                    end ;;
          if (locked : bool) then ret account_locked
          else
            isValidPassword <- verifyPassword (password credentials) (Row.password_hash u) ;;
            if negb isValidPassword then
              let failedAttempts := or_zero (Row.failed_login_attempts u) + 1 in
              lock <- (if 5 <=? failedAttempts
                       then t <- now AtLockSet ;; ret (Some (Some (t + 15 * 60 * 1000)))
                       else ret None) ;;
              db_updateUser (Row.user_id u)
                {| set_failed_login_attempts := Some failedAttempts;
                   set_locked_until := lock;
                   set_last_login := None;
                   set_password_hash := None;
                   set_force_password_change := None |} ;;;
              logAuditEvent (Some (Row.user_id u)) "LOGIN_FAILED"
                ("Failed login attempt for user: " ++ Row.name u) ;;;
              ret invalid_credentials
            else
              t <- now AtLastLogin ;;
              db_updateUser (Row.user_id u)
                {| set_failed_login_attempts := Some 0;
                   set_locked_until := Some None;
                   set_last_login := Some t;
                   set_password_hash := None;
                   set_force_password_change := None |} ;;;
              let authUser := toAuthUser u in
              tok <- generateToken authUser ;;
              storeAuth authUser tok ;;;
              logAuditEvent (Some (Row.user_id u)) "LOGIN_SUCCESS"
                "User logged in successfully" ;;;
              ret {| success := true; user := Some authUser; token := Some tok;
                     error := None |}
    end.

Definition login (credentials : LoginCredentials) : M LoginResult :=
    try_catch (login_body credentials)
      (fun e => console_error "Login error:" e ;;; ret system_error).

Definition changePassword_body (userId currentPassword newPassword : string)
    : M ChangeResult :=
    found <- db_getUserById userId ;;
    match found with
    | None => ret {| c_success := false; c_error := Some "User not found" |}
    | Some u =>
        isValidPassword <- verifyPassword currentPassword (Row.password_hash u) ;;
        if negb isValidPassword then
          ret {| c_success := false; c_error := Some "Current password is incorrect" |}
        else
          hashedNewPassword <- hashPassword newPassword ;;
          db_updateUser userId
            {| set_failed_login_attempts := None;
               set_locked_until := None;
               set_last_login := None;
               set_password_hash := Some hashedNewPassword;
               set_force_password_change := Some false |} ;;;
          logAuditEvent (Some userId) "PASSWORD_CHANGE" "Password changed successfully" ;;;
          ret {| c_success := true; c_error := None |}
    end.

Definition changePassword (userId currentPassword newPassword : string)
    : M ChangeResult :=
    try_catch (changePassword_body userId currentPassword newPassword)
      (fun e =>
         console_error "Change password error:" e ;;;
         ret {| c_success := false; c_error := Some "Failed to change password" |}).

Definition resetUserPassword_body (userId : string) : M ResetResult :=
    tempPassword <- generateTempPassword ;;
    hashedPassword <- hashPassword tempPassword ;;
    db_updateUser userId
      {| set_failed_login_attempts := Some 0;
         set_locked_until := Some None;
         set_last_login := None;
         set_password_hash := Some hashedPassword;
         set_force_password_change := Some true |} ;;;
    w <- get_world ;;
    logAuditEvent
      (or_null (option_map AuthUser.user_id (currentUser w)))
      "PASSWORD_RESET" ("Reset password for user: " ++ userId) ;;;
    ret {| r_success := true; r_tempPassword := Some tempPassword; r_error := None |}.

Definition resetUserPassword (userId : string) : M ResetResult :=
    try_catch (resetUserPassword_body userId)
      (fun e =>
         console_error "Reset password error:" e ;;;
         ret {| r_success := false; r_tempPassword := None;
                r_error := Some "Failed to reset password" |}).

  (** Consecutive calls of [login], each with the answers of its own
      environment, on the world the previous call left. *)
Fixpoint login_seq (attempts : list (Env * LoginCredentials)) (w : World)
    : list (Res LoginResult) * World :=
    match attempts with
    | [] => ([], w)
    | (env, credentials) :: rest =>
        let (r, w') := login credentials env w in
        let (rs, w'') := login_seq rest w' in
        (r :: rs, w'')
    end.

End AuthService.

(** ** Sample data

    A toy password library and a three-account table, on which the theorems
    below are instantiated. *)

Module Sample.

Definition hash (password salt : string) : string := salt ++ "$" ++ password.

Definition compare (password h : string) : bool :=
    String.eqb h ("s1$" ++ password).

Definition encode (p : TokenPayload) : string := "token:" ++ tok_user_id p.

  (** Active, four failures on record, never locked. *)
Definition alice : Row.t :=
    {| Row.user_id := "STD-000001-AAA";
       Row.name := "alice";
       Row.email := "alice@example.org";
       Row.role := student;
       Row.password_hash := "s1$wonderland";
       Row.whatsapp_number := None;
       Row.academic_year := Some 2024;
       Row.current_semester := Some 3;
       Row.is_active := true;
       Row.force_password_change := false;
       Row.failed_login_attempts := Some 4;
       Row.locked_until := None;
       Row.last_login := Some 500;
       Row.created_at := 100 |}.

  (** Deactivated, no failure on record, never locked. *)
Definition bob : Row.t :=
    {| Row.user_id := "TCH-000002-BBB";
       Row.name := "bob";
       Row.email := "bob@example.org";
       Row.role := teacher;
       Row.password_hash := "s1$builder";
       Row.whatsapp_number := None;
       Row.academic_year := None;
       Row.current_semester := None;
       Row.is_active := false;
       Row.force_password_change := false;
       Row.failed_login_attempts := Some 0;
       Row.locked_until := None;
       Row.last_login := None;
       Row.created_at := 100 |}.

  (** Active, five failures on record, locked until 5000. *)
Definition carol : Row.t :=
    {| Row.user_id := "ADM-000003-CCC";
       Row.name := "carol";
       Row.email := "carol@example.org";
       Row.role := admin;
       Row.password_hash := "s1$singer";
       Row.whatsapp_number := None;
       Row.academic_year := None;
       Row.current_semester := None;
       Row.is_active := true;
       Row.force_password_change := true;
       Row.failed_login_attempts := Some 5;
       Row.locked_until := Some 5000;
       Row.last_login := None;
       Row.created_at := 100 |}.

  (** Deactivated after a lockout that has since run out at 5000. *)
Definition dave : Row.t :=
    {| Row.user_id := "STD-000004-DDD";
       Row.name := "dave";
       Row.email := "dave@example.org";
       Row.role := student;
       Row.password_hash := "s1$diver";
       Row.whatsapp_number := None;
       Row.academic_year := None;
       Row.current_semester := None;
       Row.is_active := false;
       Row.force_password_change := false;
       Row.failed_login_attempts := Some 5;
       Row.locked_until := Some 5000;
       Row.last_login := None;
       Row.created_at := 100 |}.

Definition world : World :=
    {| users := [alice; bob; carol; dave];
       audit_trail := [];
       currentUser := None;
       authToken := None;
       stored_auth_user := None;
       stored_auth_token := None;
       console := [] |}.

  (** Every clock reading is [t]; the store and the browser answer. *)
Definition env_at (t : Z) : Env :=
    {| clock := fun _ => t;
       select_error := None;
       update_error := None;
       insert_error := None;
       setItem_error := fun _ => None;
       random := fun i => (7 * i + 3)%nat;
       bcrypt_salt := "s1";
       userAgent := "Mozilla/5.0" |}.

  (** The select is refused by the store. *)
Definition env_down (t : Z) : Env :=
    {| clock := fun _ => t;
       select_error := Some {| code := "08006"; message := "connection failure" |};
       update_error := None;
       insert_error := None;
       setItem_error := fun _ => None;
       random := fun i => (7 * i + 3)%nat;
       bcrypt_salt := "s1";
       userAgent := "Mozilla/5.0" |}.

Definition creds (u p : string) : LoginCredentials :=
    {| username := u; password := p |}.

Definition login := login compare encode.
Definition changePassword := changePassword hash compare.
Definition resetUserPassword := resetUserPassword hash.

End Sample.

(** ** The rest of [services/authService.ts]

    The calls below ask the store and the clock questions that [login] never
    asks; their answers are gathered apart from [Env]. *)

(** What the store answers to an insert or a delete on [users], and the
    default the table gives [created_at]. *)
Record StoreAnswers : Type := {
  users_insert_error : option PostgrestError;
  users_delete_error : option PostgrestError;
  default_created_at : Z
}.

(** What [generateUserId] reads: [Date.now()] and
    [Math.random().toString(36).substring(2, 5).toUpperCase()]. *)
Record IdAnswers : Type := {
  id_now : Z;
  id_random36 : string
}.

Record CreateUserData : Type := {
  cu_user_id : string;
  cu_name : string;
  cu_email : string;
  cu_role : Role;
  cu_password : string;
  cu_whatsapp_number : option string;
  cu_academic_year : option Z;
  cu_current_semester : option Z
}.

Record CreateResult : Type := {
  cr_success : bool;
  cr_user : option AuthUser.t;
  cr_tempPassword : option string;
  cr_error : option string
}.

(** The string of a role, as the union type spells it. *)
Definition role_name (r : Role) : string :=
  match r with
  | admin => "admin"
  | teacher => "teacher"
  | student => "student"
  end.

(** [s.includes(sub)] *)
Fixpoint includes (s sub : string) : bool :=
  if String.prefix sub s then true
  else match s with
       | EmptyString => false
       | String _ s' => includes s' sub
       end.

(** [s.slice(-n)]: the last [n] glyphs, the whole string when it is shorter. *)
Definition slice_last (n : nat) (s : string) : string :=
  String.substring (String.length s - n) n s.

(** [t.toString()] for a clock reading: the decimal digits, with the sign
    when it is negative. *)
Definition Number_toString (t : Z) : string :=
  NilZero.string_of_int (Z.to_int t).

Definition generateUserId (ids : IdAnswers) (role : string) : string :=
  let prefix := if String.eqb role "admin" then "ADM"
                else if String.eqb role "teacher" then "TCH" else "STD" in
  let timestamp := slice_last 6 (Number_toString (id_now ids)) in
  prefix ++ "-" ++ timestamp ++ "-" ++ id_random36 ids.

Definition clearAuth : M unit :=
  fun _ w =>
    (Ok tt,
     {| users := users w;
        audit_trail := audit_trail w;
        currentUser := None;
        authToken := None;
        stored_auth_user := None;
        stored_auth_token := None;
        console := console w |}).

Definition getCurrentUser : M (option AuthUser.t) :=
  w <- get_world ;; ret (currentUser w).

Definition getAuthToken : M (option string) :=
  w <- get_world ;; ret (authToken w).

(** [this.currentUser !== null && this.authToken !== null] *)
Definition isAuthenticated : M bool :=
  w <- get_world ;;
  ret (match currentUser w, authToken w with
       | Some _, Some _ => true
       | _, _ => false
       end).

Definition logout : M unit :=
  w <- get_world ;;
  match currentUser w with
  | Some a => logAuditEvent (Some (AuthUser.user_id a)) "LOGOUT" "User logged out"
  | None => ret tt
  end ;;;
  clearAuth.

(** [supabase.from('users').insert([userData]).select().single()], then
    [if (error) throw error]. *)
Definition db_createUser (ans : StoreAnswers) (row : Row.t) : M Row.t :=
  w <- get_world ;;
  match users_insert_error ans with
  | Some e => throw (DbError e)
  | None => put_world (with_users (users w ++ [row]) w) ;;; ret row
  end.

(** [supabase.from('users').delete().eq('user_id', userId)]: no [single()],
    so deleting nothing is no error. *)
Definition db_deleteUser (ans : StoreAnswers) (userId : string) : M bool :=
  w <- get_world ;;
  match users_delete_error ans with
  | Some e => throw (DbError e)
  | None =>
      put_world (with_users (filter (fun r => negb (eq_user_id userId r)) (users w)) w) ;;;
      ret true
  end.

(** [db.updateUser] for any update object, [f] being what the object does to
    a row. *)
Definition db_updateUser_with (userId : string) (f : Row.t -> Row.t) : M Row.t :=
  env <- ask ;;
  w <- get_world ;;
  match update_error env with
  | Some e => throw (DbError e)
  | None =>
      match single (filter (eq_user_id userId) (users w)) with
      | Some r =>
          put_world
            (with_users (map (fun x => if eq_user_id userId x then f x else x) (users w))
               w) ;;;
          ret (f r)
      | None => throw (DbError PGRST116)
      end
  end.

Definition create_result_error (msg : string) : CreateResult :=
  {| cr_success := false; cr_user := None; cr_tempPassword := None;
     cr_error := Some msg |}.

(** The [catch] of [createUser]: [error.code === '23505'], then the message
    is searched for the column. *)
Definition createUser_catch (e : Exn) : CreateResult :=
  match e with
  | DbError pe =>
      if String.eqb (code pe) "23505" then
        if includes (message pe) "email"
        then create_result_error "Email address already exists"
        else if includes (message pe) "user_id"
             then create_result_error "User ID already exists"
             else create_result_error "Failed to create user"
      else create_result_error "Failed to create user"
  | DomError _ => create_result_error "Failed to create user"
  end.

Section Administration.

(** [bcrypt.hash(password, 12)] with the salt it drew. *)
Variable bcrypt_hash : string -> string -> string.

(** The object [newUser] of [createUser] as the row the table stores: the
    columns the object leaves out are null, [created_at] takes its default. *)
Definition newUser_row (ans : StoreAnswers) (userData : CreateUserData)
           (hashedPassword : string) : Row.t :=
  {| Row.user_id := cu_user_id userData;
     Row.name := cu_name userData;
     Row.email := cu_email userData;
     Row.role := cu_role userData;
     Row.password_hash := hashedPassword;
     Row.whatsapp_number := cu_whatsapp_number userData;
     Row.academic_year := cu_academic_year userData;
     Row.current_semester := cu_current_semester userData;
     Row.is_active := true;
     Row.force_password_change := true;
     Row.failed_login_attempts := Some 0;
     Row.locked_until := None;
     Row.last_login := None;
     Row.created_at := default_created_at ans |}.

(** The [authUser] of [createUser]: the created row without [last_login]. *)
Definition created_authUser (createdUser : Row.t) : AuthUser.t :=
  {| AuthUser.user_id := Row.user_id createdUser;
     AuthUser.name := Row.name createdUser;
     AuthUser.email := Row.email createdUser;
     AuthUser.role := Row.role createdUser;
     AuthUser.whatsapp_number := Row.whatsapp_number createdUser;
     AuthUser.academic_year := Row.academic_year createdUser;
     AuthUser.current_semester := Row.current_semester createdUser;
     AuthUser.is_active := Row.is_active createdUser;
     AuthUser.force_password_change := Row.force_password_change createdUser;
     AuthUser.last_login := None;
     AuthUser.created_at := Row.created_at createdUser |}.

Definition createUser_body (ans : StoreAnswers) (userData : CreateUserData)
  : M CreateResult :=
  tempPassword <- generateTempPassword ;;
  hashedPassword <- hashPassword bcrypt_hash tempPassword ;;
  createdUser <- db_createUser ans (newUser_row ans userData hashedPassword) ;;
  let authUser := created_authUser createdUser in
  w <- get_world ;;
  logAuditEvent
    (or_null (option_map AuthUser.user_id (currentUser w)))
    "USER_CREATE"
    ("Created new " ++ role_name (cu_role userData) ++ ": " ++ cu_name userData) ;;;
  ret {| cr_success := true; cr_user := Some authUser;
         cr_tempPassword := Some tempPassword; cr_error := None |}.

Definition createUser (ans : StoreAnswers) (userData : CreateUserData) : M CreateResult :=
  try_catch (createUser_body ans userData)
    (fun e => console_error "Create user error:" e ;;; ret (createUser_catch e)).

End Administration.

(** ** [services/userService.ts] *)

(** The object handed to [userService.updateUser]. *)
Record ProfileUpdates : Type := {
  set_name : option string;
  set_email : option string;
  set_whatsapp_number : option string;
  set_academic_year : option Z;
  set_current_semester : option Z;
  set_is_active : option bool
}.

Definition apply_profile_updates (p : ProfileUpdates) (r : Row.t) : Row.t :=
  {| Row.user_id := Row.user_id r;
     Row.name := or_else (set_name p) (Row.name r);
     Row.email := or_else (set_email p) (Row.email r);
     Row.role := Row.role r;
     Row.password_hash := Row.password_hash r;
     Row.whatsapp_number :=
       match set_whatsapp_number p with
       | Some x => Some x
       | None => Row.whatsapp_number r
       end;
     Row.academic_year :=
       match set_academic_year p with
       | Some x => Some x
       | None => Row.academic_year r
       end;
     Row.current_semester :=
       match set_current_semester p with
       | Some x => Some x
       | None => Row.current_semester r
       end;
     Row.is_active := or_else (set_is_active p) (Row.is_active r);
     Row.force_password_change := Row.force_password_change r;
     Row.failed_login_attempts := Row.failed_login_attempts r;
     Row.locked_until := Row.locked_until r;
     Row.last_login := Row.last_login r;
     Row.created_at := Row.created_at r |}.

(** [{ is_active: !user.is_active }] *)
Definition toggle_updates (u : Row.t) : ProfileUpdates :=
  {| set_name := None;
     set_email := None;
     set_whatsapp_number := None;
     set_academic_year := None;
     set_current_semester := None;
     set_is_active := Some (negb (Row.is_active u)) |}.

Record UserResult : Type := {
  u_success : bool;
  u_user : option AuthUser.t;
  u_error : option string
}.

Definition user_result_error (msg : string) : UserResult :=
  {| u_success := false; u_user := None; u_error := Some msg |}.

(** The [catch] of [userService.updateUser]. *)
Definition updateUser_catch (e : Exn) : UserResult :=
  match e with
  | DbError pe =>
      if andb (String.eqb (code pe) "23505") (includes (message pe) "email")
      then user_result_error "Email address already exists"
      else user_result_error "Failed to update user"
  | DomError _ => user_result_error "Failed to update user"
  end.

Module UserService.

Definition updateUser (userId : string) (updates : ProfileUpdates) : M UserResult :=
  try_catch
    (updatedUser <- db_updateUser_with userId (apply_profile_updates updates) ;;
     ret {| u_success := true; u_user := Some (toAuthUser updatedUser); u_error := None |})
    (fun e => console_error "Error updating user:" e ;;; ret (updateUser_catch e)).

Definition deleteUser (ans : StoreAnswers) (userId : string) : M ChangeResult :=
  try_catch
    (db_deleteUser ans userId ;;;
     ret {| c_success := true; c_error := None |})
    (fun e =>
       console_error "Error deleting user:" e ;;;
       ret {| c_success := false; c_error := Some "Failed to delete user" |}).

Definition toggleUserStatus (userId : string) : M UserResult :=
  try_catch
    (found <- db_getUserById userId ;;
     match found with
     | None => ret (user_result_error "User not found")
     | Some u => updateUser userId (toggle_updates u)
     end)
    (fun e =>
       console_error "Error toggling user status:" e ;;;
       ret (user_result_error "Failed to toggle user status")).

(** [createUser]: the identifier is generated, the password field is empty. *)
Definition createUser (bcrypt_hash : string -> string -> string)
           (ids : IdAnswers) (ans : StoreAnswers)
           (name email : string) (role : Role)
           (whatsapp_number : option string) (academic_year current_semester : option Z)
  : M CreateResult :=
  try_catch
    (let userId := generateUserId ids (role_name role) in
     createUser bcrypt_hash ans
       {| cu_user_id := userId;
          cu_name := name;
          cu_email := email;
          cu_role := role;
          cu_password := "";
          cu_whatsapp_number := whatsapp_number;
          cu_academic_year := academic_year;
          cu_current_semester := current_semester |})
    (fun e =>
       console_error "Error creating user:" e ;;;
       ret (create_result_error "Failed to create user")).

End UserService.

(** ** [contexts/AuthContext.tsx] *)

(** The fields of a login result, under names the provider's state does not
    take. *)
Abbreviation result_user := user.
Abbreviation result_token := token.

Module AuthContext.

Record AuthState : Type := {
  user : option AuthUser.t;
  token : option string;
  isAuthenticated : bool;
  isLoading : bool
}.

Inductive AuthAction : Type :=
| SET_LOADING (payload : bool)
| LOGIN_SUCCESS (payload_user : AuthUser.t) (payload_token : string)
| LOGIN_FAILURE
| LOGOUT
| UPDATE_USER (payload : AuthUser.t).

Definition authReducer (state : AuthState) (action : AuthAction) : AuthState :=
  match action with
  | SET_LOADING b =>
      {| user := user state; token := token state;
         isAuthenticated := isAuthenticated state; isLoading := b |}
  | LOGIN_SUCCESS a tok =>
      {| user := Some a; token := Some tok; isAuthenticated := true; isLoading := false |}
  | LOGIN_FAILURE =>
      {| user := None; token := None; isAuthenticated := false; isLoading := false |}
  | LOGOUT =>
      {| user := None; token := None; isAuthenticated := false; isLoading := false |}
  | UPDATE_USER a =>
      {| user := Some a; token := token state;
         isAuthenticated := isAuthenticated state; isLoading := isLoading state |}
  end.

Definition initialState : AuthState :=
  {| user := None; token := None; isAuthenticated := false; isLoading := true |}.

(** The state after the actions dispatched, in order. *)
Definition dispatch_all (state : AuthState) (actions : list AuthAction) : AuthState :=
  fold_left authReducer actions state.

(** [{ ...state.user, force_password_change: false }] *)
Definition password_changed (a : AuthUser.t) : AuthUser.t :=
  {| AuthUser.user_id := AuthUser.user_id a;
     AuthUser.name := AuthUser.name a;
     AuthUser.email := AuthUser.email a;
     AuthUser.role := AuthUser.role a;
     AuthUser.whatsapp_number := AuthUser.whatsapp_number a;
     AuthUser.academic_year := AuthUser.academic_year a;
     AuthUser.current_semester := AuthUser.current_semester a;
     AuthUser.is_active := AuthUser.is_active a;
     AuthUser.force_password_change := false;
     AuthUser.last_login := AuthUser.last_login a;
     AuthUser.created_at := AuthUser.created_at a |}.

Section Provider.

Variable bcrypt_hash : string -> string -> string.
Variable bcrypt_compare : string -> string -> bool.
Variable btoa_json : TokenPayload -> string.

(** [login] of the provider: the result handed back and the state after the
    two dispatches. [result.token] is truthy when it is not the empty string. *)
Definition login (state : AuthState) (credentials : LoginCredentials)
  : M (ChangeResult * AuthState) :=
  let state1 := authReducer state (SET_LOADING true) in
  result <- login bcrypt_compare btoa_json credentials ;;
  match success result, result_user result, result_token result with
  | true, Some a, Some (String c tok) =>
      ret ({| c_success := true; c_error := None |},
           authReducer state1 (LOGIN_SUCCESS a (String c tok)))
  | _, _, _ =>
      ret ({| c_success := false; c_error := error result |},
           authReducer state1 LOGIN_FAILURE)
  end.

Definition logout (state : AuthState) : M AuthState :=
  logout ;;;
  ret (authReducer state LOGOUT).

Definition changePassword (state : AuthState) (currentPassword newPassword : string)
  : M (ChangeResult * AuthState) :=
  match user state with
  | None => ret ({| c_success := false; c_error := Some "User not authenticated" |}, state)
  | Some a =>
      result <- changePassword bcrypt_hash bcrypt_compare
                  (AuthUser.user_id a) currentPassword newPassword ;;
      if c_success result
      then ret (result, authReducer state (UPDATE_USER (password_changed a)))
      else ret (result, state)
  end.

End Provider.

End AuthContext.

(** ** Observations on a world *)

(** The session the service holds: in memory and in the browser storage. *)
Definition session_of (w : World)
  : option AuthUser.t * option string * option AuthUser.t * option string :=
  (currentUser w, authToken w, stored_auth_user w, stored_auth_token w).

(** The audit trail grew by at most one row, at its end. *)
Definition audit_step (w w' : World) : Prop :=
  audit_trail w' = audit_trail w \/
  exists row, audit_trail w' = (audit_trail w ++ [row])%list.

(** A row with the three columns [login] writes blanked: what is left is the
    identity, the credential and the lifecycle flags. *)
Definition identity_of (r : Row.t) : Row.t :=
  {| Row.user_id := Row.user_id r;
     Row.name := Row.name r;
     Row.email := Row.email r;
     Row.role := Row.role r;
     Row.password_hash := Row.password_hash r;
     Row.whatsapp_number := Row.whatsapp_number r;
     Row.academic_year := Row.academic_year r;
     Row.current_semester := Row.current_semester r;
     Row.is_active := Row.is_active r;
     Row.force_password_change := Row.force_password_change r;
     Row.failed_login_attempts := None;
     Row.locked_until := None;
     Row.last_login := None;
     Row.created_at := Row.created_at r |}.

(** An attempt on the account [u] with a wrong password, the store answering,
    made when [locked_until] of [u] is not in the future. *)
Definition wrong_attempt_on (bcrypt_compare : string -> string -> bool)
           (u : Row.t) (a : Env * LoginCredentials) : Prop :=
  select_error (fst a) = None /\
  update_error (fst a) = None /\
  username (snd a) = Row.name u /\
  bcrypt_compare (password (snd a)) (Row.password_hash u) = false /\
  is_locked (Row.locked_until u) (clock (fst a) AtLockCheck) = false.

(** ** Sample answers for the administration calls *)

Module Desk.

Definition answers : StoreAnswers :=
  {| users_insert_error := None;
     users_delete_error := None;
     default_created_at := 7000 |}.

Definition email_taken : StoreAnswers :=
  {| users_insert_error :=
       Some {| code := "23505";
               message := "duplicate key value violates unique constraint users_email_key" |};
     users_delete_error := None;
     default_created_at := 7000 |}.

Definition ids : IdAnswers :=
  {| id_now := 1730000123456; id_random36 := "K3F" |}.

Definition erin : CreateUserData :=
  {| cu_user_id := "STD-123456-K3F";
     cu_name := "erin";
     cu_email := "erin@example.org";
     cu_role := student;
     cu_password := "chosen";
     cu_whatsapp_number := None;
     cu_academic_year := Some 2025;
     cu_current_semester := Some 1 |}.

(** The update is refused by the store. *)
Definition env_update_down (t : Z) : Env :=
  {| clock := fun _ => t;
     select_error := None;
     update_error := Some {| code := "08006"; message := "connection failure" |};
     insert_error := None;
     setItem_error := fun _ => None;
     random := fun i => (7 * i + 3)%nat;
     bcrypt_salt := "s1";
     userAgent := "Mozilla/5.0" |}.

(** The browser refuses to store the profile. *)
Definition env_storage_full (t : Z) : Env :=
  {| clock := fun _ => t;
     select_error := None;
     update_error := None;
     insert_error := None;
     setItem_error := fun k => if String.eqb k "auth_user" then Some "QuotaExceededError"
                               else None;
     random := fun i => (7 * i + 3)%nat;
     bcrypt_salt := "s1";
     userAgent := "Mozilla/5.0" |}.

(** Active, no failure on record, never locked. *)
Definition frank : Row.t :=
  {| Row.user_id := "TCH-000005-FFF";
     Row.name := "frank";
     Row.email := "frank@example.org";
     Row.role := teacher;
     Row.password_hash := "s1$sinatra";
     Row.whatsapp_number := None;
     Row.academic_year := None;
     Row.current_semester := None;
     Row.is_active := true;
     Row.force_password_change := false;
     Row.failed_login_attempts := Some 0;
     Row.locked_until := None;
     Row.last_login := None;
     Row.created_at := 100 |}.

(** The sample table with [frank], and [carol] logged in. *)
Definition office : World :=
  {| users := [Sample.alice; Sample.bob; Sample.carol; Sample.dave; frank];
     audit_trail := [];
     currentUser := Some (toAuthUser Sample.carol);
     authToken := Some "token:ADM-000003-CCC";
     stored_auth_user := Some (toAuthUser Sample.carol);
     stored_auth_token := Some "token:ADM-000003-CCC";
     console := [] |}.

(** The provider's state with [carol] logged in. *)
Definition carol_in : AuthContext.AuthState :=
  {| AuthContext.user := Some (toAuthUser Sample.carol);
     AuthContext.token := Some "token:ADM-000003-CCC";
     AuthContext.isAuthenticated := true;
     AuthContext.isLoading := false |}.

Definition wrong (t : Z) (p : string) : Env * LoginCredentials :=
  (Sample.env_at t, Sample.creds "frank" p).

End Desk.

(** ** Lemmas on the store *)

Lemma single_map {A B : Type} (f : A -> B) (l : list A) :
  single (map f l) = option_map f (single l).
Proof.
  destruct l as [|a [|b l]]; reflexivity.
Qed.

Lemma filter_map_stable {A : Type} (p : A -> bool) (f : A -> A) (l : list A) :
  (forall x, p (f x) = p x) ->
  filter p (map f l) = map f (filter p l).
Proof.
  intros Hp. induction l as [|a l IH]; simpl.
  - reflexivity.
  - rewrite Hp. destruct (p a); simpl; rewrite IH; reflexivity.
Qed.

Lemma single_In {A : Type} (l : list A) (a : A) :
  single l = Some a -> l = [a].
Proof.
  destruct l as [|x [|y l]]; simpl; intros H; inversion H; reflexivity.
Qed.

Lemma apply_updates_user_id (upd : Updates) (r : Row.t) :
  Row.user_id (apply_updates upd r) = Row.user_id r.
Proof. reflexivity. Qed.

Lemma apply_updates_name (upd : Updates) (r : Row.t) :
  Row.name (apply_updates upd r) = Row.name r.
Proof. reflexivity. Qed.

Lemma eq_user_id_updated (userId id : string) (upd : Updates) (x : Row.t) :
  eq_user_id id (if eq_user_id userId x then apply_updates upd x else x) = eq_user_id id x.
Proof.
  destruct (eq_user_id userId x); reflexivity.
Qed.

Lemma eq_name_updated (userId h : string) (upd : Updates) (x : Row.t) :
  eq_name h (if eq_user_id userId x then apply_updates upd x else x) = eq_name h x.
Proof.
  destruct (eq_user_id userId x); reflexivity.
Qed.

Lemma by_id_after_update (userId : string) (upd : Updates) (us : list Row.t) (r : Row.t) :
  single (filter (eq_user_id userId) us) = Some r ->
  single (filter (eq_user_id userId) (updated_users userId upd us))
  = Some (apply_updates upd r).
Proof.
  intros H. unfold updated_users.
  rewrite filter_map_stable by (intros x; apply eq_user_id_updated).
  rewrite single_map, H. simpl.
  apply single_In in H.
  assert (Hin : In r (filter (eq_user_id userId) us)) by (rewrite H; left; reflexivity).
  apply filter_In in Hin. destruct Hin as [_ Hid]. rewrite Hid. reflexivity.
Qed.

Lemma by_name_after_update (userId h : string) (upd : Updates) (us : list Row.t) (r : Row.t) :
  single (filter (eq_name h) us) = Some r ->
  eq_user_id userId r = true ->
  single (filter (eq_name h) (updated_users userId upd us))
  = Some (apply_updates upd r).
Proof.
  intros H Hid. unfold updated_users.
  rewrite filter_map_stable by (intros x; apply eq_name_updated).
  rewrite single_map, H. simpl. rewrite Hid. reflexivity.
Qed.

Lemma eq_user_id_refl (r : Row.t) : eq_user_id (Row.user_id r) r = true.
Proof. unfold eq_user_id. apply String.eqb_refl. Qed.

(** ** The helpers of [lib/supabase.ts], run *)

Lemma db_getUserByUsername_found (h : string) (env : Env) (w : World) (u : Row.t) :
  select_error env = None ->
  single (filter (eq_name h) (users w)) = Some u ->
  db_getUserByUsername h env w = (Ok (Some u), w).
Proof.
  intros He Hs.
  unfold db_getUserByUsername, select_single, bind, ask, get_world, ret.
  rewrite He, Hs. reflexivity.
Qed.

Lemma db_getUserByUsername_absent (h : string) (env : Env) (w : World) :
  select_error env = None ->
  single (filter (eq_name h) (users w)) = None ->
  db_getUserByUsername h env w = (Ok None, w).
Proof.
  intros He Hs.
  unfold db_getUserByUsername, select_single, bind, ask, get_world, ret.
  rewrite He, Hs. reflexivity.
Qed.

Lemma db_getUserById_found (id : string) (env : Env) (w : World) (u : Row.t) :
  select_error env = None ->
  single (filter (eq_user_id id) (users w)) = Some u ->
  db_getUserById id env w = (Ok (Some u), w).
Proof.
  intros He Hs.
  unfold db_getUserById, select_single, bind, ask, get_world, ret.
  rewrite He, Hs. reflexivity.
Qed.

(** A lookup never changes the world, whatever it answers. *)
Lemma db_getUserByUsername_world (h : string) (env : Env) (w : World) :
  snd (db_getUserByUsername h env w) = w.
Proof.
  unfold db_getUserByUsername, select_single, bind, ask, get_world, ret, throw.
  destruct (select_error env) as [e|]; simpl.
  - destruct (negb (code e =? "PGRST116")%string); reflexivity.
  - destruct (single (filter (eq_name h) (users w))); reflexivity.
Qed.

(** What a lookup by handle can answer: a row of the table that bears the
    handle, or nothing. *)
Lemma db_getUserByUsername_some (h : string) (env : Env) (w : World) (u : Row.t) :
  fst (db_getUserByUsername h env w) = Ok (Some u) ->
  single (filter (eq_name h) (users w)) = Some u.
Proof.
  unfold db_getUserByUsername, select_single, bind, ask, get_world, ret, throw.
  destruct (select_error env) as [e|]; simpl.
  - destruct (negb (code e =? "PGRST116")%string); simpl; discriminate.
  - destruct (single (filter (eq_name h) (users w))); simpl; congruence.
Qed.

Lemma db_updateUser_ok (id : string) (upd : Updates) (env : Env) (w : World) (r : Row.t) :
  update_error env = None ->
  single (filter (eq_user_id id) (users w)) = Some r ->
  db_updateUser id upd env w
  = (Ok (apply_updates upd r), with_users (updated_users id upd (users w)) w).
Proof.
  intros He Hs.
  unfold db_updateUser, bind, ask, get_world, put_world, ret.
  rewrite He, Hs. reflexivity.
Qed.

(** An update either throws and leaves the world alone, or rewrites exactly
    the one row that bears the identifier. *)
Lemma db_updateUser_cases (id : string) (upd : Updates) (env : Env) (w : World) :
  (exists e, db_updateUser id upd env w = (Throw e, w) /\
             (update_error env = None ->
              single (filter (eq_user_id id) (users w)) = None)) \/
  (exists r, update_error env = None /\
             single (filter (eq_user_id id) (users w)) = Some r /\
             db_updateUser id upd env w
             = (Ok (apply_updates upd r), with_users (updated_users id upd (users w)) w)).
Proof.
  unfold db_updateUser, bind, ask, get_world, put_world, ret, throw.
  destruct (update_error env) as [e|] eqn:He.
  - left. eexists. split; [reflexivity | discriminate].
  - destruct (single (filter (eq_user_id id) (users w))) as [r|] eqn:Hs.
    + right. exists r. repeat split; reflexivity.
    + left. eexists. split; reflexivity.
Qed.

(** ** [logAuditEvent] never throws and never touches the [users] table *)

Section AuditLemmas.

Lemma logAuditEvent_ok (actor : option string) (action details : string)
        (env : Env) (w : World) :
    insert_error env = None ->
    logAuditEvent actor action details env w
    = (Ok tt,
       with_audit
         (audit_trail w ++
            [{| Audit.user_id := actor;
                Audit.action := action;
                Audit.details := JsonMessage details;
                Audit.ip_address := "127.0.0.1";
                Audit.user_agent := userAgent env;
                Audit.created_at := clock env AtAuditCreated |}])
         w).
  Proof.
    intros He.
    unfold logAuditEvent, try_catch, db_createAuditLog, now, bind, ask, get_world,
      put_world, ret.
    rewrite He. reflexivity.
  Qed.

Lemma logAuditEvent_total (actor : option string) (action details : string)
        (env : Env) (w : World) :
    exists w',
      logAuditEvent actor action details env w = (Ok tt, w') /\
      users w' = users w.
  Proof.
    unfold logAuditEvent, try_catch, db_createAuditLog, now, bind, ask, get_world,
      put_world, ret, throw, console_error.
    destruct (insert_error env); eexists; split; reflexivity.
  Qed.

End AuditLemmas.

(** ** Running the monad *)

Lemma bind_run {A B : Type} (m : M A) (k : A -> M B) (env : Env) (w w' : World) (a : A) :
  m env w = (Ok a, w') -> bind m k env w = k a env w'.
Proof. intros H. unfold bind. rewrite H. reflexivity. Qed.

Lemma bind_throw {A B : Type} (m : M A) (k : A -> M B) (env : Env) (w w' : World) (e : Exn) :
  m env w = (Throw e, w') -> bind m k env w = (Throw e, w').
Proof. intros H. unfold bind. rewrite H. reflexivity. Qed.

Lemma try_catch_ok {A : Type} (m : M A) (h : Exn -> M A) (env : Env) (w w' : World) (a : A) :
  m env w = (Ok a, w') -> try_catch m h env w = (Ok a, w').
Proof. intros H. unfold try_catch. rewrite H. reflexivity. Qed.

Lemma try_catch_throw {A : Type} (m : M A) (h : Exn -> M A) (env : Env) (w w' : World)
      (e : Exn) :
  m env w = (Throw e, w') -> try_catch m h env w = h e env w'.
Proof. intros H. unfold try_catch. rewrite H. reflexivity. Qed.

(** ** The paths of [login] *)

Section LoginPaths.

Variable bcrypt_compare : string -> string -> bool.
Variable btoa_json : TokenPayload -> string.

Abbreviation login := (login bcrypt_compare btoa_json).
Abbreviation login_body := (login_body bcrypt_compare btoa_json).
Abbreviation minted := (minted btoa_json).
Abbreviation success_result := (success_result btoa_json).

Lemma lock_check_run (u : Row.t) (env : Env) (w : World) (b : bool) :
    is_locked (Row.locked_until u) (clock env AtLockCheck) = b ->
    (match Row.locked_until u with
     | Some l => t <- now AtLockCheck ;; ret (t <? l)
     | None => ret false
     end) env w = (Ok b, w).
  Proof.
    unfold is_locked. intros H. destruct (Row.locked_until u) as [l|].
    - cbv [bind now ask ret]. rewrite H. reflexivity.
    - rewrite <- H. reflexivity.
  Qed.

  (** Past the three guards with a wrong password: the update throws and
      nothing is written, or the counters are written and the result is
      [invalid_credentials]. *)
Lemma login_body_rejected (creds : LoginCredentials) (env : Env) (w : World) (u : Row.t) :
    db_getUserByUsername (username creds) env w = (Ok (Some u), w) ->
    Row.is_active u = true ->
    is_locked (Row.locked_until u) (clock env AtLockCheck) = false ->
    bcrypt_compare (password creds) (Row.password_hash u) = false ->
    (exists e, login_body creds env w = (Throw e, w) /\
               (update_error env = None ->
                single (filter (eq_user_id (Row.user_id u)) (users w)) = None)) \/
    (exists w',
        update_error env = None /\
        login_body creds env w = (Ok invalid_credentials, w') /\
        users w' = updated_users (Row.user_id u) (failed_updates env u) (users w)).
  Proof.
    intros Hfound Hact Hlock Hpw.
    unfold login_body.
    erewrite bind_run by exact Hfound.
    cbv beta iota. rewrite Hact. cbn [negb]. cbv iota.
    erewrite bind_run by (apply lock_check_run; exact Hlock).
    cbv beta iota.
    erewrite bind_run by reflexivity.
    cbv beta. rewrite Hpw. cbn [negb]. cbv iota zeta.
    rewrite bind_run with (a := set_locked_until (failed_updates env u)) (w' := w)
      by (unfold failed_updates; cbn [set_locked_until];
          destruct (5 <=? or_zero (Row.failed_login_attempts u) + 1); reflexivity).
    cbv beta.
    change {| set_failed_login_attempts := Some (or_zero (Row.failed_login_attempts u) + 1);
              set_locked_until := set_locked_until (failed_updates env u);
              set_last_login := None;
              set_password_hash := None;
              set_force_password_change := None |}
      with (failed_updates env u).
    destruct (db_updateUser_cases (Row.user_id u) (failed_updates env u) env w)
      as [[e [Hthrow Hwhy]]|[r [Hu [Hid Hok]]]].
    - left. exists e. split.
      + erewrite bind_throw by exact Hthrow. reflexivity.
      + exact Hwhy.
    - match goal with
      | |- context [logAuditEvent ?a ?b ?c] =>
          destruct (logAuditEvent_total a b c env
                      (with_users
                         (updated_users (Row.user_id u) (failed_updates env u) (users w)) w))
            as [w' [Hlog Hus]]
      end.
      right. exists w'. split; [exact Hu|]. split; [|exact Hus].
      erewrite bind_run by exact Hok. cbv beta.
      erewrite bind_run by exact Hlog.
      reflexivity.
  Qed.

Lemma login_body_inactive (creds : LoginCredentials) (env : Env) (w : World) (u : Row.t) :
    db_getUserByUsername (username creds) env w = (Ok (Some u), w) ->
    Row.is_active u = false ->
    login_body creds env w = (Ok account_inactive, w).
  Proof.
    intros Hfound Hact. unfold login_body.
    erewrite bind_run by exact Hfound.
    cbv beta iota. rewrite Hact. reflexivity.
  Qed.

Lemma login_body_locked (creds : LoginCredentials) (env : Env) (w : World) (u : Row.t) :
    db_getUserByUsername (username creds) env w = (Ok (Some u), w) ->
    Row.is_active u = true ->
    is_locked (Row.locked_until u) (clock env AtLockCheck) = true ->
    login_body creds env w = (Ok account_locked, w).
  Proof.
    intros Hfound Hact Hlock. unfold login_body.
    erewrite bind_run by exact Hfound.
    cbv beta iota. rewrite Hact. cbn [negb]. cbv iota.
    erewrite bind_run by (apply lock_check_run; exact Hlock).
    reflexivity.
  Qed.

Lemma login_body_absent (creds : LoginCredentials) (env : Env) (w : World) :
    db_getUserByUsername (username creds) env w = (Ok None, w) ->
    exists w',
      login_body creds env w = (Ok invalid_credentials, w') /\
      users w' = users w.
  Proof.
    intros Hnone.
    destruct (logAuditEvent_total None "LOGIN_FAILED"
                ("Failed login attempt for username: " ++ username creds) env w)
      as [w' [Hlog Hus]].
    exists w'. split; [|exact Hus].
    unfold login_body.
    erewrite bind_run by exact Hnone.
    cbv beta iota.
    erewrite bind_run by exact Hlog.
    reflexivity.
  Qed.

Lemma db_getUserByUsername_some_row (h : string) (env : Env) (w w1 : World) (u : Row.t) :
    db_getUserByUsername h env w = (Ok (Some u), w1) -> In u (users w).
  Proof.
    intros H.
    assert (Hs : single (filter (eq_name h) (users w)) = Some u)
      by (apply db_getUserByUsername_some with (env := env); rewrite H; reflexivity).
    apply single_In in Hs.
    assert (Hin : In u (filter (eq_name h) (users w))) by (rewrite Hs; left; reflexivity).
    apply filter_In in Hin. tauto.
  Qed.

  (** The three answers of the lookup by handle. *)
Lemma db_getUserByUsername_cases (h : string) (env : Env) (w : World) :
    (exists e, db_getUserByUsername h env w = (Throw e, w)) \/
    db_getUserByUsername h env w = (Ok None, w) \/
    (exists u, db_getUserByUsername h env w = (Ok (Some u), w) /\
               single (filter (eq_name h) (users w)) = Some u).
  Proof.
    unfold db_getUserByUsername, select_single, bind, ask, get_world, ret, throw.
    destruct (select_error env) as [e|]; cbn.
    - destruct (negb (code e =? "PGRST116")%string).
      + left. eexists. reflexivity.
      + right. left. reflexivity.
    - destruct (single (filter (eq_name h) (users w))) as [u|]; cbn.
      + right. right. exists u. split; reflexivity.
      + right. left. reflexivity.
  Qed.

  (** The handler of [login]: the error goes to the console, the table stays. *)
Lemma login_caught (creds : LoginCredentials) (env : Env) (w w1 : World) (e : Exn) :
    login_body creds env w = (Throw e, w1) ->
    exists w', login creds env w = (Ok system_error, w') /\ users w' = users w1.
  Proof.
    intros H. unfold login. erewrite try_catch_throw by exact H.
    eexists. split; reflexivity.
  Qed.

  (** Past the three guards, with the store answering the update. *)
Lemma login_body_verified (creds : LoginCredentials) (env : Env) (w : World) (u : Row.t) :
    db_getUserByUsername (username creds) env w = (Ok (Some u), w) ->
    Row.is_active u = true ->
    is_locked (Row.locked_until u) (clock env AtLockCheck) = false ->
    bcrypt_compare (password creds) (Row.password_hash u) = true ->
    (exists e w1, login_body creds env w = (Throw e, w1) /\
                  ~ (update_error env = None /\
                     single (filter (eq_user_id (Row.user_id u)) (users w)) = Some u /\
                     setItem_error env "auth_user" = None /\
                     setItem_error env "auth_token" = None)) \/
    (exists w',
        update_error env = None /\
        single (filter (eq_user_id (Row.user_id u)) (users w)) = Some u /\
        setItem_error env "auth_user" = None /\
        setItem_error env "auth_token" = None /\
        login_body creds env w = (Ok (success_result env u), w') /\
        users w' = updated_users (Row.user_id u) (success_updates env) (users w) /\
        currentUser w' = Some (toAuthUser u) /\
        authToken w' = Some (minted env u)).
  Proof.
    intros Hfound Hact Hlock Hpw.
    unfold login_body.
    erewrite bind_run by exact Hfound.
    cbv beta iota. rewrite Hact. cbn [negb]. cbv iota.
    erewrite bind_run by (apply lock_check_run; exact Hlock).
    cbv beta iota.
    erewrite bind_run by reflexivity.
    cbv beta. rewrite Hpw. cbn [negb]. cbv iota zeta.
    erewrite bind_run by reflexivity. cbv beta.
    fold (success_updates env).
    destruct (db_updateUser_cases (Row.user_id u) (success_updates env) env w)
      as [[e [Hthrow Hwhy]]|[r [Hu [Hid Hok]]]].
    - left. exists e, w. split.
      + erewrite bind_throw by exact Hthrow. reflexivity.
      + intros [H1 [H2 _]]. rewrite (Hwhy H1) in H2. discriminate.
    - erewrite bind_run by exact Hok. cbv beta.
      erewrite bind_run by reflexivity. cbv beta.
      assert (Hr : r = u).
      { apply db_getUserByUsername_some_row in Hfound.
        apply single_In in Hid.
        assert (Hin : In u (filter (eq_user_id (Row.user_id u)) (users w))).
        { apply filter_In. split; [exact Hfound | apply eq_user_id_refl]. }
        rewrite Hid in Hin. destruct Hin as [Hin|[]]. exact Hin. }
      subst r.
      unfold storeAuth.
      cbv [bind set_memory_auth setItem_auth_user setItem_auth_token].
      destruct (setItem_error env "auth_user") as [m|] eqn:Ea.
      + left. do 2 eexists. split; [reflexivity|].
        intros [_ [_ [H3 _]]]. discriminate.
      + destruct (setItem_error env "auth_token") as [m|] eqn:Et.
        * left. do 2 eexists. split; [reflexivity|].
          intros [_ [_ [_ H4]]]. discriminate.
        * match goal with
          | |- context [logAuditEvent ?a ?b ?c ?e ?x] =>
              destruct (logAuditEvent_total a b c e x) as [w' [Hlog Hus]]
          end.
          right. exists w'.
          repeat (split; [first [assumption | reflexivity]|]).
          rewrite Hlog.
          split; [reflexivity|]. split; [exact Hus|].
          revert Hlog. unfold logAuditEvent, try_catch, db_createAuditLog, now, bind,
            ask, get_world, put_world, ret, throw, console_error.
          destruct (insert_error env); intros Hlog; inversion Hlog; subst w';
            split; reflexivity.
  Qed.

End LoginPaths.

(** ** Checks on the sample table *)

Example alice_fifth_failure :
  fst (Sample.login (Sample.creds "alice" "nope") (Sample.env_at 1000) Sample.world)
  = Ok invalid_credentials.
Proof. reflexivity. Qed.

Example alice_right_password :
  success_of (fst (Sample.login (Sample.creds "alice" "wonderland") (Sample.env_at 1000)
                     Sample.world))
  = Some true.
Proof. reflexivity. Qed.

Example carol_locked_at_4999 :
  Sample.login (Sample.creds "carol" "singer") (Sample.env_at 4999) Sample.world
  = (Ok account_locked, Sample.world).
Proof. reflexivity. Qed.

Example carol_free_at_5000 :
  success_of (fst (Sample.login (Sample.creds "carol" "singer") (Sample.env_at 5000)
                     Sample.world))
  = Some true.
Proof. reflexivity. Qed.

Example nobody_is_rejected :
  fst (Sample.login (Sample.creds "mallory" "x") (Sample.env_at 1000) Sample.world)
  = Ok invalid_credentials.
Proof. reflexivity. Qed.

Example store_down :
  fst (Sample.login (Sample.creds "alice" "wonderland") (Sample.env_down 1000) Sample.world)
  = Ok system_error.
Proof. reflexivity. Qed.

Example temp_password_sample :
  generateTempPassword_loop (random (Sample.env_at 0)) 12 0 "" = "DMUbiry7%ENV".
Proof. reflexivity. Qed.

(** ** The contract of [login] *)

Section LoginContract.

Variable bcrypt_compare : string -> string -> bool.
Variable btoa_json : TokenPayload -> string.

Abbreviation login' := (login bcrypt_compare btoa_json).
Abbreviation login_body' := (login_body bcrypt_compare btoa_json).
Abbreviation login_seq' := (login_seq bcrypt_compare btoa_json).

(** A row that bears the handle is the row the lookup answers, when it
    answers one. *)
Lemma lookup_answers_bearer (h : string) (us : list Row.t) (u u0 : Row.t) :
  In u us -> Row.name u = h ->
  single (filter (eq_name h) us) = Some u0 -> u0 = u.
Proof.
  intros Hin Hname Hs. apply single_In in Hs.
  assert (Hf : In u (filter (eq_name h) us)).
  { apply filter_In. split; [exact Hin|]. unfold eq_name. rewrite Hname.
    apply String.eqb_refl. }
  rewrite Hs in Hf. destruct Hf as [Hf|[]]. exact Hf.
Qed.

(** C4. For every stored account that is inactive, and for every stored
    account whose [locked_until] is strictly later than the clock reading of
    the lock check, a call of [login] with its handle, whatever the password
    and whatever the store answers, leaves the [users] table exactly as it
    was: no counter, no [locked_until], no [last_login], no other column of
    any row changes. *)
Theorem login_guarded_account_untouched
        (creds : LoginCredentials) (env : Env) (w : World) (u : Row.t) :
  In u (users w) ->
  username creds = Row.name u ->
  Row.is_active u = false \/
  is_locked (Row.locked_until u) (clock env AtLockCheck) = true ->
  users (snd (login' creds env w)) = users w.
Proof.
  intros Hin Hname Hguard.
  destruct (db_getUserByUsername_cases (username creds) env w)
    as [[e Hthrow]|[Hnone|[u0 [Hfound Hs]]]].
  - destruct (login_caught bcrypt_compare btoa_json creds env w w e) as [w' [Hrun Hus]].
    { unfold login_body. erewrite bind_throw by exact Hthrow. reflexivity. }
    rewrite Hrun. exact Hus.
  - destruct (login_body_absent bcrypt_compare btoa_json creds env w Hnone)
      as [w' [Hrun Hus]].
    unfold login. erewrite try_catch_ok by exact Hrun. exact Hus.
  - assert (Hu : u0 = u)
      by (apply lookup_answers_bearer with (h := username creds) (us := users w);
          auto).
    subst u0. unfold login.
    destruct (Row.is_active u) eqn:Hact.
    + destruct Hguard as [Hno|Hlock]; [discriminate|].
      erewrite try_catch_ok
        by (apply login_body_locked with (u := u); assumption).
      reflexivity.
    + erewrite try_catch_ok
        by (apply login_body_inactive with (u := u); assumption).
      reflexivity.
Qed.

(** C8. [login] never throws: whatever the credentials, the answers of the
    environment and the world, it returns a result. When its [try] block
    throws, the result is [system_error], whose message is the fixed text
    "Login failed due to system error", the same for every error thrown, and
    which differs from the three authentication outcomes. In particular a
    fault of the lookup (other than the no-row code) and a fault of the update
    both end in [system_error]. *)
Theorem login_never_throws (creds : LoginCredentials) (env : Env) (w : World) :
  exists r w',
    login' creds env w = (Ok r, w') /\
    (forall e w1, login_body' creds env w = (Throw e, w1) -> r = system_error) /\
    (forall e, select_error env = Some e ->
               String.eqb (code e) "PGRST116" = false -> r = system_error) /\
    (forall e u, db_getUserByUsername (username creds) env w = (Ok (Some u), w) ->
                 Row.is_active u = true ->
                 is_locked (Row.locked_until u) (clock env AtLockCheck) = false ->
                 update_error env = Some e -> r = system_error) /\
    error system_error = Some "Login failed due to system error" /\
    user system_error = None /\
    system_error <> invalid_credentials /\
    system_error <> account_inactive /\
    system_error <> account_locked.
Proof.
  destruct (login_body' creds env w) as [[r|e] w1] eqn:Hbody.
  - exists r, w1. split.
    { unfold login. erewrite try_catch_ok by exact Hbody. reflexivity. }
    split; [intros e w2 H; discriminate|].
    split.
    { intros e He Hcode. exfalso. revert Hbody.
      unfold login_body. erewrite bind_throw; [discriminate|].
      unfold db_getUserByUsername, select_single, bind, ask, get_world, ret, throw.
      rewrite He. cbn. rewrite Hcode. reflexivity. }
    split.
    { intros e u Hfound Hact Hlock Hupd. exfalso.
      destruct (bcrypt_compare (password creds) (Row.password_hash u)) eqn:Hpw.
      - destruct (login_body_verified bcrypt_compare btoa_json creds env w u
                    Hfound Hact Hlock Hpw)
          as [[e0 [w2 [Hrun _]]]|[w2 [Hnone _]]]; congruence.
      - destruct (login_body_rejected bcrypt_compare btoa_json creds env w u
                    Hfound Hact Hlock Hpw)
          as [[e0 [Hrun _]]|[w2 [Hnone _]]]; congruence. }
    repeat split; discriminate.
  - exists system_error. eexists. split.
    { unfold login. erewrite try_catch_throw by exact Hbody. reflexivity. }
    repeat split; try discriminate; reflexivity.
Qed.

(** The account is locked at the lock check: the world is left as it was. *)
Lemma login_locked_run (creds : LoginCredentials) (env : Env) (w : World) (u : Row.t) :
  select_error env = None ->
  single (filter (eq_name (username creds)) (users w)) = Some u ->
  Row.is_active u = true ->
  is_locked (Row.locked_until u) (clock env AtLockCheck) = true ->
  login' creds env w = (Ok account_locked, w).
Proof.
  intros He Hs Hact Hlock. unfold login.
  erewrite try_catch_ok; [reflexivity|].
  apply login_body_locked with (u := u); try assumption.
  apply db_getUserByUsername_found; assumption.
Qed.

(** A wrong password on an active account that is not locked, the store
    answering: the one row of the account is rewritten with [failed_updates]. *)
Lemma login_wrong_password_run (creds : LoginCredentials) (env : Env) (w : World)
      (u : Row.t) :
  select_error env = None ->
  update_error env = None ->
  single (filter (eq_name (username creds)) (users w)) = Some u ->
  single (filter (eq_user_id (Row.user_id u)) (users w)) = Some u ->
  Row.is_active u = true ->
  is_locked (Row.locked_until u) (clock env AtLockCheck) = false ->
  bcrypt_compare (password creds) (Row.password_hash u) = false ->
  exists w',
    login' creds env w = (Ok invalid_credentials, w') /\
    users w' = updated_users (Row.user_id u) (failed_updates env u) (users w) /\
    single (filter (eq_user_id (Row.user_id u)) (users w'))
    = Some (apply_updates (failed_updates env u) u) /\
    single (filter (eq_name (username creds)) (users w'))
    = Some (apply_updates (failed_updates env u) u).
Proof.
  intros He Hu Hs Hid Hact Hlock Hpw.
  destruct (login_body_rejected bcrypt_compare btoa_json creds env w u)
    as [[e [Hrun Hwhy]]|[w' [_ [Hrun Hus]]]]; try assumption.
  { apply db_getUserByUsername_found; assumption. }
  { rewrite (Hwhy Hu) in Hid. discriminate. }
  exists w'. split.
  { unfold login. erewrite try_catch_ok by exact Hrun. reflexivity. }
  split; [exact Hus|]. rewrite Hus. split.
  - apply by_id_after_update. exact Hid.
  - apply by_name_after_update; [exact Hs | apply eq_user_id_refl].
Qed.

(** C1, as the code has it. For every active account with fewer than 5
    recorded failed attempts and no [locked_until] in the future, the store
    answering, a call of [login] with a wrong password returns
    [invalid_credentials] and writes the counter plus one; when the new count
    is 5 or more it also writes [locked_until] = the clock reading + 15
    minutes, otherwise [locked_until] stays. Every later call with the handle,
    whatever the password, made while the stored [locked_until] is strictly
    later than the clock reading, returns [account_locked] and leaves the
    world as it was. *)
Theorem login_wrong_password_counts_then_locks
        (creds : LoginCredentials) (env : Env) (w : World) (u : Row.t) :
  select_error env = None ->
  update_error env = None ->
  single (filter (eq_name (username creds)) (users w)) = Some u ->
  single (filter (eq_user_id (Row.user_id u)) (users w)) = Some u ->
  Row.is_active u = true ->
  or_zero (Row.failed_login_attempts u) < 5 ->
  is_locked (Row.locked_until u) (clock env AtLockCheck) = false ->
  bcrypt_compare (password creds) (Row.password_hash u) = false ->
  exists w' u',
    login' creds env w = (Ok invalid_credentials, w') /\
    single (filter (eq_user_id (Row.user_id u)) (users w')) = Some u' /\
    Row.failed_login_attempts u' = Some (or_zero (Row.failed_login_attempts u) + 1) /\
    (5 <= or_zero (Row.failed_login_attempts u) + 1 ->
     Row.locked_until u' = Some (clock env AtLockSet + 15 * 60 * 1000)) /\
    (or_zero (Row.failed_login_attempts u) + 1 < 5 ->
     Row.locked_until u' = Row.locked_until u) /\
    (forall later : list (Env * LoginCredentials),
        Forall (fun a =>
                  select_error (fst a) = None /\
                  username (snd a) = username creds /\
                  is_locked (Row.locked_until u') (clock (fst a) AtLockCheck) = true)
               later ->
        login_seq' later w' = (map (fun _ => Ok account_locked) later, w')).
Proof.
  intros He Hu Hs Hid Hact Hfew Hlock Hpw.
  destruct (login_wrong_password_run creds env w u He Hu Hs Hid Hact Hlock Hpw)
    as [w' [Hrun [_ [Hid' Hname']]]].
  exists w', (apply_updates (failed_updates env u) u).
  split; [exact Hrun|]. split; [exact Hid'|]. split; [reflexivity|].
  split.
  { intros Hge. cbn. apply Z.leb_le in Hge. rewrite Hge. reflexivity. }
  split.
  { intros Hlt. cbn. apply Z.leb_gt in Hlt. rewrite Hlt. reflexivity. }
  intros later Hall. induction Hall as [|[env2 creds2] rest [He2 [Hn2 Hl2]] _ IH].
  - reflexivity.
  - cbn [login_seq map]. cbn [fst snd] in He2, Hn2, Hl2.
    rewrite (login_locked_run creds2 env2 w' (apply_updates (failed_updates env u) u));
      try assumption.
    + rewrite IH. reflexivity.
    + rewrite Hn2. exact Hname'.
Qed.

(** C9, as the code has it. For every active account whose [locked_until]
    has run out (is not later than the clock reading of the lock check) while
    its counter still shows 5 or more, the store answering, one more call of
    [login] with a wrong password writes [locked_until] = the clock reading +
    15 minutes again, and the counter plus one. *)
Theorem login_relocks_after_expiry
        (creds : LoginCredentials) (env : Env) (w : World) (u : Row.t) (l : Z) :
  select_error env = None ->
  update_error env = None ->
  single (filter (eq_name (username creds)) (users w)) = Some u ->
  single (filter (eq_user_id (Row.user_id u)) (users w)) = Some u ->
  Row.is_active u = true ->
  Row.locked_until u = Some l ->
  l <= clock env AtLockCheck ->
  5 <= or_zero (Row.failed_login_attempts u) ->
  bcrypt_compare (password creds) (Row.password_hash u) = false ->
  exists w' u',
    login' creds env w = (Ok invalid_credentials, w') /\
    single (filter (eq_user_id (Row.user_id u)) (users w')) = Some u' /\
    Row.locked_until u' = Some (clock env AtLockSet + 15 * 60 * 1000) /\
    Row.failed_login_attempts u' = Some (or_zero (Row.failed_login_attempts u) + 1).
Proof.
  intros He Hu Hs Hid Hact Hl Hpast Hmany Hpw.
  assert (Hlock : is_locked (Row.locked_until u) (clock env AtLockCheck) = false).
  { rewrite Hl. cbn. apply Z.ltb_ge. exact Hpast. }
  destruct (login_wrong_password_run creds env w u He Hu Hs Hid Hact Hlock Hpw)
    as [w' [Hrun [_ [Hid' _]]]].
  exists w', (apply_updates (failed_updates env u) u).
  split; [exact Hrun|]. split; [exact Hid'|]. split; [|reflexivity].
  cbn.
  assert (Hge : (5 <=? or_zero (Row.failed_login_attempts u) + 1) = true)
    by (apply Z.leb_le; lia).
  rewrite Hge. reflexivity.
Qed.

(** C5. A call of [login] with a handle that no account bears, and a call
    with the handle of an existing active account that is not locked and a
    wrong password, return the same result to the caller, the store answering:
    [invalid_credentials], with the same message and nothing else. *)
Theorem login_unknown_handle_indistinguishable
        (creds1 : LoginCredentials) (env1 : Env) (w1 : World)
        (creds2 : LoginCredentials) (env2 : Env) (w2 : World) (u : Row.t) :
  select_error env1 = None ->
  filter (eq_name (username creds1)) (users w1) = [] ->
  select_error env2 = None ->
  update_error env2 = None ->
  single (filter (eq_name (username creds2)) (users w2)) = Some u ->
  single (filter (eq_user_id (Row.user_id u)) (users w2)) = Some u ->
  Row.is_active u = true ->
  is_locked (Row.locked_until u) (clock env2 AtLockCheck) = false ->
  bcrypt_compare (password creds2) (Row.password_hash u) = false ->
  fst (login' creds1 env1 w1) = fst (login' creds2 env2 w2) /\
  fst (login' creds1 env1 w1) = Ok invalid_credentials /\
  error invalid_credentials = Some "Invalid username or password".
Proof.
  intros He1 Hnone He2 Hu2 Hs Hid Hact Hlock Hpw.
  destruct (login_wrong_password_run creds2 env2 w2 u He2 Hu2 Hs Hid Hact Hlock Hpw)
    as [w2' [Hrun2 _]].
  destruct (login_body_absent bcrypt_compare btoa_json creds1 env1 w1)
    as [w1' [Hrun1 _]].
  { apply db_getUserByUsername_absent; [exact He1|]. rewrite Hnone. reflexivity. }
  unfold login at 1 3. erewrite try_catch_ok by exact Hrun1.
  rewrite Hrun2. repeat split.
Qed.

(** A right password on an active account that is not locked, the store and
    the browser storage answering. *)
Lemma login_right_password_run (creds : LoginCredentials) (env : Env) (w : World)
      (u : Row.t) :
  select_error env = None ->
  update_error env = None ->
  setItem_error env "auth_user" = None ->
  setItem_error env "auth_token" = None ->
  single (filter (eq_name (username creds)) (users w)) = Some u ->
  single (filter (eq_user_id (Row.user_id u)) (users w)) = Some u ->
  Row.is_active u = true ->
  is_locked (Row.locked_until u) (clock env AtLockCheck) = false ->
  bcrypt_compare (password creds) (Row.password_hash u) = true ->
  exists w',
    login' creds env w = (Ok (success_result btoa_json env u), w') /\
    single (filter (eq_user_id (Row.user_id u)) (users w'))
    = Some (apply_updates (success_updates env) u).
Proof.
  intros He Hu Ha Ht Hs Hid Hact Hlock Hpw.
  destruct (login_body_verified bcrypt_compare btoa_json creds env w u)
    as [[e [w1 [_ Hno]]]|[w' [_ [_ [_ [_ [Hrun [Hus _]]]]]]]]; try assumption.
  { apply db_getUserByUsername_found; assumption. }
  { exfalso. apply Hno. repeat split; assumption. }
  exists w'. split.
  - unfold login. erewrite try_catch_ok by exact Hrun. reflexivity.
  - rewrite Hus. apply by_id_after_update. exact Hid.
Qed.

(** C2. For every active account that is not locked, the store and the
    browser storage answering, a call of [login] with the right password
    writes [failed_login_attempts] = 0, [locked_until] = null and
    [last_login] = the clock reading to the stored row, leaves its other
    columns, and returns a result with [success] = true that carries the
    profile of the account, each of its fields being the column of the row
    as read (so no password hash), and a session token, the encoding of the
    identifier and role of the account with the issue time and the issue
    time + 2 hours. *)
Theorem login_right_password_resets
        (creds : LoginCredentials) (env : Env) (w : World) (u : Row.t) :
  select_error env = None ->
  update_error env = None ->
  setItem_error env "auth_user" = None ->
  setItem_error env "auth_token" = None ->
  single (filter (eq_name (username creds)) (users w)) = Some u ->
  single (filter (eq_user_id (Row.user_id u)) (users w)) = Some u ->
  Row.is_active u = true ->
  is_locked (Row.locked_until u) (clock env AtLockCheck) = false ->
  bcrypt_compare (password creds) (Row.password_hash u) = true ->
  exists r w' u' a,
    login' creds env w = (Ok r, w') /\
    success r = true /\
    error r = None /\
    user r = Some (toAuthUser u) /\
    token r = Some (minted btoa_json env u) /\
    single (filter (eq_user_id (Row.user_id u)) (users w')) = Some u' /\
    Row.failed_login_attempts u' = Some 0 /\
    Row.locked_until u' = None /\
    Row.last_login u' = Some (clock env AtLastLogin) /\
    Row.password_hash u' = Row.password_hash u /\
    Row.is_active u' = Row.is_active u /\
    Row.force_password_change u' = Row.force_password_change u /\
    user r = Some a /\
    AuthUser.user_id a = Row.user_id u /\
    AuthUser.name a = Row.name u /\
    AuthUser.email a = Row.email u /\
    AuthUser.role a = Row.role u /\
    AuthUser.whatsapp_number a = Row.whatsapp_number u /\
    AuthUser.academic_year a = Row.academic_year u /\
    AuthUser.current_semester a = Row.current_semester u /\
    AuthUser.is_active a = Row.is_active u /\
    AuthUser.force_password_change a = Row.force_password_change u /\
    AuthUser.last_login a = Row.last_login u /\
    AuthUser.created_at a = Row.created_at u /\
    token r
    = Some (btoa_json
              {| tok_user_id := Row.user_id u;
                 tok_role := Row.role u;
                 iat := clock env AtTokenIat;
                 exp := clock env AtTokenExp + 2 * 60 * 60 * 1000 |}) /\
    Row.user_id u' = Row.user_id u /\
    Row.name u' = Row.name u /\
    Row.email u' = Row.email u /\
    Row.role u' = Row.role u /\
    Row.created_at u' = Row.created_at u.
Proof.
  intros He Hu Ha Ht Hs Hid Hact Hlock Hpw.
  destruct (login_right_password_run creds env w u He Hu Ha Ht Hs Hid Hact Hlock Hpw)
    as [w' [Hrun Hid']].
  exists (success_result btoa_json env u), w', (apply_updates (success_updates env) u),
    (toAuthUser u).
  split; [exact Hrun|]. repeat split. exact Hid'.
Qed.

(** What a successful call has done: it found a row by the handle, returned
    its profile as read, and rewrote it with [success_updates]. *)
Lemma login_success_inv (creds : LoginCredentials) (env : Env) (w w' : World)
      (r : LoginResult) :
  login' creds env w = (Ok r, w') ->
  success r = true ->
  exists u,
    single (filter (eq_name (username creds)) (users w)) = Some u /\
    r = success_result btoa_json env u /\
    single (filter (eq_user_id (Row.user_id u)) (users w'))
    = Some (apply_updates (success_updates env) u).
Proof.
  intros Hrun Hsucc.
  assert (Hcaught : forall e w1, login_body' creds env w = (Throw e, w1) -> False).
  { intros e w1 Hb. destruct (login_caught bcrypt_compare btoa_json creds env w w1 e Hb)
      as [w2 [Hr _]].
    rewrite Hr in Hrun. inversion Hrun; subst. discriminate. }
  assert (Hok : forall r0 w1, login_body' creds env w = (Ok r0, w1) -> r0 = r /\ w1 = w').
  { intros r0 w1 Hb. unfold login in Hrun. erewrite try_catch_ok in Hrun by exact Hb.
    inversion Hrun. split; reflexivity. }
  destruct (db_getUserByUsername_cases (username creds) env w)
    as [[e Hthrow]|[Hnone|[u [Hfound Hs]]]].
  - exfalso. apply (Hcaught e w).
    unfold login_body. erewrite bind_throw by exact Hthrow. reflexivity.
  - destruct (login_body_absent bcrypt_compare btoa_json creds env w Hnone)
      as [w1 [Hb _]].
    destruct (Hok _ _ Hb) as [Hr _]. subst r. discriminate.
  - exists u. split; [exact Hs|].
    destruct (Row.is_active u) eqn:Hact.
    2:{ destruct (Hok _ _ (login_body_inactive bcrypt_compare btoa_json creds env w u
                             Hfound Hact)) as [Hr _].
        subst r. discriminate. }
    destruct (is_locked (Row.locked_until u) (clock env AtLockCheck)) eqn:Hlock.
    { destruct (Hok _ _ (login_body_locked bcrypt_compare btoa_json creds env w u
                           Hfound Hact Hlock)) as [Hr _].
      subst r. discriminate. }
    destruct (bcrypt_compare (password creds) (Row.password_hash u)) eqn:Hpw.
    + destruct (login_body_verified bcrypt_compare btoa_json creds env w u
                  Hfound Hact Hlock Hpw)
        as [[e [w1 [Hb _]]]|[w1 [_ [Hid [_ [_ [Hb [Hus _]]]]]]]].
      * exfalso. exact (Hcaught e w1 Hb).
      * destruct (Hok _ _ Hb) as [Hr Hw]. subst r w1. split; [reflexivity|].
        rewrite Hus. apply by_id_after_update. exact Hid.
    + destruct (login_body_rejected bcrypt_compare btoa_json creds env w u
                  Hfound Hact Hlock Hpw)
        as [[e [Hb _]]|[w1 [_ [Hb _]]]].
      * exfalso. exact (Hcaught e w Hb).
      * destruct (Hok _ _ Hb) as [Hr _]. subst r. discriminate.
Qed.

(** C10. For every call of [login] that returns [success] = true, the
    [last_login] of the returned profile is the value of the row as it was
    read before the update (null on a first login), while the stored row now
    holds the clock reading of this call. *)
Theorem login_success_returns_previous_last_login
        (creds : LoginCredentials) (env : Env) (w w' : World) (r : LoginResult) :
  login' creds env w = (Ok r, w') ->
  success r = true ->
  exists u a u',
    single (filter (eq_name (username creds)) (users w)) = Some u /\
    user r = Some a /\
    AuthUser.last_login a = Row.last_login u /\
    single (filter (eq_user_id (Row.user_id u)) (users w')) = Some u' /\
    Row.last_login u' = Some (clock env AtLastLogin).
Proof.
  intros Hrun Hsucc.
  destruct (login_success_inv creds env w w' r Hrun Hsucc) as [u [Hs [Hr Hid']]].
  exists u, (toAuthUser u), (apply_updates (success_updates env) u).
  subst r. repeat split; assumption.
Qed.

(** The two guards return before any write: the world, audit trail included,
    is the one the call started from. *)
Lemma login_guarded_world (creds : LoginCredentials) (env : Env) (w : World) (u : Row.t) :
  select_error env = None ->
  single (filter (eq_name (username creds)) (users w)) = Some u ->
  Row.is_active u = false \/
  is_locked (Row.locked_until u) (clock env AtLockCheck) = true ->
  snd (login' creds env w) = w /\
  (fst (login' creds env w) = Ok account_inactive \/
   fst (login' creds env w) = Ok account_locked).
Proof.
  intros He Hs Hguard.
  assert (Hfound : db_getUserByUsername (username creds) env w = (Ok (Some u), w))
    by (apply db_getUserByUsername_found; assumption).
  unfold login. destruct (Row.is_active u) eqn:Hact.
  - destruct Hguard as [Hno|Hlock]; [discriminate|].
    erewrite try_catch_ok by (apply login_body_locked with (u := u); assumption).
    split; [reflexivity | right; reflexivity].
  - erewrite try_catch_ok by (apply login_body_inactive with (u := u); assumption).
    split; [reflexivity | left; reflexivity].
Qed.

(** The unknown handle, the audit insert answering: one row is appended to
    the audit trail, without an actor. *)
Lemma login_absent_audits_once (creds : LoginCredentials) (env : Env) (w : World) :
  select_error env = None ->
  insert_error env = None ->
  single (filter (eq_name (username creds)) (users w)) = None ->
  exists row,
    Audit.user_id row = None /\
    Audit.action row = "LOGIN_FAILED" /\
    login' creds env w
    = (Ok invalid_credentials, with_audit (audit_trail w ++ [row]) w).
Proof.
  intros He Hi Hs. eexists. split; [|split]; cycle 2.
  - unfold login. erewrite try_catch_ok; [reflexivity|].
    unfold login_body.
    erewrite bind_run by (apply db_getUserByUsername_absent; assumption).
    cbv beta iota.
    erewrite bind_run by (apply logAuditEvent_ok; exact Hi).
    reflexivity.
  - reflexivity.
  - reflexivity.
Qed.

End LoginContract.

(** ** The contract of [login], on the sample table *)

Lemma login_guarded_account_untouched_witness :
  users (snd (Sample.login (Sample.creds "carol" "singer") (Sample.env_at 4999)
                Sample.world))
  = users Sample.world.
Proof.
  apply (login_guarded_account_untouched Sample.compare Sample.encode
           (Sample.creds "carol" "singer") (Sample.env_at 4999) Sample.world Sample.carol).
  - simpl. right. right. left. reflexivity.
  - reflexivity.
  - right. reflexivity.
Defined.

Lemma login_never_throws_witness :
  exists r w',
    Sample.login (Sample.creds "alice" "wonderland") (Sample.env_down 1000) Sample.world
    = (Ok r, w') /\ r = system_error.
Proof.
  destruct (login_never_throws Sample.compare Sample.encode
              (Sample.creds "alice" "wonderland") (Sample.env_down 1000) Sample.world)
    as [r [w' [Hrun [_ [Hsel _]]]]].
  exists r, w'. split; [exact Hrun|].
  apply (Hsel {| code := "08006"; message := "connection failure" |}); reflexivity.
Defined.


Lemma login_wrong_password_counts_then_locks_witness :
  exists w' u',
    Sample.login (Sample.creds "alice" "nope") (Sample.env_at 1000) Sample.world
    = (Ok invalid_credentials, w') /\
    single (filter (eq_user_id "STD-000001-AAA") (users w')) = Some u' /\
    Row.failed_login_attempts u' = Some 5 /\
    Row.locked_until u' = Some 901000 /\
    Sample.login (Sample.creds "alice" "wonderland") (Sample.env_at 901000) w'
    <> (Ok account_locked, w') /\
    login_seq Sample.compare Sample.encode
      [(Sample.env_at 1001, Sample.creds "alice" "wonderland");
       (Sample.env_at 900999, Sample.creds "alice" "nope")] w'
    = ([Ok account_locked; Ok account_locked], w').
Proof.
  destruct (login_wrong_password_counts_then_locks Sample.compare Sample.encode
              (Sample.creds "alice" "nope") (Sample.env_at 1000) Sample.world Sample.alice)
    as [w' [u' [Hrun [Hid [Hcount [Hlock [_ Hlater]]]]]]];
    try reflexivity.
  exists w', u'.
  assert (Hl : Row.locked_until u' = Some 901000) by (apply Hlock; cbn; lia).
  split; [exact Hrun|]. split; [exact Hid|]. split; [exact Hcount|]. split; [exact Hl|].
  split.
  - cbv in Hrun. inversion Hrun; subst w'. cbv. discriminate.
  - apply (Hlater [(Sample.env_at 1001, Sample.creds "alice" "wonderland");
                   (Sample.env_at 900999, Sample.creds "alice" "nope")]).
    repeat constructor; rewrite Hl; reflexivity.
Defined.

(** C1, as stated, fails on a deactivated account: [bob] has no failure on
    record and no [locked_until], the password is wrong, and yet the call
    returns [account_inactive], not [invalid_credentials], and the counter
    stays at 0. *)
Lemma login_inactive_wrong_password_not_counted :
  or_zero (Row.failed_login_attempts Sample.bob) < 5 /\
  is_locked (Row.locked_until Sample.bob) 1000 = false /\
  Sample.compare "nope" (Row.password_hash Sample.bob) = false /\
  Sample.login (Sample.creds "bob" "nope") (Sample.env_at 1000) Sample.world
  = (Ok account_inactive, Sample.world) /\
  ~ (exists w' u',
        Sample.login (Sample.creds "bob" "nope") (Sample.env_at 1000) Sample.world
        = (Ok invalid_credentials, w') /\
        single (filter (eq_user_id (Row.user_id Sample.bob)) (users w')) = Some u' /\
        Row.failed_login_attempts u'
        = Some (or_zero (Row.failed_login_attempts Sample.bob) + 1)).
Proof.
  split; [reflexivity|]. split; [reflexivity|]. split; [reflexivity|].
  split; [reflexivity|].
  intros [w' [u' [Hrun _]]]. cbv in Hrun. discriminate.
Qed.

Lemma login_relocks_after_expiry_witness :
  exists w' u',
    Sample.login (Sample.creds "carol" "nope") (Sample.env_at 6000) Sample.world
    = (Ok invalid_credentials, w') /\
    single (filter (eq_user_id "ADM-000003-CCC") (users w')) = Some u' /\
    Row.locked_until u' = Some 906000 /\
    Row.failed_login_attempts u' = Some 6.
Proof.
  apply (login_relocks_after_expiry Sample.compare Sample.encode
           (Sample.creds "carol" "nope") (Sample.env_at 6000) Sample.world
           Sample.carol 5000);
    solve [reflexivity | cbn; lia].
Defined.

(** C9, as stated, fails on a deactivated account: the lockout of [dave] ran
    out at 5000 and his counter shows 5, the password is wrong, and yet the
    call at 6000 returns [account_inactive] and [locked_until] stays at 5000. *)
Lemma login_inactive_after_expiry_not_relocked :
  Row.locked_until Sample.dave = Some 5000 /\
  5000 <= clock (Sample.env_at 6000) AtLockCheck /\
  5 <= or_zero (Row.failed_login_attempts Sample.dave) /\
  Sample.compare "nope" (Row.password_hash Sample.dave) = false /\
  Sample.login (Sample.creds "dave" "nope") (Sample.env_at 6000) Sample.world
  = (Ok account_inactive, Sample.world) /\
  ~ (exists u',
        single (filter (eq_user_id (Row.user_id Sample.dave))
                  (users (snd (Sample.login (Sample.creds "dave" "nope")
                                 (Sample.env_at 6000) Sample.world))))
        = Some u' /\
        Row.locked_until u'
        = Some (clock (Sample.env_at 6000) AtLockSet + 15 * 60 * 1000)).
Proof.
  split; [reflexivity|]. split; [cbn; lia|]. split; [cbn; lia|].
  split; [reflexivity|]. split; [reflexivity|].
  intros [u' [Hid Hl]]. cbv in Hid. inversion Hid; subst u'. cbv in Hl. discriminate.
Qed.

Lemma login_right_password_resets_witness :
  exists r w' u' a,
    Sample.login (Sample.creds "alice" "wonderland") (Sample.env_at 1000) Sample.world
    = (Ok r, w') /\
    success r = true /\
    error r = None /\
    user r = Some (toAuthUser Sample.alice) /\
    token r = Some "token:STD-000001-AAA" /\
    single (filter (eq_user_id "STD-000001-AAA") (users w')) = Some u' /\
    Row.failed_login_attempts u' = Some 0 /\
    Row.locked_until u' = None /\
    Row.last_login u' = Some 1000 /\
    Row.password_hash u' = "s1$wonderland" /\
    Row.is_active u' = true /\
    Row.force_password_change u' = false /\
    user r = Some a /\
    AuthUser.user_id a = "STD-000001-AAA" /\
    AuthUser.name a = "alice" /\
    AuthUser.email a = "alice@example.org" /\
    AuthUser.role a = student /\
    AuthUser.whatsapp_number a = None /\
    AuthUser.academic_year a = Some 2024 /\
    AuthUser.current_semester a = Some 3 /\
    AuthUser.is_active a = true /\
    AuthUser.force_password_change a = false /\
    AuthUser.last_login a = Some 500 /\
    AuthUser.created_at a = 100 /\
    token r
    = Some (Sample.encode
              {| tok_user_id := "STD-000001-AAA";
                 tok_role := student;
                 iat := 1000;
                 exp := 7201000 |}) /\
    Row.user_id u' = "STD-000001-AAA" /\
    Row.name u' = "alice" /\
    Row.email u' = "alice@example.org" /\
    Row.role u' = student /\
    Row.created_at u' = 100.
Proof.
  apply (login_right_password_resets Sample.compare Sample.encode
           (Sample.creds "alice" "wonderland") (Sample.env_at 1000) Sample.world
           Sample.alice);
    reflexivity.
Defined.

Lemma login_unknown_handle_indistinguishable_witness :
  fst (Sample.login (Sample.creds "mallory" "x") (Sample.env_at 1000) Sample.world)
  = fst (Sample.login (Sample.creds "alice" "nope") (Sample.env_at 2000) Sample.world) /\
  fst (Sample.login (Sample.creds "mallory" "x") (Sample.env_at 1000) Sample.world)
  = Ok invalid_credentials /\
  error invalid_credentials = Some "Invalid username or password".
Proof.
  apply (login_unknown_handle_indistinguishable Sample.compare Sample.encode
           (Sample.creds "mallory" "x") (Sample.env_at 1000) Sample.world
           (Sample.creds "alice" "nope") (Sample.env_at 2000) Sample.world Sample.alice);
    reflexivity.
Defined.

Lemma login_success_returns_previous_last_login_witness :
  exists u a u',
    single (filter (eq_name "alice") (users Sample.world)) = Some u /\
    user (success_result Sample.encode (Sample.env_at 1000) Sample.alice) = Some a /\
    AuthUser.last_login a = Row.last_login u /\
    single (filter (eq_user_id (Row.user_id u))
              (users (snd (Sample.login (Sample.creds "alice" "wonderland")
                             (Sample.env_at 1000) Sample.world))))
    = Some u' /\
    Row.last_login u' = Some 1000.
Proof.
  apply (login_success_returns_previous_last_login Sample.compare Sample.encode
           (Sample.creds "alice" "wonderland") (Sample.env_at 1000) Sample.world
           (snd (Sample.login (Sample.creds "alice" "wonderland")
                   (Sample.env_at 1000) Sample.world))
           (success_result Sample.encode (Sample.env_at 1000) Sample.alice));
    reflexivity.
Defined.

(** C3, on the code. A call of [login] on a deactivated account, and a call
    on a locked account, return without any row being added to the audit
    trail, while the call with an unknown handle, the call with a wrong
    password and the successful call each add exactly one. *)
Theorem login_guarded_paths_emit_no_audit_event :
  Sample.login (Sample.creds "bob" "builder") (Sample.env_at 1000) Sample.world
  = (Ok account_inactive, Sample.world) /\
  audit_trail (snd (Sample.login (Sample.creds "bob" "builder") (Sample.env_at 1000)
                      Sample.world)) = [] /\
  Sample.login (Sample.creds "carol" "singer") (Sample.env_at 4999) Sample.world
  = (Ok account_locked, Sample.world) /\
  audit_trail (snd (Sample.login (Sample.creds "carol" "singer") (Sample.env_at 4999)
                      Sample.world)) = [] /\
  length (audit_trail (snd (Sample.login (Sample.creds "mallory" "x")
                              (Sample.env_at 1000) Sample.world))) = 1%nat /\
  length (audit_trail (snd (Sample.login (Sample.creds "alice" "nope")
                              (Sample.env_at 1000) Sample.world))) = 1%nat /\
  length (audit_trail (snd (Sample.login (Sample.creds "alice" "wonderland")
                              (Sample.env_at 1000) Sample.world))) = 1%nat.
Proof.
  repeat split.
Qed.

(** ** [generateTempPassword] *)

Lemma length_app_string (s1 s2 : string) :
  String.length (s1 ++ s2) = (String.length s1 + String.length s2)%nat.
Proof.
  induction s1 as [|c s1 IH]; simpl; [reflexivity | rewrite IH; reflexivity].
Qed.

Lemma list_ascii_app (s1 s2 : string) :
  list_ascii_of_string (s1 ++ s2)
  = (list_ascii_of_string s1 ++ list_ascii_of_string s2)%list.
Proof.
  induction s1 as [|c s1 IH]; simpl; [reflexivity | rewrite IH; reflexivity].
Qed.

Lemma get_in_range (s : string) (k : nat) :
  (k < String.length s)%nat ->
  exists c, String.get k s = Some c /\ In c (list_ascii_of_string s).
Proof.
  revert k. induction s as [|a s IH]; simpl; intros k Hk.
  - lia.
  - destruct k as [|k].
    + exists a. split; [reflexivity | left; reflexivity].
    + destruct (IH k) as [c [Hg Hin]]; [lia|].
      exists c. split; [exact Hg | right; exact Hin].
Qed.

(** Each round of the loop appends one glyph of the alphabet. *)
Lemma charAt_chars (draw : nat) :
  exists c,
    charAt chars (Math_floor_random (String.length chars) draw) = String c EmptyString /\
    In c (list_ascii_of_string chars).
Proof.
  destruct (get_in_range chars (Math_floor_random (String.length chars) draw))
    as [c [Hg Hin]].
  { unfold Math_floor_random. apply Nat.mod_upper_bound. cbn. discriminate. }
  exists c. split; [|exact Hin]. unfold charAt. rewrite Hg. reflexivity.
Qed.

Lemma generateTempPassword_loop_length (rnd : nat -> nat) (n i : nat) (password : string) :
  String.length (generateTempPassword_loop rnd n i password)
  = (String.length password + n)%nat.
Proof.
  revert i password. induction n as [|n IH]; intros i password;
    cbn [generateTempPassword_loop].
  - lia.
  - rewrite IH, length_app_string.
    destruct (charAt_chars (rnd i)) as [c [Hc _]].
    rewrite Hc. cbn [String.length]. lia.
Qed.

Lemma generateTempPassword_loop_alphabet (rnd : nat -> nat) (n i : nat) (password : string) :
  (forall c, In c (list_ascii_of_string password) -> In c (list_ascii_of_string chars)) ->
  forall c, In c (list_ascii_of_string (generateTempPassword_loop rnd n i password)) ->
            In c (list_ascii_of_string chars).
Proof.
  revert i password. induction n as [|n IH]; intros i password Hp c;
    cbn [generateTempPassword_loop].
  - apply Hp.
  - apply IH. intros x Hx. rewrite list_ascii_app in Hx.
    apply in_app_or in Hx. destruct Hx as [Hx|Hx].
    + apply Hp. exact Hx.
    + destruct (charAt_chars (rnd i)) as [y [Hy Hin]].
      rewrite Hy in Hx.
      destruct Hx as [Hx|[]]. subst x. exact Hin.
Qed.

(** The glyph [charAt] yields at a position inside the string. *)
Lemma charAt_in_range (s : string) (k : nat) :
  (k < String.length s)%nat ->
  exists c, String.get k s = Some c /\ charAt s k = String c EmptyString.
Proof.
  intros Hk. destruct (get_in_range s k Hk) as [c [Hg _]].
  exists c. split; [exact Hg|]. unfold charAt. rewrite Hg. reflexivity.
Qed.

(** Position by position: the loop keeps the glyphs it was given, and the
    glyph it appends in round [i] is the glyph of [chars] at the draw of that
    round reduced modulo 62. *)
Lemma generateTempPassword_loop_get (rnd : nat -> nat) (n : nat) :
  forall (i0 : nat) (password : string) (j : nat),
    ((j < String.length password)%nat ->
     String.get j (generateTempPassword_loop rnd n i0 password)
     = String.get j password) /\
    ((String.length password <= j < String.length password + n)%nat ->
     String.get j (generateTempPassword_loop rnd n i0 password)
     = String.get (Nat.modulo (rnd (i0 + (j - String.length password))%nat) 62) chars).
Proof.
  induction n as [|n IH]; intros i0 password j; cbn [generateTempPassword_loop].
  - split; [reflexivity | lia].
  - destruct (charAt_in_range chars (Nat.modulo (rnd i0) 62)) as [c [Hg Hc]].
    { apply Nat.mod_upper_bound. discriminate. }
    change (Math_floor_random (String.length chars) (rnd i0))
      with (Nat.modulo (rnd i0) 62).
    rewrite Hc.
    assert (Hlen : String.length (password ++ String c EmptyString)
                   = (String.length password + 1)%nat)
      by (rewrite length_app_string; reflexivity).
    destruct (IH (S i0) (password ++ String c EmptyString) j) as [IH1 IH2].
    rewrite Hlen in IH1, IH2.
    split.
    + intros Hj. rewrite IH1 by lia. symmetry. apply append_correct1. exact Hj.
    + intros [Hlo Hhi].
      destruct (Nat.eq_dec j (String.length password)) as [Heq|Hne].
      * rewrite IH1 by lia. subst j.
        rewrite Nat.sub_diag, Nat.add_0_r, Hg.
        pose proof (append_correct2 password (String c EmptyString) 0) as Happ.
        cbn [Nat.add] in Happ. rewrite <- Happ. reflexivity.
      * rewrite IH2 by lia. do 3 f_equal. lia.
Qed.

(** The alphabet: printable glyphs, none of the ambiguous ones; and the
    ambiguous ones are all the letters and digits it leaves out. *)
Lemma chars_printable_unambiguous :
  forall c, In c (list_ascii_of_string chars) ->
            printable c = true /\ mem_string c ambiguous_glyphs = false.
Proof.
  intros c Hin. cbv [chars list_ascii_of_string] in Hin.
  repeat (destruct Hin as [Hin|Hin]; [subst c; split; reflexivity|]).
  destruct Hin.
Qed.

Lemma alphanumeric_split :
  forall c, In c (list_ascii_of_string alphanumeric) ->
            mem_string c chars = negb (mem_string c ambiguous_glyphs).
Proof.
  intros c Hin. cbv [alphanumeric list_ascii_of_string] in Hin.
  repeat (destruct Hin as [Hin|Hin]; [subst c; reflexivity|]).
  destruct Hin.
Qed.

(** ** The contracts of [changePassword] and [resetUserPassword] *)

Section PasswordContract.

Variable bcrypt_hash : string -> string -> string.
Variable bcrypt_compare : string -> string -> bool.

Abbreviation changePassword' := (changePassword bcrypt_hash bcrypt_compare).
Abbreviation resetUserPassword' := (resetUserPassword bcrypt_hash).

(** C6. For every existing account, the store answering the lookup: a call
    of [changePassword] whose current password does not match the stored hash
    returns "Current password is incorrect" and leaves the whole world, hence
    the stored row with its hash and its [force_password_change], as it was;
    a call whose current password matches, the store answering the update,
    returns [success] = true and rewrites the row with the hash of the new
    password and [force_password_change] = false, the lockout columns being
    left alone. *)
Theorem changePassword_contract
        (userId currentPassword newPassword : string) (env : Env) (w : World) (u : Row.t) :
  select_error env = None ->
  single (filter (eq_user_id userId) (users w)) = Some u ->
  (bcrypt_compare currentPassword (Row.password_hash u) = false ->
   changePassword' userId currentPassword newPassword env w
   = (Ok {| c_success := false; c_error := Some "Current password is incorrect" |}, w)) /\
  (bcrypt_compare currentPassword (Row.password_hash u) = true ->
   update_error env = None ->
   exists w' u',
     changePassword' userId currentPassword newPassword env w
     = (Ok {| c_success := true; c_error := None |}, w') /\
     single (filter (eq_user_id userId) (users w')) = Some u' /\
     u' = apply_updates (change_updates (bcrypt_hash newPassword (bcrypt_salt env))) u /\
     Row.password_hash u' = bcrypt_hash newPassword (bcrypt_salt env) /\
     Row.force_password_change u' = false /\
     Row.failed_login_attempts u' = Row.failed_login_attempts u /\
     Row.locked_until u' = Row.locked_until u).
Proof.
  intros He Hid. split.
  - intros Hpw. unfold changePassword.
    erewrite try_catch_ok; [reflexivity|].
    unfold changePassword_body.
    erewrite bind_run by (apply db_getUserById_found; eassumption).
    cbv beta iota.
    erewrite bind_run by reflexivity.
    cbv beta. rewrite Hpw. reflexivity.
  - intros Hpw Hu.
    set (upd := change_updates (bcrypt_hash newPassword (bcrypt_salt env))).
    destruct (logAuditEvent_total (Some userId) "PASSWORD_CHANGE"
                "Password changed successfully" env
                (with_users (updated_users userId upd (users w)) w))
      as [w' [Hlog Hus]].
    exists w', (apply_updates upd u).
    split.
    + unfold changePassword.
      erewrite try_catch_ok; [reflexivity|].
      unfold changePassword_body.
      erewrite bind_run by (apply db_getUserById_found; eassumption).
      cbv beta iota.
      erewrite bind_run by reflexivity.
      cbv beta. rewrite Hpw. cbn [negb]. cbv iota.
      erewrite bind_run by reflexivity. cbv beta.
      erewrite bind_run by (apply db_updateUser_ok with (upd := upd); eassumption).
      cbv beta.
      erewrite bind_run by exact Hlog.
      reflexivity.
    + split.
      { rewrite Hus. apply by_id_after_update. exact Hid. }
      repeat split.
Qed.

(** What the loop of [generateTempPassword] returns in an environment. *)
Lemma generateTempPassword_run (env : Env) (w : World) :
  generateTempPassword env w
  = (Ok (generateTempPassword_loop (random env) 12 0 ""), w).
Proof. reflexivity. Qed.

(** A reset on an existing account, the store answering, succeeds. *)
Lemma resetUserPassword_run (userId : string) (env : Env) (w : World) (u : Row.t) :
  update_error env = None ->
  single (filter (eq_user_id userId) (users w)) = Some u ->
  exists w',
    resetUserPassword' userId env w
    = (Ok {| r_success := true;
             r_tempPassword := Some (generateTempPassword_loop (random env) 12 0 "");
             r_error := None |}, w') /\
    users w'
    = updated_users userId
        (reset_updates
           (bcrypt_hash (generateTempPassword_loop (random env) 12 0 "") (bcrypt_salt env)))
        (users w).
Proof.
  intros Hu Hid.
  set (p := generateTempPassword_loop (random env) 12 0 "").
  set (upd := reset_updates (bcrypt_hash p (bcrypt_salt env))).
  set (w1 := with_users (updated_users userId upd (users w)) w).
  destruct (logAuditEvent_total
              (or_null (option_map AuthUser.user_id (currentUser w1)))
              "PASSWORD_RESET" ("Reset password for user: " ++ userId) env w1)
    as [w' [Hlog Hus]].
  exists w'. split; [|exact Hus].
  unfold resetUserPassword.
  erewrite try_catch_ok; [reflexivity|].
  unfold resetUserPassword_body.
  erewrite bind_run by apply generateTempPassword_run. cbv beta.
  erewrite bind_run by reflexivity. cbv beta.
  erewrite bind_run by (apply db_updateUser_ok with (upd := upd); eassumption).
  cbv beta.
  erewrite bind_run by reflexivity. cbv beta.
  erewrite bind_run by exact Hlog.
  reflexivity.
Qed.

(** A reset whose update throws reports failure. *)
Lemma resetUserPassword_caught (userId : string) (env : Env) (w : World) (e : Exn)
      (upd : Updates) :
  upd = reset_updates
          (bcrypt_hash (generateTempPassword_loop (random env) 12 0 "") (bcrypt_salt env)) ->
  db_updateUser userId upd env w = (Throw e, w) ->
  exists w', resetUserPassword' userId env w
             = (Ok {| r_success := false; r_tempPassword := None;
                      r_error := Some "Failed to reset password" |}, w').
Proof.
  intros Hupd Hthrow. subst upd. eexists.
  unfold resetUserPassword.
  erewrite try_catch_throw.
  2:{ unfold resetUserPassword_body.
      erewrite bind_run by apply generateTempPassword_run. cbv beta.
      erewrite bind_run by reflexivity. cbv beta.
      erewrite bind_throw by exact Hthrow. reflexivity. }
  reflexivity.
Qed.

(** C7. For every call of [resetUserPassword] that reports [success], on
    whatever row and whatever lockout state it had: the row existed; the
    result carries a temporary password of 12 glyphs, the glyph at position
    [i] being the glyph of [chars] at the [i]-th random draw of this call
    reduced modulo 62, hence each from [chars], an alphabet of printable
    glyphs without the ambiguous ones; the stored row
    now holds the hash of that temporary password, [force_password_change] =
    true, [failed_login_attempts] = 0 and [locked_until] = null. *)
Theorem resetUserPassword_success
        (userId : string) (env : Env) (w w' : World) (r : ResetResult) :
  resetUserPassword' userId env w = (Ok r, w') ->
  r_success r = true ->
  exists u u' p,
    single (filter (eq_user_id userId) (users w)) = Some u /\
    r_tempPassword r = Some p /\
    p = generateTempPassword_loop (random env) 12 0 "" /\
    String.length p = 12%nat /\
    (forall c, In c (list_ascii_of_string p) ->
               In c (list_ascii_of_string chars) /\
               printable c = true /\
               mem_string c ambiguous_glyphs = false) /\
    single (filter (eq_user_id userId) (users w')) = Some u' /\
    u' = apply_updates (reset_updates (bcrypt_hash p (bcrypt_salt env))) u /\
    Row.password_hash u' = bcrypt_hash p (bcrypt_salt env) /\
    Row.force_password_change u' = true /\
    Row.failed_login_attempts u' = Some 0 /\
    Row.locked_until u' = None /\
    (forall i, (i < 12)%nat ->
               String.get i p = String.get (Nat.modulo (random env i) 62) chars) /\
    String.length chars = 62%nat /\
    Row.user_id u' = Row.user_id u /\
    Row.name u' = Row.name u /\
    Row.email u' = Row.email u /\
    Row.role u' = Row.role u /\
    Row.is_active u' = Row.is_active u /\
    Row.last_login u' = Row.last_login u.
Proof.
  intros Hrun Hsucc.
  set (p := generateTempPassword_loop (random env) 12 0 "").
  set (upd := reset_updates (bcrypt_hash p (bcrypt_salt env))).
  destruct (db_updateUser_cases userId upd env w)
    as [[e [Hthrow _]]|[u [Hu [Hid _]]]].
  - destruct (resetUserPassword_caught userId env w e upd eq_refl Hthrow) as [w1 Hfail].
    rewrite Hfail in Hrun. inversion Hrun; subst r. discriminate.
  - destruct (resetUserPassword_run userId env w u Hu Hid) as [w1 [Hok Hus]].
    rewrite Hok in Hrun. inversion Hrun; subst r w1. clear Hrun.
    exists u, (apply_updates upd u), p.
    split; [exact Hid|]. split; [reflexivity|]. split; [reflexivity|].
    split; [apply generateTempPassword_loop_length|].
    split.
    { intros c Hc.
      assert (Hin : In c (list_ascii_of_string chars)).
      { apply (generateTempPassword_loop_alphabet (random env) 12 0 ""); [|exact Hc].
        intros x []. }
      split; [exact Hin|]. apply chars_printable_unambiguous. exact Hin. }
    split.
    { rewrite Hus. apply by_id_after_update. exact Hid. }
    do 5 (split; [reflexivity|]).
    split.
    { intros i Hi. unfold p.
      destruct (generateTempPassword_loop_get (random env) 12 0 "" i) as [_ Hget].
      rewrite Hget by (cbn; lia). cbn [String.length]. rewrite Nat.sub_0_r. reflexivity. }
    repeat split.
Qed.

End PasswordContract.

(** ** The contracts of [changePassword] and [resetUserPassword], on the
       sample table *)

Lemma changePassword_contract_witness :
  Sample.changePassword "ADM-000003-CCC" "oops" "fresh" (Sample.env_at 1000) Sample.world
  = (Ok {| c_success := false; c_error := Some "Current password is incorrect" |},
     Sample.world) /\
  exists w' u',
    Sample.changePassword "ADM-000003-CCC" "singer" "fresh" (Sample.env_at 1000)
      Sample.world
    = (Ok {| c_success := true; c_error := None |}, w') /\
    single (filter (eq_user_id "ADM-000003-CCC") (users w')) = Some u' /\
    Row.password_hash u' = "s1$fresh" /\
    Row.force_password_change u' = false /\
    Row.failed_login_attempts u' = Some 5 /\
    Row.locked_until u' = Some 5000.
Proof.
  split.
  - apply (changePassword_contract Sample.hash Sample.compare
             "ADM-000003-CCC" "oops" "fresh" (Sample.env_at 1000) Sample.world
             Sample.carol); reflexivity.
  - destruct (changePassword_contract Sample.hash Sample.compare
                "ADM-000003-CCC" "singer" "fresh" (Sample.env_at 1000) Sample.world
                Sample.carol eq_refl eq_refl) as [_ Hmatch].
    destruct (Hmatch eq_refl eq_refl) as [w' [u' [Hrun [Hid [Hu' _]]]]].
    exists w', u'. split; [exact Hrun|]. split; [exact Hid|].
    subst u'. repeat split.
Defined.

Lemma resetUserPassword_success_witness :
  exists u u' p,
    single (filter (eq_user_id "ADM-000003-CCC") (users Sample.world)) = Some u /\
    Row.locked_until u = Some 5000 /\
    p = "DMUbiry7%ENV" /\
    String.length p = 12%nat /\
    single (filter (eq_user_id "ADM-000003-CCC")
              (users (snd (Sample.resetUserPassword "ADM-000003-CCC" (Sample.env_at 1000)
                             Sample.world))))
    = Some u' /\
    Row.password_hash u' = "s1$DMUbiry7%ENV" /\
    Row.force_password_change u' = true /\
    Row.failed_login_attempts u' = Some 0 /\
    Row.locked_until u' = None /\
    (forall i, (i < 12)%nat ->
               String.get i p
               = String.get (Nat.modulo (random (Sample.env_at 1000) i) 62) chars) /\
    random (Sample.env_at 1000) 1 = 10%nat /\
    String.get 1 p = Some "M"%char /\
    String.get 10 chars = Some "M"%char.
Proof.
  destruct (resetUserPassword_success Sample.hash
              "ADM-000003-CCC" (Sample.env_at 1000) Sample.world
              (snd (Sample.resetUserPassword "ADM-000003-CCC" (Sample.env_at 1000)
                      Sample.world))
              {| r_success := true; r_tempPassword := Some "DMUbiry7%ENV";
                 r_error := None |})
    as [u [u' [p [Hid [Hp [_ [Hlen [_ [Hid' [Hu' [_ [_ [_ [_ [Hget _]]]]]]]]]]]]]]];
    try reflexivity.
  exists u, u', p.
  cbv in Hid. inversion Hid; subst u. clear Hid.
  cbn in Hp. inversion Hp; subst p. clear Hp.
  subst u'.
  repeat split; try reflexivity; try assumption.
Defined.

(** ** More on [login]: every path, with the world it leaves *)

Lemma logAuditEvent_frame (actor : option string) (action details : string)
      (env : Env) (w : World) :
  exists w',
    logAuditEvent actor action details env w = (Ok tt, w') /\
    users w' = users w /\
    session_of w' = session_of w /\
    audit_step w w' /\
    (insert_error env = None ->
     audit_trail w'
     = (audit_trail w ++
          [{| Audit.user_id := actor;
              Audit.action := action;
              Audit.details := JsonMessage details;
              Audit.ip_address := "127.0.0.1";
              Audit.user_agent := userAgent env;
              Audit.created_at := clock env AtAuditCreated |}])%list).
Proof.
  unfold logAuditEvent, try_catch, db_createAuditLog, now, bind, ask, get_world,
    put_world, ret, throw, console_error.
  destruct (insert_error env) eqn:He; eexists; split; try reflexivity;
    split; try reflexivity; split; try reflexivity; split.
  - left. reflexivity.
  - discriminate.
  - right. eexists. reflexivity.
  - reflexivity.
Qed.

Lemma bind_ext {A B : Type} (m : M A) (k1 k2 : A -> M B) (env : Env) (w : World) :
  (forall a w0, k1 a env w0 = k2 a env w0) ->
  bind m k1 env w = bind m k2 env w.
Proof.
  intros H. unfold bind. destruct (m env w) as [[a|e] w1]; [apply H | reflexivity].
Qed.

Ltac refute_found Hfound :=
  let u0 := fresh "u0" in
  let Hf0 := fresh "Hf0" in
  let Ha0 := fresh "Ha0" in
  let Hl0 := fresh "Hl0" in
  let Hu0 := fresh "Hu0" in
  let Hi0 := fresh "Hi0" in
  intros [u0 [Hf0 [Ha0 [Hl0 [Hu0 Hi0]]]]];
  rewrite Hfound in Hf0;
  first [ discriminate
        | inversion Hf0; subst u0; congruence ].

Section LoginCases.

Variable bcrypt_compare : string -> string -> bool.
Variable btoa_json : TokenPayload -> string.

Abbreviation login2 := (login bcrypt_compare btoa_json).
Abbreviation login_body2 := (login_body bcrypt_compare btoa_json).

(** The handler of [login], run. *)
Lemma login_handler (creds : LoginCredentials) (env : Env) (w w1 : World) (e : Exn) :
  login_body2 creds env w = (Throw e, w1) ->
  exists w',
    login2 creds env w = (Ok system_error, w') /\
    users w' = users w1 /\
    session_of w' = session_of w1 /\
    audit_trail w' = audit_trail w1.
Proof.
  intros H. unfold login. erewrite try_catch_throw by exact H.
  eexists. repeat split.
Qed.

(** Every call of [login] falls in one of four cases:
    - it fails and writes nothing to the table nor to the session;
    - a wrong password was counted on the account found;
    - the right password was given and the update written, but the browser
      storage refused the session: the result is [system_error];
    - it succeeds. *)
Lemma login_cases (creds : LoginCredentials) (env : Env) (w : World) :
  exists r w',
    login2 creds env w = (Ok r, w') /\
    audit_step w w' /\
    ((success r = false /\
      users w' = users w /\
      session_of w' = session_of w /\
      ~ (exists u,
            db_getUserByUsername (username creds) env w = (Ok (Some u), w) /\
            Row.is_active u = true /\
            is_locked (Row.locked_until u) (clock env AtLockCheck) = false /\
            update_error env = None /\
            single (filter (eq_user_id (Row.user_id u)) (users w)) = Some u)) \/
     (exists u,
         single (filter (eq_name (username creds)) (users w)) = Some u /\
         single (filter (eq_user_id (Row.user_id u)) (users w)) = Some u /\
         bcrypt_compare (password creds) (Row.password_hash u) = false /\
         r = invalid_credentials /\
         users w' = updated_users (Row.user_id u) (failed_updates env u) (users w) /\
         session_of w' = session_of w) \/
     (exists u,
         single (filter (eq_name (username creds)) (users w)) = Some u /\
         single (filter (eq_user_id (Row.user_id u)) (users w)) = Some u /\
         bcrypt_compare (password creds) (Row.password_hash u) = true /\
         r = system_error /\
         users w' = updated_users (Row.user_id u) (success_updates env) (users w) /\
         currentUser w' = Some (toAuthUser u) /\
         authToken w' = Some (minted btoa_json env u) /\
         audit_trail w' = audit_trail w /\
         (setItem_error env "auth_user" <> None \/
          setItem_error env "auth_token" <> None)) \/
     (exists u,
         single (filter (eq_name (username creds)) (users w)) = Some u /\
         single (filter (eq_user_id (Row.user_id u)) (users w)) = Some u /\
         bcrypt_compare (password creds) (Row.password_hash u) = true /\
         setItem_error env "auth_user" = None /\
         setItem_error env "auth_token" = None /\
         r = success_result btoa_json env u /\
         users w' = updated_users (Row.user_id u) (success_updates env) (users w) /\
         session_of w'
         = (Some (toAuthUser u), Some (minted btoa_json env u),
            Some (toAuthUser u), Some (minted btoa_json env u)))).
Proof.
  assert (Hnil : forall e, login_body2 creds env w = (Throw e, w) ->
                 exists r w',
                   login2 creds env w = (Ok r, w') /\ audit_step w w' /\
                   success r = false /\ users w' = users w /\
                   session_of w' = session_of w).
  { intros e Hb. destruct (login_handler creds env w w e Hb) as [w' [Hr [Hu [Hse Ha]]]].
    exists system_error, w'. split; [exact Hr|]. split; [left; exact Ha|].
    repeat split; assumption. }
  destruct (db_getUserByUsername_cases (username creds) env w)
    as [[e Hthrow]|[Hnone|[u [Hfound Hs]]]].
  - destruct (Hnil e) as [r [w' [Hr [Ha Hrest]]]].
    { unfold login_body. erewrite bind_throw by exact Hthrow. reflexivity. }
    exists r, w'. split; [exact Hr|]. split; [exact Ha|]. left.
    destruct Hrest as [H1 [H2 H3]]. repeat split; try assumption.
    refute_found Hthrow.
  - destruct (logAuditEvent_frame None "LOGIN_FAILED"
                ("Failed login attempt for username: " ++ username creds) env w)
      as [w' [Hlog [Hu [Hse [Ha _]]]]].
    exists invalid_credentials, w'. split.
    { unfold login. erewrite try_catch_ok; [reflexivity|].
      unfold login_body. erewrite bind_run by exact Hnone. cbv beta iota.
      erewrite bind_run by exact Hlog. reflexivity. }
    split; [exact Ha|]. left. repeat split; try assumption.
    refute_found Hnone.
  - destruct (Row.is_active u) eqn:Hact.
    2:{ exists account_inactive, w. split.
        { unfold login. erewrite try_catch_ok; [reflexivity|].
          apply login_body_inactive with (u := u); assumption. }
        split; [left; reflexivity|]. left. repeat split.
        refute_found Hfound. }
    destruct (is_locked (Row.locked_until u) (clock env AtLockCheck)) eqn:Hlock.
    { exists account_locked, w. split.
      { unfold login. erewrite try_catch_ok; [reflexivity|].
        apply login_body_locked with (u := u); assumption. }
      split; [left; reflexivity|]. left. repeat split.
      refute_found Hfound. }
    assert (Hbody : login_body2 creds env w
                    = (if negb (bcrypt_compare (password creds) (Row.password_hash u))
                       then
                         (db_updateUser (Row.user_id u) (failed_updates env u) ;;;
                          logAuditEvent (Some (Row.user_id u)) "LOGIN_FAILED"
                            ("Failed login attempt for user: " ++ Row.name u) ;;;
                          ret invalid_credentials) env w
                       else
                         (db_updateUser (Row.user_id u) (success_updates env) ;;;
                          storeAuth (toAuthUser u) (minted btoa_json env u) ;;;
                          logAuditEvent (Some (Row.user_id u)) "LOGIN_SUCCESS"
                            "User logged in successfully" ;;;
                          ret (success_result btoa_json env u)) env w)).
    { unfold login_body at 1.
      erewrite bind_run by exact Hfound.
      cbv beta iota. rewrite Hact. cbn [negb]. cbv iota.
      erewrite bind_run by (apply lock_check_run; exact Hlock).
      cbv beta iota.
      erewrite bind_run by reflexivity.
      cbv beta.
      destruct (bcrypt_compare (password creds) (Row.password_hash u));
        cbn [negb]; cbv iota zeta.
      - erewrite bind_run by reflexivity. cbv beta.
        fold (success_updates env).
        apply bind_ext. intros _ w0.
        erewrite bind_run by reflexivity. reflexivity.
      - rewrite bind_run with (a := set_locked_until (failed_updates env u)) (w' := w)
          by (unfold failed_updates; cbn [set_locked_until];
              destruct (5 <=? or_zero (Row.failed_login_attempts u) + 1); reflexivity).
        reflexivity. }
    assert (Hin : In u (filter (eq_user_id (Row.user_id u)) (users w))).
    { apply filter_In. split; [|apply eq_user_id_refl].
      pose proof (single_In _ _ Hs) as Hf.
      assert (Hu : In u (filter (eq_name (username creds)) (users w)))
        by (rewrite Hf; left; reflexivity).
      apply filter_In in Hu. exact (proj1 Hu). }
    destruct (bcrypt_compare (password creds) (Row.password_hash u)) eqn:Hpw;
      cbn [negb] in Hbody.
    + destruct (db_updateUser_cases (Row.user_id u) (success_updates env) env w)
        as [[e [Hthrow Hwhy]]|[r0 [Hu [Hid Hok]]]].
      * destruct (Hnil e) as [r [w' [Hr [Ha Hrest]]]].
        { rewrite Hbody. erewrite bind_throw by exact Hthrow. reflexivity. }
        exists r, w'. split; [exact Hr|]. split; [exact Ha|]. left.
        destruct Hrest as [H1 [H2 H3]]. repeat split; try assumption.
        intros [u0 [Hf0 [Ha0 [Hl0 [Hu0 Hi0]]]]].
        rewrite Hfound in Hf0. inversion Hf0; subst u0.
        rewrite (Hwhy Hu0) in Hi0. discriminate.
      * assert (r0 = u).
        { apply single_In in Hid. rewrite Hid in Hin. destruct Hin as [Hin|[]].
          exact Hin. }
        subst r0.
        erewrite bind_run in Hbody by exact Hok. cbv beta in Hbody.
        unfold storeAuth in Hbody.
        destruct (setItem_error env "auth_user") as [m|] eqn:Ea.
        { destruct (login_handler creds env w
                      (snd (set_memory_auth (toAuthUser u) (minted btoa_json env u) env
                              (with_users
                                 (updated_users (Row.user_id u) (success_updates env)
                                    (users w)) w)))
                      (DomError m)) as [w' [Hr [Hus [Hse Ha]]]].
          { rewrite Hbody.
            cbv [bind set_memory_auth setItem_auth_user setItem_auth_token].
            rewrite Ea. reflexivity. }
          exists system_error, w'. split; [exact Hr|]. split; [left; exact Ha|].
          right. right. left. exists u.
          unfold session_of in Hse. inversion Hse.
          repeat split; try assumption. left. discriminate. }
        destruct (setItem_error env "auth_token") as [m|] eqn:Et.
        { destruct (login_handler creds env w
                      (snd (setItem_auth_user (toAuthUser u) env
                              (snd (set_memory_auth (toAuthUser u)
                                      (minted btoa_json env u) env
                              (with_users
                                 (updated_users (Row.user_id u) (success_updates env)
                                    (users w)) w)))))
                      (DomError m)) as [w' [Hr [Hus [Hse Ha]]]].
          { rewrite Hbody.
            cbv [bind set_memory_auth setItem_auth_user setItem_auth_token].
            rewrite ?Ea, ?Et. reflexivity. }
          exists system_error, w'. split; [exact Hr|].
          cbv [setItem_auth_user set_memory_auth] in Hus, Hse, Ha.
          rewrite Ea in Hus, Hse, Ha. cbn in Hus, Hse, Ha.
          split; [left; exact Ha|].
          right. right. left. exists u.
          unfold session_of in Hse. inversion Hse.
          repeat split; try assumption. right. discriminate. }
        match type of Hbody with
        | _ = bind ?m ?k env ?x =>
            assert (Hstore : exists w1,
                       m env x = (Ok tt, w1) /\
                       users w1 = updated_users (Row.user_id u) (success_updates env)
                                    (users w) /\
                       audit_trail w1 = audit_trail w /\
                       session_of w1
                       = (Some (toAuthUser u), Some (minted btoa_json env u),
                          Some (toAuthUser u), Some (minted btoa_json env u)))
        end.
        { cbv [bind set_memory_auth setItem_auth_user setItem_auth_token].
          rewrite Ea, Et. eexists. repeat split. }
        destruct Hstore as [w1 [Hst [Hus1 [Ha1 Hse1]]]].
        erewrite bind_run in Hbody by exact Hst. cbv beta in Hbody.
        destruct (logAuditEvent_frame (Some (Row.user_id u)) "LOGIN_SUCCESS"
                    "User logged in successfully" env w1)
          as [w' [Hlog [Hu' [Hse' [Ha' _]]]]].
        erewrite bind_run in Hbody by exact Hlog. cbv beta in Hbody.
        exists (success_result btoa_json env u), w'. split.
        { unfold login. erewrite try_catch_ok by exact Hbody. reflexivity. }
        split.
        { unfold audit_step in *. rewrite Ha1 in Ha'. exact Ha'. }
        right. right. right. exists u.
        repeat split; try assumption; congruence.
    + destruct (db_updateUser_cases (Row.user_id u) (failed_updates env u) env w)
        as [[e [Hthrow Hwhy]]|[r0 [Hu [Hid Hok]]]].
      * destruct (Hnil e) as [r [w' [Hr [Ha Hrest]]]].
        { rewrite Hbody. erewrite bind_throw by exact Hthrow. reflexivity. }
        exists r, w'. split; [exact Hr|]. split; [exact Ha|]. left.
        destruct Hrest as [H1 [H2 H3]]. repeat split; try assumption.
        intros [u0 [Hf0 [Ha0 [Hl0 [Hu0 Hi0]]]]].
        rewrite Hfound in Hf0. inversion Hf0; subst u0.
        rewrite (Hwhy Hu0) in Hi0. discriminate.
      * assert (r0 = u).
        { apply single_In in Hid. rewrite Hid in Hin. destruct Hin as [Hin|[]].
          exact Hin. }
        subst r0.
        erewrite bind_run in Hbody by exact Hok. cbv beta in Hbody.
        destruct (logAuditEvent_frame (Some (Row.user_id u)) "LOGIN_FAILED"
                    ("Failed login attempt for user: " ++ Row.name u) env
                    (with_users
                       (updated_users (Row.user_id u) (failed_updates env u) (users w)) w))
          as [w' [Hlog [Hu' [Hse' [Ha' _]]]]].
        erewrite bind_run in Hbody by exact Hlog. cbv beta in Hbody.
        exists invalid_credentials, w'. split.
        { unfold login. erewrite try_catch_ok by exact Hbody. reflexivity. }
        split; [exact Ha'|].
        right. left. exists u. repeat split; assumption.
Qed.

(** X1. A call of [login] that reports success has opened the session: the
    profile and the token of the result are the ones the service now holds in
    memory and in the browser storage, and [isAuthenticated] answers true. *)
Theorem login_success_opens_session
        (creds : LoginCredentials) (env : Env) (w w' : World) (r : LoginResult) :
  login2 creds env w = (Ok r, w') ->
  success r = true ->
  session_of w' = (user r, token r, user r, token r) /\
  user r <> None /\
  token r <> None /\
  isAuthenticated env w' = (Ok true, w').
Proof.
  intros Hrun Hsucc.
  destruct (login_cases creds env w) as [r0 [w0 [Hr [_ Hcases]]]].
  rewrite Hrun in Hr. inversion Hr; subst r0 w0. clear Hr.
  destruct Hcases as [[Hf _]|[[u [_ [_ [_ [Hr _]]]]]|[[u [_ [_ [_ [Hr _]]]]]|
                      [u [_ [_ [_ [_ [_ [Hr [_ Hse]]]]]]]]]]].
  - congruence.
  - subst r. discriminate.
  - subst r. discriminate.
  - subst r. split; [exact Hse|]. split; [discriminate|]. split; [discriminate|].
    unfold session_of in Hse. injection Hse as Hc Ht Hsu Hst.
    unfold isAuthenticated, bind, get_world, ret. rewrite Hc, Ht. reflexivity.
Qed.

(** X2. A call of [login] that does not succeed leaves the session as it
    was, in memory and in the browser storage, unless the result is
    [system_error] and the browser storage refused a write. A rejected login
    never logs the current user out. *)
Theorem login_failure_keeps_session
        (creds : LoginCredentials) (env : Env) (w w' : World) (r : LoginResult) :
  login2 creds env w = (Ok r, w') ->
  success r = false ->
  (r = system_error ->
   setItem_error env "auth_user" = None /\ setItem_error env "auth_token" = None) ->
  session_of w' = session_of w.
Proof.
  intros Hrun Hfail Hstore.
  destruct (login_cases creds env w) as [r0 [w0 [Hr [_ Hcases]]]].
  rewrite Hrun in Hr. inversion Hr; subst r0 w0. clear Hr.
  destruct Hcases as [[_ [_ [Hse _]]]|[[u [_ [_ [_ [_ [_ Hse]]]]]]|
                      [[u [_ [_ [_ [Hr [_ [_ [_ [_ Hno]]]]]]]]]|
                      [u [_ [_ [_ [_ [_ [Hr _]]]]]]]]]].
  - exact Hse.
  - exact Hse.
  - destruct (Hstore Hr) as [Ha Ht]. destruct Hno as [Hno|Hno]; contradiction.
  - subst r. discriminate.
Qed.

(** X3. When the right password is given for an active account that is not
    locked and the browser storage refuses a write, the call returns
    [system_error] although the update was written: the stored row has its
    counter at 0 and [last_login] at the clock reading, the service holds the
    profile in memory and [isAuthenticated] answers true, and no audit row
    was added. *)
Theorem login_storage_refusal_half_done
        (creds : LoginCredentials) (env : Env) (w : World) (u : Row.t) :
  select_error env = None ->
  update_error env = None ->
  single (filter (eq_name (username creds)) (users w)) = Some u ->
  single (filter (eq_user_id (Row.user_id u)) (users w)) = Some u ->
  Row.is_active u = true ->
  is_locked (Row.locked_until u) (clock env AtLockCheck) = false ->
  bcrypt_compare (password creds) (Row.password_hash u) = true ->
  setItem_error env "auth_user" <> None \/ setItem_error env "auth_token" <> None ->
  exists w' u',
    login2 creds env w = (Ok system_error, w') /\
    single (filter (eq_user_id (Row.user_id u)) (users w')) = Some u' /\
    Row.failed_login_attempts u' = Some 0 /\
    Row.last_login u' = Some (clock env AtLastLogin) /\
    currentUser w' = Some (toAuthUser u) /\
    isAuthenticated env w' = (Ok true, w') /\
    audit_trail w' = audit_trail w.
Proof.
  intros He Hu Hs Hid Hact Hlock Hpw Hrefuse.
  assert (Hfound : db_getUserByUsername (username creds) env w = (Ok (Some u), w))
    by (apply db_getUserByUsername_found; assumption).
  destruct (login_cases creds env w) as [r [w' [Hr [_ Hcases]]]].
  destruct Hcases as [[_ [_ [_ Hno]]]|[[u0 [Hs0 [_ [Hpw0 _]]]]|
                      [[u0 [Hs0 [_ [_ [Hr0 [Hus [Hc [Ht [Ha _]]]]]]]]]|
                      [u0 [_ [_ [_ [Ha0 [Ht0 _]]]]]]]]].
  - exfalso. apply Hno. exists u. repeat split; assumption.
  - rewrite Hs in Hs0. inversion Hs0; subst u0. congruence.
  - rewrite Hs in Hs0. inversion Hs0; subst u0. subst r.
    exists w', (apply_updates (success_updates env) u).
    split; [exact Hr|]. split.
    { rewrite Hus. apply by_id_after_update. exact Hid. }
    split; [reflexivity|]. split; [reflexivity|]. split; [exact Hc|].
    split; [|exact Ha].
    unfold isAuthenticated, bind, get_world, ret. rewrite Hc, Ht. reflexivity.
  - destruct Hrefuse as [Hn|Hn]; contradiction.
Qed.

Lemma identity_of_apply_updates (upd : Updates) (x : Row.t) :
  set_password_hash upd = None ->
  set_force_password_change upd = None ->
  identity_of (apply_updates upd x) = identity_of x.
Proof.
  intros Hh Hf. unfold identity_of, apply_updates. cbn. rewrite Hh, Hf. reflexivity.
Qed.

Lemma identity_of_updated_users (userId : string) (upd : Updates) (us : list Row.t) :
  set_password_hash upd = None ->
  set_force_password_change upd = None ->
  map identity_of (updated_users userId upd us) = map identity_of us.
Proof.
  intros Hh Hf. unfold updated_users. rewrite map_map. apply map_ext. intros x.
  destruct (eq_user_id userId x); [apply identity_of_apply_updates; assumption|reflexivity].
Qed.

(** X4. Whatever the credentials, the answers of the environment and the
    path taken, a call of [login] leaves every row of the table with its
    identity, credential and lifecycle columns: only [failed_login_attempts],
    [locked_until] and [last_login] can differ, no row is added or removed;
    and the audit trail keeps its rows and grows by at most one. *)
Theorem login_frame (creds : LoginCredentials) (env : Env) (w : World) :
  map identity_of (users (snd (login2 creds env w))) = map identity_of (users w) /\
  audit_step w (snd (login2 creds env w)).
Proof.
  destruct (login_cases creds env w) as [r [w' [Hr [Ha Hcases]]]].
  rewrite Hr. cbn [snd]. split; [|exact Ha].
  destruct Hcases as [[_ [Hus _]]|[[u [_ [_ [_ [_ [Hus _]]]]]]|
                      [[u [_ [_ [_ [_ [Hus _]]]]]]|
                      [u [_ [_ [_ [_ [_ [_ [Hus _]]]]]]]]]]];
    rewrite Hus; try reflexivity; apply identity_of_updated_users; reflexivity.
Qed.

End LoginCases.

(** ** Consecutive failures *)

Section LoginSequences.

Variable bcrypt_compare : string -> string -> bool.
Variable btoa_json : TokenPayload -> string.

Abbreviation login3 := (login bcrypt_compare btoa_json).
Abbreviation login_seq3 := (login_seq bcrypt_compare btoa_json).

Abbreviation wrong_attempt := (wrong_attempt_on bcrypt_compare).

Lemma login_seq_wrong_run (attempts : list (Env * LoginCredentials)) :
  forall (w : World) (u : Row.t),
    single (filter (eq_name (Row.name u)) (users w)) = Some u ->
    single (filter (eq_user_id (Row.user_id u)) (users w)) = Some u ->
    Row.is_active u = true ->
    or_zero (Row.failed_login_attempts u) + Z.of_nat (length attempts) < 5 ->
    Forall (wrong_attempt u) attempts ->
    exists w' u',
      login_seq3 attempts w = (map (fun _ => Ok invalid_credentials) attempts, w') /\
      single (filter (eq_name (Row.name u)) (users w')) = Some u' /\
      single (filter (eq_user_id (Row.user_id u)) (users w')) = Some u' /\
      identity_of u' = identity_of u /\
      Row.locked_until u' = Row.locked_until u /\
      Row.last_login u' = Row.last_login u /\
      or_zero (Row.failed_login_attempts u')
      = or_zero (Row.failed_login_attempts u) + Z.of_nat (length attempts).
Proof.
  induction attempts as [|[env creds] rest IH]; intros w u Hs Hid Hact Hfew Hall.
  - exists w, u. split; [reflexivity|]. repeat split; try assumption.
    cbn [length Z.of_nat]. lia.
  - inversion Hall as [|a l [He [Hu [Hn [Hpw Hlock]]]] Hrest]; subst.
    cbn [fst snd] in He, Hu, Hn, Hpw, Hlock.
    cbn [length] in Hfew.
    destruct (login_wrong_password_run bcrypt_compare btoa_json creds env w u)
      as [w1 [Hrun [_ [Hid1 Hs1]]]]; try assumption.
    { rewrite Hn. exact Hs. }
    set (u1 := apply_updates (failed_updates env u) u) in *.
    assert (Hno : (5 <=? or_zero (Row.failed_login_attempts u) + 1) = false)
      by (apply Z.leb_gt; lia).
    assert (Hl1 : Row.locked_until u1 = Row.locked_until u).
    { subst u1. cbn. rewrite Hno. reflexivity. }
    assert (Hc1 : or_zero (Row.failed_login_attempts u1)
                  = or_zero (Row.failed_login_attempts u) + 1) by reflexivity.
    destruct (IH w1 u1) as [w' [u' [Hseq [Hs' [Hid' [Hi' [Hl' [Hll' Hc']]]]]]]].
    + rewrite Hn in Hs1. exact Hs1.
    + exact Hid1.
    + exact Hact.
    + rewrite Hc1. lia.
    + eapply Forall_impl; [|exact Hrest].
      intros [env2 creds2] [H1 [H2 [H3 [H4 H5]]]]. unfold wrong_attempt_on.
      rewrite Hl1. repeat split; assumption.
    + exists w', u'. cbn [login_seq map]. rewrite Hrun, Hseq.
      split; [reflexivity|]. split; [exact Hs'|]. split; [exact Hid'|].
      split.
      { rewrite Hi'. subst u1. apply identity_of_apply_updates; reflexivity. }
      split; [congruence|]. split; [rewrite Hll'; reflexivity|].
      rewrite Hc', Hc1. cbn [length]. lia.
Qed.

(** X5. Consecutive wrong passwords on an active account, below the
    threshold: when the counter plus the number of attempts stays below 5,
    each attempt returns [invalid_credentials], the counter ends at its old
    value plus the number of attempts, and [locked_until] is not written. *)
Theorem login_failures_accumulate
        (attempts : list (Env * LoginCredentials)) (w : World) (u : Row.t) :
  single (filter (eq_name (Row.name u)) (users w)) = Some u ->
  single (filter (eq_user_id (Row.user_id u)) (users w)) = Some u ->
  Row.is_active u = true ->
  or_zero (Row.failed_login_attempts u) + Z.of_nat (length attempts) < 5 ->
  Forall (wrong_attempt u) attempts ->
  exists w' u',
    login_seq3 attempts w = (map (fun _ => Ok invalid_credentials) attempts, w') /\
    single (filter (eq_user_id (Row.user_id u)) (users w')) = Some u' /\
    or_zero (Row.failed_login_attempts u')
    = or_zero (Row.failed_login_attempts u) + Z.of_nat (length attempts) /\
    Row.locked_until u' = Row.locked_until u.
Proof.
  intros Hs Hid Hact Hfew Hall.
  destruct (login_seq_wrong_run attempts w u Hs Hid Hact Hfew Hall)
    as [w' [u' [Hseq [_ [Hid' [_ [Hl' [_ Hc']]]]]]]].
  exists w', u'. repeat split; assumption.
Qed.

(** X6. Failures below the threshold, then the right password: the last call
    succeeds and the stored counter is back to 0, with [locked_until] null. *)
Theorem login_failures_then_success
        (attempts : list (Env * LoginCredentials)) (env : Env) (creds : LoginCredentials)
        (w : World) (u : Row.t) :
  single (filter (eq_name (Row.name u)) (users w)) = Some u ->
  single (filter (eq_user_id (Row.user_id u)) (users w)) = Some u ->
  Row.is_active u = true ->
  or_zero (Row.failed_login_attempts u) + Z.of_nat (length attempts) < 5 ->
  Forall (wrong_attempt u) attempts ->
  select_error env = None ->
  update_error env = None ->
  setItem_error env "auth_user" = None ->
  setItem_error env "auth_token" = None ->
  username creds = Row.name u ->
  bcrypt_compare (password creds) (Row.password_hash u) = true ->
  is_locked (Row.locked_until u) (clock env AtLockCheck) = false ->
  exists w1 r w' u',
    login_seq3 attempts w = (map (fun _ => Ok invalid_credentials) attempts, w1) /\
    login3 creds env w1 = (Ok r, w') /\
    success r = true /\
    single (filter (eq_user_id (Row.user_id u)) (users w')) = Some u' /\
    Row.failed_login_attempts u' = Some 0 /\
    Row.locked_until u' = None.
Proof.
  intros Hs Hid Hact Hfew Hall He Hu Ha Ht Hn Hpw Hlock.
  destruct (login_seq_wrong_run attempts w u Hs Hid Hact Hfew Hall)
    as [w1 [u1 [Hseq [Hs1 [Hid1 [Hi1 [Hl1 _]]]]]]].
  assert (Hfields : Row.user_id u1 = Row.user_id u /\
                    Row.password_hash u1 = Row.password_hash u /\
                    Row.is_active u1 = Row.is_active u).
  { unfold identity_of in Hi1. injection Hi1. intros. repeat split; assumption. }
  destruct Hfields as [Hf1 [Hf2 Hf3]].
  destruct (login_right_password_run bcrypt_compare btoa_json creds env w1 u1)
    as [w' [Hrun Hid']]; try assumption.
  - rewrite Hn. exact Hs1.
  - rewrite Hf1. exact Hid1.
  - congruence.
  - rewrite Hl1. exact Hlock.
  - rewrite Hf2. exact Hpw.
  - exists w1, (success_result btoa_json env u1), w',
      (apply_updates (success_updates env) u1).
    split; [exact Hseq|]. split; [exact Hrun|]. split; [reflexivity|].
    split; [rewrite <- Hf1; exact Hid'|]. split; reflexivity.
Qed.

(** X7. Failures up to the threshold: when the counter plus the number of
    attempts, the last one included, is exactly 5, every attempt returns
    [invalid_credentials], the last one writes [locked_until] = its clock
    reading + 15 minutes, and a further call with the right password made
    before that time returns [account_locked]. *)
Theorem login_fifth_failure_locks
        (attempts : list (Env * LoginCredentials)) (env : Env) (creds : LoginCredentials)
        (env' : Env) (creds' : LoginCredentials) (w : World) (u : Row.t) :
  single (filter (eq_name (Row.name u)) (users w)) = Some u ->
  single (filter (eq_user_id (Row.user_id u)) (users w)) = Some u ->
  Row.is_active u = true ->
  or_zero (Row.failed_login_attempts u) + Z.of_nat (length attempts) = 4 ->
  Forall (wrong_attempt u) attempts ->
  wrong_attempt u (env, creds) ->
  select_error env' = None ->
  username creds' = Row.name u ->
  clock env' AtLockCheck < clock env AtLockSet + 15 * 60 * 1000 ->
  exists w1 w2 u2,
    login_seq3 attempts w = (map (fun _ => Ok invalid_credentials) attempts, w1) /\
    login3 creds env w1 = (Ok invalid_credentials, w2) /\
    single (filter (eq_user_id (Row.user_id u)) (users w2)) = Some u2 /\
    Row.failed_login_attempts u2 = Some 5 /\
    Row.locked_until u2 = Some (clock env AtLockSet + 15 * 60 * 1000) /\
    login3 creds' env' w2 = (Ok account_locked, w2).
Proof.
  intros Hs Hid Hact Hfour Hall [He [Hu [Hn [Hpw Hlock]]]] He' Hn' Hbefore.
  cbn [fst snd] in He, Hu, Hn, Hpw, Hlock.
  destruct (login_seq_wrong_run attempts w u Hs Hid Hact) as
    [w1 [u1 [Hseq [Hs1 [Hid1 [Hi1 [Hl1 [_ Hc1]]]]]]]]; [lia|exact Hall|].
  assert (Hfields : Row.user_id u1 = Row.user_id u /\
                    Row.name u1 = Row.name u /\
                    Row.password_hash u1 = Row.password_hash u /\
                    Row.is_active u1 = Row.is_active u).
  { unfold identity_of in Hi1. injection Hi1. intros. repeat split; assumption. }
  destruct Hfields as [Hf1 [Hf0 [Hf2 Hf3]]].
  destruct (login_wrong_password_run bcrypt_compare btoa_json creds env w1 u1)
    as [w2 [Hrun [_ [Hid2 Hs2]]]]; try assumption.
  - rewrite Hn. exact Hs1.
  - rewrite Hf1. exact Hid1.
  - congruence.
  - rewrite Hl1. exact Hlock.
  - rewrite Hf2. exact Hpw.
  - set (u2 := apply_updates (failed_updates env u1) u1) in *.
    assert (Hge : (5 <=? or_zero (Row.failed_login_attempts u1) + 1) = true)
      by (apply Z.leb_le; lia).
    assert (Hl2 : Row.locked_until u2 = Some (clock env AtLockSet + 15 * 60 * 1000)).
    { subst u2. cbn. rewrite Hge. reflexivity. }
    exists w1, w2, u2.
    split; [exact Hseq|]. split; [exact Hrun|].
    split; [rewrite <- Hf1; exact Hid2|].
    split.
    { subst u2. cbn. f_equal. lia. }
    split; [exact Hl2|].
    apply (login_locked_run bcrypt_compare btoa_json creds' env' w2 u2).
    + exact He'.
    + rewrite Hn', <- Hn. exact Hs2.
    + subst u2. cbn. congruence.
    + rewrite Hl2. cbn. apply Z.ltb_lt. exact Hbefore.
Qed.

End LoginSequences.

(** ** Passwords, round trips *)

Lemma eq_user_id_true (userId : string) (r : Row.t) :
  eq_user_id userId r = true -> Row.user_id r = userId.
Proof. unfold eq_user_id. apply String.eqb_eq. Qed.

Lemma single_filter_holds {A : Type} (p : A -> bool) (l : list A) (a : A) :
  single (filter p l) = Some a -> p a = true /\ In a l.
Proof.
  intros H. apply single_In in H.
  assert (Hin : In a (filter p l)) by (rewrite H; left; reflexivity).
  apply filter_In in Hin. tauto.
Qed.

Section PasswordRoundTrips.

Variable bcrypt_hash : string -> string -> string.
Variable bcrypt_compare : string -> string -> bool.
Variable btoa_json : TokenPayload -> string.

Abbreviation login4 := (login bcrypt_compare btoa_json).
Abbreviation changePassword4 := (changePassword bcrypt_hash bcrypt_compare).
Abbreviation resetUserPassword4 := (resetUserPassword bcrypt_hash).

(** X8. Round trip of a reset: when [bcrypt.compare] accepts the hash that
    [bcrypt.hash] made of the temporary password, a [login] with the handle
    of the account and the temporary password [resetUserPassword] returned
    succeeds, whatever the counter and [locked_until] were before the reset
    and whenever the login is made, and the profile it returns has
    [force_password_change] = true. The account must be active. *)
Theorem reset_then_login_succeeds
        (userId : string) (env1 env2 : Env) (w : World) (u : Row.t) :
  update_error env1 = None ->
  single (filter (eq_user_id userId) (users w)) = Some u ->
  single (filter (eq_name (Row.name u)) (users w)) = Some u ->
  Row.is_active u = true ->
  bcrypt_compare (generateTempPassword_loop (random env1) 12 0 "")
    (bcrypt_hash (generateTempPassword_loop (random env1) 12 0 "") (bcrypt_salt env1))
  = true ->
  select_error env2 = None ->
  update_error env2 = None ->
  setItem_error env2 "auth_user" = None ->
  setItem_error env2 "auth_token" = None ->
  exists p w1 r w2 a,
    resetUserPassword4 userId env1 w
    = (Ok {| r_success := true; r_tempPassword := Some p; r_error := None |}, w1) /\
    login4 {| username := Row.name u; password := p |} env2 w1 = (Ok r, w2) /\
    success r = true /\
    user r = Some a /\
    AuthUser.force_password_change a = true.
Proof.
  intros Hu1 Hid Hs Hact Hbc He2 Hu2 Ha2 Ht2.
  set (p := generateTempPassword_loop (random env1) 12 0 "") in *.
  set (upd := reset_updates (bcrypt_hash p (bcrypt_salt env1))).
  destruct (resetUserPassword_run bcrypt_hash userId env1 w u Hu1 Hid) as [w1 [Hrun Hus]].
  fold p in Hrun, Hus. fold upd in Hus.
  destruct (single_filter_holds _ _ _ Hid) as [Hmatch _].
  pose proof (eq_user_id_true _ _ Hmatch) as Huid.
  assert (Hs1 : single (filter (eq_name (Row.name u)) (users w1))
                = Some (apply_updates upd u))
    by (rewrite Hus; apply by_name_after_update; assumption).
  assert (Hid1 : single (filter (eq_user_id (Row.user_id (apply_updates upd u)))
                           (users w1))
                 = Some (apply_updates upd u))
    by (rewrite apply_updates_user_id, Huid, Hus; apply by_id_after_update; exact Hid).
  destruct (login_right_password_run bcrypt_compare btoa_json
              {| username := Row.name u; password := p |} env2 w1 (apply_updates upd u)
              He2 Hu2 Ha2 Ht2 Hs1 Hid1 Hact eq_refl Hbc)
    as [w2 [Hlogin _]].
  exists p, w1, (success_result btoa_json env2 (apply_updates upd u)), w2,
    (toAuthUser (apply_updates upd u)).
  split; [exact Hrun|]. split; [exact Hlogin|]. repeat split.
Qed.

(** A change of password on an existing account, the store answering. *)
Lemma changePassword_run (userId currentPassword newPassword : string)
      (env : Env) (w : World) (u : Row.t) :
  select_error env = None ->
  update_error env = None ->
  single (filter (eq_user_id userId) (users w)) = Some u ->
  bcrypt_compare currentPassword (Row.password_hash u) = true ->
  exists w',
    changePassword4 userId currentPassword newPassword env w
    = (Ok {| c_success := true; c_error := None |}, w') /\
    users w'
    = updated_users userId (change_updates (bcrypt_hash newPassword (bcrypt_salt env)))
        (users w) /\
    session_of w' = session_of w /\
    audit_step w w'.
Proof.
  intros He Hu Hid Hpw.
  set (upd := change_updates (bcrypt_hash newPassword (bcrypt_salt env))).
  destruct (logAuditEvent_frame (Some userId) "PASSWORD_CHANGE"
              "Password changed successfully" env
              (with_users (updated_users userId upd (users w)) w))
    as [w' [Hlog [Hus [Hse [Ha _]]]]].
  exists w'. split; [|repeat split; assumption].
  unfold changePassword.
  erewrite try_catch_ok; [reflexivity|].
  unfold changePassword_body.
  erewrite bind_run by (apply db_getUserById_found; eassumption).
  cbv beta iota.
  erewrite bind_run by reflexivity.
  cbv beta. rewrite Hpw. cbn [negb]. cbv iota.
  erewrite bind_run by reflexivity. cbv beta.
  erewrite bind_run by (apply db_updateUser_ok with (upd := upd); eassumption).
  cbv beta.
  erewrite bind_run by exact Hlog.
  reflexivity.
Qed.

(** X9. After a successful [changePassword] on an active account that is
    not locked, when [bcrypt.compare] accepts the new password against its
    hash and rejects the old one against it: a [login] with the new password
    succeeds and returns a profile with [force_password_change] = false,
    while a [login] with the old password returns [invalid_credentials] and
    is counted as a failure. *)
Theorem changePassword_then_login
        (userId oldPassword newPassword : string) (env1 env2 : Env) (w : World) (u : Row.t) :
  select_error env1 = None ->
  update_error env1 = None ->
  single (filter (eq_user_id userId) (users w)) = Some u ->
  single (filter (eq_name (Row.name u)) (users w)) = Some u ->
  bcrypt_compare oldPassword (Row.password_hash u) = true ->
  bcrypt_compare newPassword (bcrypt_hash newPassword (bcrypt_salt env1)) = true ->
  bcrypt_compare oldPassword (bcrypt_hash newPassword (bcrypt_salt env1)) = false ->
  Row.is_active u = true ->
  is_locked (Row.locked_until u) (clock env2 AtLockCheck) = false ->
  select_error env2 = None ->
  update_error env2 = None ->
  setItem_error env2 "auth_user" = None ->
  setItem_error env2 "auth_token" = None ->
  exists w1 r w2 a w3 u3,
    changePassword4 userId oldPassword newPassword env1 w
    = (Ok {| c_success := true; c_error := None |}, w1) /\
    login4 {| username := Row.name u; password := newPassword |} env2 w1 = (Ok r, w2) /\
    success r = true /\
    user r = Some a /\
    AuthUser.force_password_change a = false /\
    login4 {| username := Row.name u; password := oldPassword |} env2 w1
    = (Ok invalid_credentials, w3) /\
    single (filter (eq_user_id userId) (users w3)) = Some u3 /\
    Row.failed_login_attempts u3 = Some (or_zero (Row.failed_login_attempts u) + 1).
Proof.
  intros He1 Hu1 Hid Hs Hold Hnew Hrej Hact Hlock He2 Hu2 Ha2 Ht2.
  set (upd := change_updates (bcrypt_hash newPassword (bcrypt_salt env1))).
  destruct (changePassword_run userId oldPassword newPassword env1 w u He1 Hu1 Hid Hold)
    as [w1 [Hrun [Hus _]]].
  fold upd in Hus.
  destruct (single_filter_holds _ _ _ Hid) as [Hmatch _].
  pose proof (eq_user_id_true _ _ Hmatch) as Huid.
  assert (Hs1 : single (filter (eq_name (Row.name u)) (users w1))
                = Some (apply_updates upd u))
    by (rewrite Hus; apply by_name_after_update; assumption).
  assert (Hid1 : single (filter (eq_user_id (Row.user_id (apply_updates upd u)))
                           (users w1))
                 = Some (apply_updates upd u))
    by (rewrite apply_updates_user_id, Huid, Hus; apply by_id_after_update; exact Hid).
  destruct (login_right_password_run bcrypt_compare btoa_json
              {| username := Row.name u; password := newPassword |} env2 w1
              (apply_updates upd u) He2 Hu2 Ha2 Ht2 Hs1 Hid1 Hact Hlock Hnew)
    as [w2 [Hlogin _]].
  destruct (login_wrong_password_run bcrypt_compare btoa_json
              {| username := Row.name u; password := oldPassword |} env2 w1
              (apply_updates upd u) He2 Hu2 Hs1 Hid1 Hact Hlock Hrej)
    as [w3 [Hbad [_ [Hid3 _]]]].
  exists w1, (success_result btoa_json env2 (apply_updates upd u)), w2,
    (toAuthUser (apply_updates upd u)), w3,
    (apply_updates (failed_updates env2 (apply_updates upd u)) (apply_updates upd u)).
  split; [exact Hrun|]. split; [exact Hlogin|].
  split; [reflexivity|]. split; [reflexivity|]. split; [reflexivity|].
  split; [exact Hbad|]. split.
  - rewrite apply_updates_user_id, Huid in Hid3. exact Hid3.
  - reflexivity.
Qed.

(** X10. [resetUserPassword] on an identifier that no row bears, or when the
    store refuses the update: the result reports "Failed to reset password"
    and carries no temporary password, no row of the table is written, and
    no audit row is added. *)
Theorem resetUserPassword_failure
        (userId : string) (env : Env) (w : World) :
  update_error env <> None \/ single (filter (eq_user_id userId) (users w)) = None ->
  exists w',
    resetUserPassword4 userId env w
    = (Ok {| r_success := false; r_tempPassword := None;
             r_error := Some "Failed to reset password" |}, w') /\
    users w' = users w /\
    audit_trail w' = audit_trail w /\
    session_of w' = session_of w.
Proof.
  intros Hwhy.
  set (upd := reset_updates
                (bcrypt_hash (generateTempPassword_loop (random env) 12 0 "")
                   (bcrypt_salt env))).
  destruct (db_updateUser_cases userId upd env w)
    as [[e [Hthrow _]]|[u [Hu [Hid _]]]].
  - eexists. split.
    + unfold resetUserPassword.
      erewrite try_catch_throw.
      2:{ unfold resetUserPassword_body.
          erewrite bind_run by apply generateTempPassword_run. cbv beta.
          erewrite bind_run by reflexivity. cbv beta.
          erewrite bind_throw by exact Hthrow. reflexivity. }
      reflexivity.
    + repeat split.
  - exfalso. destruct Hwhy as [Hno|Hno]; congruence.
Qed.

End PasswordRoundTrips.

(** ** [logout] *)

(** X11. [logout] never throws and always closes the session, in memory and
    in the browser storage, without touching the table. When a user was
    logged in and the audit insert answers, exactly one row is added to the
    audit trail, a LOGOUT by that user; when nobody was logged in, none. *)
Theorem logout_closes_session (env : Env) (w : World) :
  exists w',
    logout env w = (Ok tt, w') /\
    session_of w' = (None, None, None, None) /\
    isAuthenticated env w' = (Ok false, w') /\
    users w' = users w /\
    audit_step w w' /\
    (currentUser w = None -> audit_trail w' = audit_trail w) /\
    (forall a, currentUser w = Some a -> insert_error env = None ->
               exists row,
                 audit_trail w' = (audit_trail w ++ [row])%list /\
                 Audit.user_id row = Some (AuthUser.user_id a) /\
                 Audit.action row = "LOGOUT").
Proof.
  unfold logout.
  erewrite bind_run by reflexivity. cbv beta.
  destruct (currentUser w) as [a|] eqn:Hc.
  - destruct (logAuditEvent_frame (Some (AuthUser.user_id a)) "LOGOUT" "User logged out"
                env w) as [w1 [Hlog [Hus [_ [Ha Hrow]]]]].
    erewrite bind_run by exact Hlog. cbv beta.
    eexists. split; [reflexivity|]. cbn.
    split; [reflexivity|]. split; [reflexivity|]. split; [exact Hus|].
    split; [exact Ha|]. split; [discriminate|].
    intros a0 Ha0 Hi. inversion Ha0; subst a0.
    eexists. split; [apply Hrow; exact Hi|]. split; reflexivity.
  - erewrite bind_run by reflexivity. cbv beta.
    eexists. split; [reflexivity|]. cbn.
    split; [reflexivity|]. split; [reflexivity|]. split; [reflexivity|].
    split; [left; reflexivity|]. split; [reflexivity|].
    intros a0 Ha0. discriminate.
Qed.

(** ** [services/userService.ts]: status, update, delete *)

Lemma db_getUserById_absent (id : string) (env : Env) (w : World) :
  select_error env = None ->
  single (filter (eq_user_id id) (users w)) = None ->
  db_getUserById id env w = (Ok None, w).
Proof.
  intros He Hs.
  unfold db_getUserById, select_single, bind, ask, get_world, ret.
  rewrite He, Hs. reflexivity.
Qed.

Lemma db_updateUser_as_with (userId : string) (upd : Updates) (env : Env) (w : World) :
  db_updateUser userId upd env w = db_updateUser_with userId (apply_updates upd) env w.
Proof. reflexivity. Qed.

Lemma apply_profile_updates_user_id (p : ProfileUpdates) (r : Row.t) :
  Row.user_id (apply_profile_updates p r) = Row.user_id r.
Proof. reflexivity. Qed.

(** The table after a profile update of the rows that bear [userId]. *)
Lemma by_id_after_profile_update (userId : string) (p : ProfileUpdates)
      (us : list Row.t) (r : Row.t) :
  single (filter (eq_user_id userId) us) = Some r ->
  single (filter (eq_user_id userId)
            (map (fun x => if eq_user_id userId x then apply_profile_updates p x else x) us))
  = Some (apply_profile_updates p r).
Proof.
  intros H.
  rewrite filter_map_stable
    by (intros x; destruct (eq_user_id userId x) eqn:E; [exact E | exact E]).
  rewrite single_map, H. cbn.
  destruct (single_filter_holds _ _ _ H) as [Hid _]. rewrite Hid. reflexivity.
Qed.

Lemma updateUser_cases (userId : string) (p : ProfileUpdates) (env : Env) (w : World) :
  (exists e w',
      UserService.updateUser userId p env w = (Ok (updateUser_catch e), w') /\
      users w' = users w /\
      audit_trail w' = audit_trail w /\
      session_of w' = session_of w /\
      (update_error env = None ->
       single (filter (eq_user_id userId) (users w)) = None /\ e = DbError PGRST116) /\
      (forall pe, update_error env = Some pe -> e = DbError pe)) \/
  (exists r,
      update_error env = None /\
      single (filter (eq_user_id userId) (users w)) = Some r /\
      UserService.updateUser userId p env w
      = (Ok {| u_success := true;
               u_user := Some (toAuthUser (apply_profile_updates p r));
               u_error := None |},
         with_users
           (map (fun x => if eq_user_id userId x then apply_profile_updates p x else x)
              (users w)) w)).
Proof.
  unfold UserService.updateUser, try_catch, db_updateUser_with, bind, ask, get_world,
    put_world, ret, throw, console_error.
  destruct (update_error env) as [pe|] eqn:He.
  - left. exists (DbError pe). eexists. split; [reflexivity|].
    repeat split; try discriminate. intros pe0 H. congruence.
  - destruct (single (filter (eq_user_id userId) (users w))) as [r|] eqn:Hs.
    + right. exists r. repeat split.
    + left. exists (DbError PGRST116). eexists. split; [reflexivity|].
      repeat split. intros pe0 H. discriminate.
Qed.

(** X12. [userService.updateUser] never throws. When the store refuses the
    update, or no row bears the identifier, nothing is written; the message
    is "Email address already exists" exactly when the store reported code
    23505 with a message that mentions email, and "Failed to update user"
    otherwise, an unknown identifier included. *)
Theorem updateUser_failure
        (userId : string) (p : ProfileUpdates) (env : Env) (w : World) :
  update_error env <> None \/ single (filter (eq_user_id userId) (users w)) = None ->
  exists r w',
    UserService.updateUser userId p env w = (Ok r, w') /\
    u_success r = false /\
    u_user r = None /\
    users w' = users w /\
    (u_error r = Some "Email address already exists" \/
     u_error r = Some "Failed to update user") /\
    (u_error r = Some "Email address already exists" <->
     exists pe, update_error env = Some pe /\
                code pe = "23505" /\
                includes (message pe) "email" = true).
Proof.
  intros Hwhy.
  destruct (updateUser_cases userId p env w)
    as [[e [w' [Hrun [Hus [_ [_ [Hnone Hsome]]]]]]]|[r [Hu [Hid _]]]].
  2:{ exfalso. destruct Hwhy as [H|H]; congruence. }
  exists (updateUser_catch e), w'. split; [exact Hrun|].
  destruct (update_error env) as [pe|] eqn:He.
  - rewrite (Hsome pe eq_refl). cbn.
    destruct (String.eqb_spec (code pe) "23505") as [Hc|Hc]; cbn;
      [destruct (includes (message pe) "email") eqn:Hi; cbn|].
    + repeat split; try assumption; try (left; reflexivity).
      exists pe. repeat split; assumption.
    + repeat split; try assumption; try (right; reflexivity); try discriminate.
      intros [pe0 [H1 [_ H3]]]. inversion H1; subst pe0. congruence.
    + repeat split; try assumption; try (right; reflexivity); try discriminate.
      intros [pe0 [H1 [H2 _]]]. inversion H1; subst pe0. contradiction.
  - destruct (Hnone eq_refl) as [_ He']. subst e. cbn.
    repeat split; try assumption; try (right; reflexivity); try discriminate.
    intros [pe0 [H1 _]]. discriminate.
Qed.

Lemma toggleUserStatus_run (userId : string) (env : Env) (w : World) (u : Row.t) :
  select_error env = None ->
  update_error env = None ->
  single (filter (eq_user_id userId) (users w)) = Some u ->
  UserService.toggleUserStatus userId env w
  = (Ok {| u_success := true;
           u_user := Some (toAuthUser (apply_profile_updates (toggle_updates u) u));
           u_error := None |},
     with_users
       (map (fun x => if eq_user_id userId x
                      then apply_profile_updates (toggle_updates u) x else x)
          (users w)) w).
Proof.
  intros He Hu Hid.
  unfold UserService.toggleUserStatus.
  erewrite try_catch_ok; [reflexivity|].
  erewrite bind_run by (apply db_getUserById_found; eassumption).
  cbv beta iota.
  destruct (updateUser_cases userId (toggle_updates u) env w)
    as [[e [w' [_ [_ [_ [_ [Hnone _]]]]]]]|[r [_ [Hid' Hrun]]]].
  - destruct (Hnone Hu) as [Hno _]. congruence.
  - rewrite Hid in Hid'. inversion Hid'; subst r. exact Hrun.
Qed.

(** X13. [toggleUserStatus] on an existing account, the store answering:
    the stored row has [is_active] negated and every other column as before
    (hash, counter, [locked_until] included), the profile returned shows the
    new status, and neither the audit trail nor the session is touched. *)
Theorem toggleUserStatus_flips
        (userId : string) (env : Env) (w : World) (u : Row.t) :
  select_error env = None ->
  update_error env = None ->
  single (filter (eq_user_id userId) (users w)) = Some u ->
  exists r w' u' a,
    UserService.toggleUserStatus userId env w = (Ok r, w') /\
    u_success r = true /\
    u_user r = Some a /\
    AuthUser.is_active a = negb (Row.is_active u) /\
    single (filter (eq_user_id userId) (users w')) = Some u' /\
    Row.is_active u' = negb (Row.is_active u) /\
    apply_profile_updates (toggle_updates u') u' = u /\
    Row.failed_login_attempts u' = Row.failed_login_attempts u /\
    Row.locked_until u' = Row.locked_until u /\
    Row.last_login u' = Row.last_login u /\
    audit_trail w' = audit_trail w /\
    session_of w' = session_of w.
Proof.
  intros He Hu Hid.
  pose proof (toggleUserStatus_run userId env w u He Hu Hid) as Hrun.
  do 2 eexists. exists (apply_profile_updates (toggle_updates u) u). eexists.
  split; [exact Hrun|]. split; [reflexivity|]. split; [reflexivity|].
  split; [reflexivity|]. split.
  { cbn [users with_users]. apply by_id_after_profile_update. exact Hid. }
  split; [reflexivity|]. split.
  { destruct u as [? ? ? ? ? ? ? ? act ? ? ? ? ?]. destruct act; reflexivity. }
  repeat split.
Qed.

(** X14. [toggleUserStatus] twice, the store answering both times, gives
    back the table it started from. *)
Theorem toggleUserStatus_twice
        (userId : string) (env1 env2 : Env) (w : World) (u : Row.t) :
  select_error env1 = None ->
  update_error env1 = None ->
  select_error env2 = None ->
  update_error env2 = None ->
  single (filter (eq_user_id userId) (users w)) = Some u ->
  exists r1 w1 r2 w2,
    UserService.toggleUserStatus userId env1 w = (Ok r1, w1) /\
    UserService.toggleUserStatus userId env2 w1 = (Ok r2, w2) /\
    u_success r1 = true /\
    u_success r2 = true /\
    users w2 = users w.
Proof.
  intros He1 Hu1 He2 Hu2 Hid.
  pose proof (toggleUserStatus_run userId env1 w u He1 Hu1 Hid) as Hrun1.
  set (u1 := apply_profile_updates (toggle_updates u) u) in *.
  set (w1 := with_users
               (map (fun x => if eq_user_id userId x
                              then apply_profile_updates (toggle_updates u) x else x)
                  (users w)) w) in *.
  assert (Hid1 : single (filter (eq_user_id userId) (users w1)) = Some u1)
    by (apply by_id_after_profile_update; exact Hid).
  pose proof (toggleUserStatus_run userId env2 w1 u1 He2 Hu2 Hid1) as Hrun2.
  do 4 eexists. split; [exact Hrun1|]. split; [exact Hrun2|].
  split; [reflexivity|]. split; [reflexivity|].
  cbn [users with_users w1]. rewrite map_map.
  rewrite <- (map_id (users w)) at 2. apply map_ext_in. intros x Hx.
  destruct (eq_user_id userId x) eqn:Ex.
  - assert (Hxu : x = u).
    { pose proof (single_In _ _ Hid) as Hf.
      assert (Hin : In x (filter (eq_user_id userId) (users w)))
        by (apply filter_In; split; assumption).
      rewrite Hf in Hin. destruct Hin as [Hin|[]]. symmetry. exact Hin. }
    subst x.
    assert (Ex' : eq_user_id userId (apply_profile_updates (toggle_updates u) u) = true)
      by exact Ex.
    rewrite Ex'. subst u1. destruct u as [? ? ? ? ? ? ? ? act ? ? ? ? ?].
    destruct act; reflexivity.
  - rewrite Ex. reflexivity.
Qed.

(** X15. [toggleUserStatus] on an identifier that no row bears returns
    "User not found" and leaves the world as it was; [toggleUserStatus] never
    throws. *)
Theorem toggleUserStatus_missing (userId : string) (env : Env) (w : World) :
  (exists r w', UserService.toggleUserStatus userId env w = (Ok r, w')) /\
  (select_error env = None ->
   single (filter (eq_user_id userId) (users w)) = None ->
   UserService.toggleUserStatus userId env w
   = (Ok (user_result_error "User not found"), w)).
Proof.
  split.
  - unfold UserService.toggleUserStatus, try_catch.
    match goal with
    | |- context [match ?m env w with _ => _ end] => destruct (m env w) as [[r|e] w1]
    end; do 2 eexists; reflexivity.
  - intros He Hs.
    unfold UserService.toggleUserStatus.
    erewrite try_catch_ok; [reflexivity|].
    erewrite bind_run by (apply db_getUserById_absent; assumption).
    reflexivity.
Qed.

Section StatusAndLogin.

Variable bcrypt_compare : string -> string -> bool.
Variable btoa_json : TokenPayload -> string.

(** X16. Deactivation then login: after [toggleUserStatus] on an active
    account, a [login] with its handle returns [account_inactive] whatever
    the password, and writes nothing. *)
Theorem deactivate_then_login
        (userId : string) (env1 env2 : Env) (creds : LoginCredentials)
        (w : World) (u : Row.t) :
  select_error env1 = None ->
  update_error env1 = None ->
  single (filter (eq_user_id userId) (users w)) = Some u ->
  single (filter (eq_name (Row.name u)) (users w)) = Some u ->
  Row.is_active u = true ->
  select_error env2 = None ->
  username creds = Row.name u ->
  exists r w1,
    UserService.toggleUserStatus userId env1 w = (Ok r, w1) /\
    u_success r = true /\
    login bcrypt_compare btoa_json creds env2 w1 = (Ok account_inactive, w1).
Proof.
  intros He1 Hu1 Hid Hs Hact He2 Hn.
  pose proof (toggleUserStatus_run userId env1 w u He1 Hu1 Hid) as Hrun.
  do 2 eexists. split; [exact Hrun|]. split; [reflexivity|].
  unfold login. erewrite try_catch_ok; [reflexivity|].
  apply login_body_inactive
    with (u := apply_profile_updates (toggle_updates u) u).
  - apply db_getUserByUsername_found; [exact He2|].
    rewrite Hn. cbn [users with_users].
    rewrite filter_map_stable
      by (intros x; destruct (eq_user_id userId x); reflexivity).
    rewrite single_map, Hs. cbn.
    destruct (single_filter_holds _ _ _ Hid) as [Hm _]. rewrite Hm. reflexivity.
  - cbn. rewrite Hact. reflexivity.
Qed.

End StatusAndLogin.

(** ** [services/userService.ts]: delete *)

Lemma filter_filter_comm {A : Type} (p q : A -> bool) (l : list A) :
  filter p (filter q l) = filter q (filter p l).
Proof.
  induction l as [|a l IH]; cbn; [reflexivity|].
  destruct (q a) eqn:Hq, (p a) eqn:Hp; cbn; rewrite ?Hq, ?Hp, IH; reflexivity.
Qed.

Lemma filter_none {A : Type} (p q : A -> bool) (l : list A) :
  (forall a, q a = true -> p a = false) ->
  filter p (filter q l) = [].
Proof.
  intros H. induction l as [|a l IH]; cbn; [reflexivity|].
  destruct (q a) eqn:Hq; [cbn; rewrite (H a Hq)|]; exact IH.
Qed.

Lemma filter_all {A : Type} (p : A -> bool) (l : list A) :
  (forall a, In a l -> p a = true) -> filter p l = l.
Proof.
  intros H. induction l as [|a l IH]; cbn; [reflexivity|].
  rewrite (H a (or_introl eq_refl)). f_equal. apply IH. intros b Hb. apply H.
  right. exact Hb.
Qed.

Lemma deleteUser_run (ans : StoreAnswers) (userId : string) (env : Env) (w : World) :
  users_delete_error ans = None ->
  UserService.deleteUser ans userId env w
  = (Ok {| c_success := true; c_error := None |},
     with_users (filter (fun r => negb (eq_user_id userId r)) (users w)) w).
Proof.
  intros Hd.
  unfold UserService.deleteUser, try_catch, db_deleteUser, bind, get_world, put_world,
    ret, throw.
  rewrite Hd. reflexivity.
Qed.

(** X17. [userService.deleteUser], the store answering, reports success
    whether or not a row bears the identifier: afterwards no row bears it,
    the rows with another identifier are all kept, in order, a table without
    such a row is left as it was, and neither the audit trail nor the session
    of the service is touched. *)
Theorem deleteUser_removes
        (ans : StoreAnswers) (userId : string) (env : Env) (w : World) :
  users_delete_error ans = None ->
  exists w',
    UserService.deleteUser ans userId env w
    = (Ok {| c_success := true; c_error := None |}, w') /\
    filter (eq_user_id userId) (users w') = [] /\
    (select_error env = None -> db_getUserById userId env w' = (Ok None, w')) /\
    filter (fun r => negb (eq_user_id userId r)) (users w)
    = users w' /\
    (filter (eq_user_id userId) (users w) = [] -> users w' = users w) /\
    audit_trail w' = audit_trail w /\
    session_of w' = session_of w.
Proof.
  intros Hd. eexists. split; [apply deleteUser_run; exact Hd|].
  cbn [users with_users audit_trail].
  assert (Hgone : filter (eq_user_id userId)
                    (filter (fun r => negb (eq_user_id userId r)) (users w)) = []).
  { apply filter_none. intros a Ha. apply negb_true_iff in Ha. exact Ha. }
  split; [exact Hgone|]. split.
  { intros He. apply db_getUserById_absent; [exact He|].
    cbn [users with_users]. rewrite Hgone. reflexivity. }
  split; [reflexivity|]. split; [|split; reflexivity].
  intros Hnone. apply filter_all. intros a Ha.
  destruct (eq_user_id userId a) eqn:Ea; [|reflexivity].
  exfalso.
  assert (Hin : In a (filter (eq_user_id userId) (users w)))
    by (apply filter_In; split; assumption).
  rewrite Hnone in Hin. exact Hin.
Qed.

Section DeleteAndLogin.

Variable bcrypt_compare : string -> string -> bool.
Variable btoa_json : TokenPayload -> string.

(** X18. Deletion then login: after [deleteUser] on the account that alone
    bears a handle, a [login] with that handle returns [invalid_credentials],
    as for a handle that never existed, and writes nothing to the table. *)
Theorem delete_then_login
        (ans : StoreAnswers) (env1 env2 : Env) (creds : LoginCredentials)
        (w : World) (u : Row.t) :
  users_delete_error ans = None ->
  single (filter (eq_name (username creds)) (users w)) = Some u ->
  select_error env2 = None ->
  exists w1 w2,
    UserService.deleteUser ans (Row.user_id u) env1 w
    = (Ok {| c_success := true; c_error := None |}, w1) /\
    login bcrypt_compare btoa_json creds env2 w1 = (Ok invalid_credentials, w2) /\
    users w2 = users w1.
Proof.
  intros Hd Hs He2.
  pose proof (deleteUser_run ans (Row.user_id u) env1 w Hd) as Hrun.
  set (w1 := with_users
               (filter (fun r => negb (eq_user_id (Row.user_id u) r)) (users w)) w) in *.
  assert (Hnone : single (filter (eq_name (username creds)) (users w1)) = None).
  { cbn [users with_users w1]. rewrite filter_filter_comm.
    rewrite (single_In _ _ Hs). cbn. rewrite eq_user_id_refl. reflexivity. }
  destruct (login_body_absent bcrypt_compare btoa_json creds env2 w1)
    as [w2 [Hbody Hus]].
  { apply db_getUserByUsername_absent; assumption. }
  exists w1, w2. split; [exact Hrun|]. split; [|exact Hus].
  unfold login. erewrite try_catch_ok by exact Hbody. reflexivity.
Qed.

End DeleteAndLogin.

(** ** [authService.createUser] *)

Section CreateUser.

Variable bcrypt_hash : string -> string -> string.
Variable bcrypt_compare : string -> string -> bool.
Variable btoa_json : TokenPayload -> string.

Abbreviation createUser5 := (createUser bcrypt_hash).

Lemma createUser_run (ans : StoreAnswers) (userData : CreateUserData)
      (env : Env) (w : World) :
  users_insert_error ans = None ->
  exists w',
    createUser5 ans userData env w
    = (Ok {| cr_success := true;
             cr_user :=
               Some (created_authUser
                       (newUser_row ans userData
                          (bcrypt_hash (generateTempPassword_loop (random env) 12 0 "")
                             (bcrypt_salt env))));
             cr_tempPassword := Some (generateTempPassword_loop (random env) 12 0 "");
             cr_error := None |}, w') /\
    users w'
    = (users w ++
         [newUser_row ans userData
            (bcrypt_hash (generateTempPassword_loop (random env) 12 0 "")
               (bcrypt_salt env))])%list /\
    session_of w' = session_of w /\
    audit_step w w' /\
    (insert_error env = None ->
     exists row,
       audit_trail w' = (audit_trail w ++ [row])%list /\
       Audit.action row = "USER_CREATE" /\
       Audit.user_id row = or_null (option_map AuthUser.user_id (currentUser w))).
Proof.
  intros Hi.
  set (p := generateTempPassword_loop (random env) 12 0 "").
  set (row := newUser_row ans userData (bcrypt_hash p (bcrypt_salt env))).
  set (w1 := with_users (users w ++ [row]) w).
  destruct (logAuditEvent_frame
              (or_null (option_map AuthUser.user_id (currentUser w1)))
              "USER_CREATE"
              ("Created new " ++ role_name (cu_role userData) ++ ": " ++ cu_name userData)
              env w1)
    as [w' [Hlog [Hus [Hse [Ha Hrow]]]]].
  exists w'. split.
  - unfold createUser. erewrite try_catch_ok; [reflexivity|].
    unfold createUser_body.
    erewrite bind_run by apply generateTempPassword_run. cbv beta.
    erewrite bind_run by reflexivity. cbv beta.
    erewrite bind_run
      by (unfold db_createUser, bind, get_world, put_world, ret; rewrite Hi; reflexivity).
    cbv beta zeta.
    erewrite bind_run by reflexivity. cbv beta.
    erewrite bind_run by exact Hlog.
    reflexivity.
  - split; [exact Hus|]. split; [exact Hse|]. split; [exact Ha|].
    intros Hins. eexists. split; [apply Hrow; exact Hins|]. split; reflexivity.
Qed.

(** X19. [createUser], the store answering the insert: one row is appended
    to the table and the earlier rows are kept; the new row is active, must
    change its password, has its counter at 0 and no [locked_until]; its hash
    is the hash of the temporary password returned, 12 glyphs of the
    alphabet, whatever [password] the caller supplied; the profile returned
    is the one of the new row. *)
Theorem createUser_success
        (ans : StoreAnswers) (userData : CreateUserData) (env : Env) (w : World) :
  users_insert_error ans = None ->
  exists w' row p a,
    createUser5 ans userData env w
    = (Ok {| cr_success := true; cr_user := Some a; cr_tempPassword := Some p;
             cr_error := None |}, w') /\
    users w' = (users w ++ [row])%list /\
    String.length p = 12%nat /\
    (forall c, In c (list_ascii_of_string p) -> In c (list_ascii_of_string chars)) /\
    Row.password_hash row = bcrypt_hash p (bcrypt_salt env) /\
    Row.user_id row = cu_user_id userData /\
    Row.name row = cu_name userData /\
    Row.email row = cu_email userData /\
    Row.role row = cu_role userData /\
    Row.is_active row = true /\
    Row.force_password_change row = true /\
    Row.failed_login_attempts row = Some 0 /\
    Row.locked_until row = None /\
    AuthUser.user_id a = Row.user_id row /\
    AuthUser.force_password_change a = true.
Proof.
  intros Hi.
  destruct (createUser_run ans userData env w Hi) as [w' [Hrun [Hus _]]].
  do 4 eexists. split; [exact Hrun|]. split; [exact Hus|].
  split; [apply generateTempPassword_loop_length|].
  split.
  { apply (generateTempPassword_loop_alphabet (random env) 12 0 ""). intros x []. }
  repeat split.
Qed.

(** X20. [createUser] when the store refuses the insert: nothing is written
    to the table, no temporary password is returned, no audit row is added.
    The message is "Email address already exists" when the code is 23505 and
    the message of the store mentions email (even if it also mentions
    user_id), "User ID already exists" when the code is 23505 and it mentions
    user_id but not email, and "Failed to create user" in every other case. *)
Theorem createUser_failure
        (ans : StoreAnswers) (userData : CreateUserData) (env : Env) (w : World)
        (pe : PostgrestError) :
  users_insert_error ans = Some pe ->
  exists r w',
    createUser5 ans userData env w = (Ok r, w') /\
    cr_success r = false /\
    cr_user r = None /\
    cr_tempPassword r = None /\
    users w' = users w /\
    audit_trail w' = audit_trail w /\
    cr_error r
    = Some (if andb (String.eqb (code pe) "23505") (includes (message pe) "email")
            then "Email address already exists"
            else if andb (String.eqb (code pe) "23505") (includes (message pe) "user_id")
                 then "User ID already exists"
                 else "Failed to create user").
Proof.
  intros Hi.
  exists (createUser_catch (DbError pe)). eexists. split.
  - unfold createUser. erewrite try_catch_throw.
    2:{ unfold createUser_body.
        erewrite bind_run by apply generateTempPassword_run. cbv beta.
        erewrite bind_run by reflexivity. cbv beta.
        erewrite bind_throw
          by (unfold db_createUser, bind, get_world, throw; rewrite Hi; reflexivity).
        reflexivity. }
    reflexivity.
  - cbn [createUser_catch].
    destruct (String.eqb (code pe) "23505"); cbn [andb];
      [destruct (includes (message pe) "email");
       [|destruct (includes (message pe) "user_id")]|];
      repeat split.
Qed.

(** X21. Round trip of a creation: when no row bears the new handle nor the
    new identifier, and [bcrypt.compare] accepts the hash that [bcrypt.hash]
    made of the temporary password, a [login] with the handle and the
    temporary password [createUser] returned succeeds, and the profile it
    returns has [force_password_change] = true. *)
Theorem createUser_then_login
        (ans : StoreAnswers) (userData : CreateUserData) (env1 env2 : Env) (w : World) :
  users_insert_error ans = None ->
  filter (eq_name (cu_name userData)) (users w) = [] ->
  filter (eq_user_id (cu_user_id userData)) (users w) = [] ->
  bcrypt_compare (generateTempPassword_loop (random env1) 12 0 "")
    (bcrypt_hash (generateTempPassword_loop (random env1) 12 0 "") (bcrypt_salt env1))
  = true ->
  select_error env2 = None ->
  update_error env2 = None ->
  setItem_error env2 "auth_user" = None ->
  setItem_error env2 "auth_token" = None ->
  exists p cr w1 r w2 a,
    createUser5 ans userData env1 w = (Ok cr, w1) /\
    cr_tempPassword cr = Some p /\
    login bcrypt_compare btoa_json
      {| username := cu_name userData; password := p |} env2 w1 = (Ok r, w2) /\
    success r = true /\
    user r = Some a /\
    AuthUser.force_password_change a = true /\
    AuthUser.user_id a = cu_user_id userData.
Proof.
  intros Hi Hname Hid Hbc He2 Hu2 Ha2 Ht2.
  destruct (createUser_run ans userData env1 w Hi) as [w1 [Hrun [Hus _]]].
  set (p := generateTempPassword_loop (random env1) 12 0 "") in *.
  set (row := newUser_row ans userData (bcrypt_hash p (bcrypt_salt env1))) in *.
  assert (Hs1 : single (filter (eq_name (cu_name userData)) (users w1)) = Some row).
  { rewrite Hus, filter_app, Hname. cbn. unfold eq_name. cbn.
    rewrite String.eqb_refl. reflexivity. }
  assert (Hid1 : single (filter (eq_user_id (Row.user_id row)) (users w1)) = Some row).
  { rewrite Hus, filter_app. cbn [Row.user_id row newUser_row]. rewrite Hid. cbn.
    unfold eq_user_id. cbn. rewrite String.eqb_refl. reflexivity. }
  destruct (login_right_password_run bcrypt_compare btoa_json
              {| username := cu_name userData; password := p |} env2 w1 row
              He2 Hu2 Ha2 Ht2 Hs1 Hid1 eq_refl eq_refl Hbc)
    as [w2 [Hlogin _]].
  do 3 eexists. exists (success_result btoa_json env2 row), w2, (toAuthUser row).
  split; [exact Hrun|]. split; [reflexivity|]. split; [exact Hlogin|].
  repeat split.
Qed.

End CreateUser.

(** ** [generateUserId] *)

Lemma prefix_append (s1 s2 : string) : String.prefix s1 (s1 ++ s2) = true.
Proof.
  induction s1 as [|a s1 IH]; cbn.
  - destruct s2; reflexivity.
  - destruct (ascii_dec a a) as [_|Hne]; [exact IH | contradiction].
Qed.

(** X22. The identifiers [generateUserId] makes for two different roles are
    never equal, whatever the clock readings and the random parts: they start
    with ADM-, TCH- and STD- respectively. A role string that is neither
    'admin' nor 'teacher' gets STD-. *)
Theorem generateUserId_separates_roles (ids1 ids2 : IdAnswers) (r1 r2 : Role) :
  (r1 <> r2 ->
   generateUserId ids1 (role_name r1) <> generateUserId ids2 (role_name r2)) /\
  (forall role : string,
      role <> "admin" -> role <> "teacher" ->
      String.prefix "STD-" (generateUserId ids1 role) = true) /\
  String.prefix "ADM-" (generateUserId ids1 "admin") = true /\
  String.prefix "TCH-" (generateUserId ids1 "teacher") = true.
Proof.
  split; [|split; [|split]].
  4:{ exact (prefix_append "TCH-"
               (slice_last 6 (Number_toString (id_now ids1)) ++ "-" ++ id_random36 ids1)). }
  3:{ exact (prefix_append "ADM-"
               (slice_last 6 (Number_toString (id_now ids1)) ++ "-" ++ id_random36 ids1)). }
  - intros Hne H. destruct r1, r2; try (apply Hne; reflexivity);
      cbv [generateUserId role_name] in H; cbn in H; discriminate.
  - intros role Ha Ht. unfold generateUserId.
    destruct (String.eqb_spec role "admin") as [E|_]; [contradiction|].
    destruct (String.eqb_spec role "teacher") as [E|_]; [contradiction|].
    exact (prefix_append "STD-"
             (slice_last 6 (Number_toString (id_now ids1)) ++ "-" ++ id_random36 ids1)).
Qed.

(** ** [contexts/AuthContext.tsx] *)

(** What the reducer keeps true of the provider's state. *)
Lemma authReducer_keeps (st : AuthContext.AuthState) (action : AuthContext.AuthAction) :
  ((AuthContext.isAuthenticated st = true <-> AuthContext.token st <> None) /\
   (AuthContext.isAuthenticated st = true -> AuthContext.user st <> None)) ->
  (AuthContext.isAuthenticated (AuthContext.authReducer st action) = true <->
   AuthContext.token (AuthContext.authReducer st action) <> None) /\
  (AuthContext.isAuthenticated (AuthContext.authReducer st action) = true ->
   AuthContext.user (AuthContext.authReducer st action) <> None).
Proof.
  intros [Htok Husr]. destruct action; cbn.
  - split; assumption.
  - split; [split; [discriminate | reflexivity] | discriminate].
  - split; [split; [discriminate | intros H; contradiction] | discriminate].
  - split; [split; [discriminate | intros H; contradiction] | discriminate].
  - split; [assumption | discriminate].
Qed.

(** X23. Whatever actions are dispatched from the initial state, the
    provider's state is authenticated exactly when it holds a token, and an
    authenticated state always holds a user. *)
Theorem authReducer_invariant (actions : list AuthContext.AuthAction) :
  (AuthContext.isAuthenticated (AuthContext.dispatch_all AuthContext.initialState actions)
   = true <->
   AuthContext.token (AuthContext.dispatch_all AuthContext.initialState actions) <> None) /\
  (AuthContext.isAuthenticated (AuthContext.dispatch_all AuthContext.initialState actions)
   = true ->
   AuthContext.user (AuthContext.dispatch_all AuthContext.initialState actions) <> None).
Proof.
  unfold AuthContext.dispatch_all.
  assert (Hgen : forall st,
             ((AuthContext.isAuthenticated st = true <-> AuthContext.token st <> None) /\
              (AuthContext.isAuthenticated st = true -> AuthContext.user st <> None)) ->
             (AuthContext.isAuthenticated (fold_left AuthContext.authReducer actions st)
              = true <->
              AuthContext.token (fold_left AuthContext.authReducer actions st) <> None) /\
             (AuthContext.isAuthenticated (fold_left AuthContext.authReducer actions st)
              = true ->
              AuthContext.user (fold_left AuthContext.authReducer actions st) <> None)).
  { induction actions as [|a rest IH]; intros st Hst; cbn [fold_left].
    - exact Hst.
    - apply IH. apply authReducer_keeps. exact Hst. }
  apply Hgen. cbn. split; [split; [discriminate | intros H; contradiction] | discriminate].
Qed.

Section Provider.

Variable bcrypt_hash : string -> string -> string.
Variable bcrypt_compare : string -> string -> bool.
Variable btoa_json : TokenPayload -> string.

Abbreviation service_login := (login bcrypt_compare btoa_json).
Abbreviation provider_login := (AuthContext.login bcrypt_compare btoa_json).
Abbreviation provider_changePassword :=
  (AuthContext.changePassword bcrypt_hash bcrypt_compare).

(** X24. The provider's [login] returns what the service decided: it
    reports success exactly when the service did and the token is not the
    empty string, and then its state holds the profile and the token of the
    service and is authenticated; otherwise its state holds no user and no
    token, is not authenticated, and the error handed back is the service's,
    unchanged. In both cases [isLoading] ends false. *)
Theorem provider_login_follows_service
        (state : AuthContext.AuthState) (creds : LoginCredentials) (env : Env) (w : World) :
  exists r res st' w',
    service_login creds env w = (Ok r, w') /\
    provider_login state creds env w = (Ok (res, st'), w') /\
    AuthContext.isLoading st' = false /\
    (c_success res = true <-> success r = true /\ token r <> Some "") /\
    (c_success res = true ->
     AuthContext.user st' = user r /\
     AuthContext.token st' = token r /\
     AuthContext.isAuthenticated st' = true /\
     c_error res = None) /\
    (c_success res = false ->
     AuthContext.user st' = None /\
     AuthContext.token st' = None /\
     AuthContext.isAuthenticated st' = false /\
     c_error res = error r).
Proof.
  destruct (login_cases bcrypt_compare btoa_json creds env w) as [r [w' [Hr [_ Hcases]]]].
  assert (Hshape : success r = false \/
                   exists u, r = success_result btoa_json env u).
  { destruct Hcases as [[Hf _]|[[u [_ [_ [_ [Hr0 _]]]]]|[[u [_ [_ [_ [Hr0 _]]]]]|
                        [u [_ [_ [_ [_ [_ [Hr0 _]]]]]]]]]].
    - left. exact Hf.
    - left. subst r. reflexivity.
    - left. subst r. reflexivity.
    - right. exists u. exact Hr0. }
  exists r.
  assert (Hstep : provider_login state creds env w
                  = (match success r, result_user r, result_token r with
                     | true, Some a, Some (String c tok) =>
                         ret ({| c_success := true; c_error := None |},
                              AuthContext.authReducer
                                (AuthContext.authReducer state (AuthContext.SET_LOADING true))
                                (AuthContext.LOGIN_SUCCESS a (String c tok)))
                     | _, _, _ =>
                         ret ({| c_success := false; c_error := error r |},
                              AuthContext.authReducer
                                (AuthContext.authReducer state (AuthContext.SET_LOADING true))
                                AuthContext.LOGIN_FAILURE)
                     end) env w').
  { unfold AuthContext.login. erewrite bind_run by exact Hr. reflexivity. }
  rewrite Hstep. clear Hstep.
  destruct Hshape as [Hf|[u Hu]].
  - rewrite Hf. do 2 eexists. exists w'. split; [exact Hr|]. split; [reflexivity|].
    cbn. split; [reflexivity|]. split.
    { split; [discriminate | intros [H _]; congruence]. }
    split; [discriminate|]. intros _. repeat split.
  - subst r. cbn [success success_result user token].
    destruct (minted btoa_json env u) as [|c tok] eqn:Hm.
    + do 2 eexists. exists w'. split; [exact Hr|]. split; [reflexivity|].
      cbn. split; [reflexivity|]. split.
      { split; [discriminate | intros [_ H]; contradiction]. }
      split; [discriminate|]. intros _. repeat split.
    + do 2 eexists. exists w'. split; [exact Hr|]. split; [reflexivity|].
      cbn. split; [reflexivity|]. split.
      { split; [intros _; split; [reflexivity | discriminate] | reflexivity]. }
      split; [intros _; repeat split | discriminate].
Qed.

(** X25. A rejected login leaves the provider and the service in
    disagreement when a user was logged in: after a call of the provider's
    [login] that the service answers with [invalid_credentials],
    [account_inactive] or [account_locked], the provider's state holds no
    user and is not authenticated, while the service still holds the session
    it had, in memory and in the browser storage. *)
Theorem provider_login_rejected_keeps_service_session
        (state : AuthContext.AuthState) (creds : LoginCredentials) (env : Env)
        (w w' : World) (r : LoginResult) :
  service_login creds env w = (Ok r, w') ->
  r = invalid_credentials \/ r = account_inactive \/ r = account_locked ->
  exists res st',
    provider_login state creds env w = (Ok (res, st'), w') /\
    c_success res = false /\
    c_error res = error r /\
    AuthContext.user st' = None /\
    AuthContext.isAuthenticated st' = false /\
    session_of w' = session_of w /\
    getCurrentUser env w' = (Ok (currentUser w), w').
Proof.
  intros Hrun Hrej.
  assert (Hf : success r = false)
    by (destruct Hrej as [H|[H|H]]; subst r; reflexivity).
  assert (Hse : session_of w' = session_of w).
  { destruct (login_cases bcrypt_compare btoa_json creds env w)
      as [r0 [w0 [Hr [_ Hcases]]]].
    rewrite Hrun in Hr. inversion Hr; subst r0 w0. clear Hr.
    destruct Hcases as [[_ [_ [Hse _]]]|[[u [_ [_ [_ [_ [_ Hse]]]]]]|
                        [[u [_ [_ [_ [Hr0 _]]]]]|[u [_ [_ [_ [_ [_ [Hr0 _]]]]]]]]]].
    - exact Hse.
    - exact Hse.
    - destruct Hrej as [H|[H|H]]; subst r; discriminate.
    - subst r. discriminate. }
  unfold AuthContext.login.
  erewrite bind_run by exact Hrun. cbv beta. rewrite Hf.
  do 2 eexists. split; [reflexivity|]. cbn.
  repeat split; try assumption.
  unfold getCurrentUser, bind, get_world, ret.
  unfold session_of in Hse. injection Hse as Hc _ _ _. rewrite Hc. reflexivity.
Qed.

(** X26. The provider's [changePassword] asks the service only when its
    state holds a user: without one it returns "User not authenticated" and
    the world is untouched. With one, a success of the service leaves in the
    state a user with [force_password_change] = false and every other field
    of the profile as it was, and keeps the token, [isAuthenticated] and
    [isLoading]; a failure of the service leaves the state as it was. *)
Theorem provider_changePassword_guard
        (state : AuthContext.AuthState) (currentPassword newPassword : string)
        (env : Env) (w : World) :
  (AuthContext.user state = None ->
   provider_changePassword state currentPassword newPassword env w
   = (Ok ({| c_success := false; c_error := Some "User not authenticated" |}, state), w)) /\
  (forall a res st' w',
      AuthContext.user state = Some a ->
      provider_changePassword state currentPassword newPassword env w
      = (Ok (res, st'), w') ->
      changePassword bcrypt_hash bcrypt_compare (AuthUser.user_id a)
        currentPassword newPassword env w = (Ok res, w') /\
      (c_success res = true ->
       AuthContext.user st' = Some (AuthContext.password_changed a) /\
       AuthContext.token st' = AuthContext.token state /\
       AuthContext.isAuthenticated st' = AuthContext.isAuthenticated state /\
       AuthContext.isLoading st' = AuthContext.isLoading state /\
       exists a',
         AuthContext.user st' = Some a' /\
         AuthUser.force_password_change a' = false /\
         AuthUser.user_id a' = AuthUser.user_id a /\
         AuthUser.name a' = AuthUser.name a /\
         AuthUser.email a' = AuthUser.email a /\
         AuthUser.role a' = AuthUser.role a /\
         AuthUser.whatsapp_number a' = AuthUser.whatsapp_number a /\
         AuthUser.academic_year a' = AuthUser.academic_year a /\
         AuthUser.current_semester a' = AuthUser.current_semester a /\
         AuthUser.is_active a' = AuthUser.is_active a /\
         AuthUser.last_login a' = AuthUser.last_login a /\
         AuthUser.created_at a' = AuthUser.created_at a) /\
      (c_success res = false -> st' = state)).
Proof.
  split.
  - intros Hnone. unfold AuthContext.changePassword. rewrite Hnone. reflexivity.
  - intros a res st' w' Hsome Hrun.
    unfold AuthContext.changePassword in Hrun. rewrite Hsome in Hrun.
    unfold bind in Hrun.
    destruct (changePassword bcrypt_hash bcrypt_compare (AuthUser.user_id a)
                currentPassword newPassword env w) as [[res0|e] w0]; [|discriminate].
    destruct (c_success res0) eqn:Hc; cbv [ret] in Hrun; inversion Hrun; subst.
    + split; [reflexivity|]. split; [|congruence].
      intros _. do 4 (split; [reflexivity|]).
      exists (AuthContext.password_changed a). repeat split.
    + split; [reflexivity|]. split; [congruence | reflexivity].
Qed.

End Provider.

(** ** The properties above, on the sample table *)

Lemma login_success_opens_session_witness :
  session_of
    (snd (Sample.login (Sample.creds "alice" "wonderland") (Sample.env_at 1000)
            Sample.world))
  = (Some (toAuthUser Sample.alice), Some "token:STD-000001-AAA",
     Some (toAuthUser Sample.alice), Some "token:STD-000001-AAA").
Proof.
  destruct (login_success_opens_session Sample.compare Sample.encode
              (Sample.creds "alice" "wonderland") (Sample.env_at 1000) Sample.world
              (snd (Sample.login (Sample.creds "alice" "wonderland") (Sample.env_at 1000)
                      Sample.world))
              (success_result Sample.encode (Sample.env_at 1000) Sample.alice))
    as [H _]; [reflexivity | reflexivity | exact H].
Defined.

Lemma login_failure_keeps_session_witness :
  session_of
    (snd (Sample.login (Sample.creds "frank" "nope") (Sample.env_at 1000) Desk.office))
  = (Some (toAuthUser Sample.carol), Some "token:ADM-000003-CCC",
     Some (toAuthUser Sample.carol), Some "token:ADM-000003-CCC").
Proof.
  apply (login_failure_keeps_session Sample.compare Sample.encode
           (Sample.creds "frank" "nope") (Sample.env_at 1000) Desk.office
           (snd (Sample.login (Sample.creds "frank" "nope") (Sample.env_at 1000)
                   Desk.office))
           invalid_credentials).
  - reflexivity.
  - reflexivity.
  - intros H. discriminate.
Defined.

Lemma login_storage_refusal_half_done_witness :
  exists w' u',
    Sample.login (Sample.creds "alice" "wonderland") (Desk.env_storage_full 1000)
      Sample.world
    = (Ok system_error, w') /\
    single (filter (eq_user_id "STD-000001-AAA") (users w')) = Some u' /\
    Row.failed_login_attempts u' = Some 0 /\
    Row.last_login u' = Some 1000 /\
    currentUser w' = Some (toAuthUser Sample.alice) /\
    isAuthenticated (Desk.env_storage_full 1000) w' = (Ok true, w') /\
    audit_trail w' = [].
Proof.
  apply (login_storage_refusal_half_done Sample.compare Sample.encode
           (Sample.creds "alice" "wonderland") (Desk.env_storage_full 1000)
           Sample.world Sample.alice); try reflexivity.
  left. discriminate.
Defined.

Lemma login_failures_accumulate_witness :
  exists w' u',
    login_seq Sample.compare Sample.encode
      [Desk.wrong 1000 "a"; Desk.wrong 2000 "b"; Desk.wrong 3000 "c"] Desk.office
    = ([Ok invalid_credentials; Ok invalid_credentials; Ok invalid_credentials], w') /\
    single (filter (eq_user_id "TCH-000005-FFF") (users w')) = Some u' /\
    or_zero (Row.failed_login_attempts u') = 3 /\
    Row.locked_until u' = None.
Proof.
  apply (login_failures_accumulate Sample.compare Sample.encode
           [Desk.wrong 1000 "a"; Desk.wrong 2000 "b"; Desk.wrong 3000 "c"]
           Desk.office Desk.frank); try reflexivity.
  repeat constructor.
Defined.

Lemma login_failures_then_success_witness :
  exists w1 r w' u',
    login_seq Sample.compare Sample.encode
      [Desk.wrong 1000 "a"; Desk.wrong 2000 "b"; Desk.wrong 3000 "c"; Desk.wrong 4000 "d"]
      Desk.office
    = ([Ok invalid_credentials; Ok invalid_credentials; Ok invalid_credentials;
        Ok invalid_credentials], w1) /\
    Sample.login (Sample.creds "frank" "sinatra") (Sample.env_at 5000) w1 = (Ok r, w') /\
    success r = true /\
    single (filter (eq_user_id "TCH-000005-FFF") (users w')) = Some u' /\
    Row.failed_login_attempts u' = Some 0 /\
    Row.locked_until u' = None.
Proof.
  apply (login_failures_then_success Sample.compare Sample.encode
           [Desk.wrong 1000 "a"; Desk.wrong 2000 "b"; Desk.wrong 3000 "c";
            Desk.wrong 4000 "d"]
           (Sample.env_at 5000) (Sample.creds "frank" "sinatra")
           Desk.office Desk.frank); try reflexivity.
  repeat constructor.
Defined.

Lemma login_fifth_failure_locks_witness :
  exists w1 w2 u2,
    login_seq Sample.compare Sample.encode
      [Desk.wrong 1000 "a"; Desk.wrong 2000 "b"; Desk.wrong 3000 "c"; Desk.wrong 4000 "d"]
      Desk.office
    = ([Ok invalid_credentials; Ok invalid_credentials; Ok invalid_credentials;
        Ok invalid_credentials], w1) /\
    Sample.login (Sample.creds "frank" "e") (Sample.env_at 5000) w1
    = (Ok invalid_credentials, w2) /\
    single (filter (eq_user_id "TCH-000005-FFF") (users w2)) = Some u2 /\
    Row.failed_login_attempts u2 = Some 5 /\
    Row.locked_until u2 = Some 905000 /\
    Sample.login (Sample.creds "frank" "sinatra") (Sample.env_at 6000) w2
    = (Ok account_locked, w2).
Proof.
  apply (login_fifth_failure_locks Sample.compare Sample.encode
           [Desk.wrong 1000 "a"; Desk.wrong 2000 "b"; Desk.wrong 3000 "c";
            Desk.wrong 4000 "d"]
           (Sample.env_at 5000) (Sample.creds "frank" "e")
           (Sample.env_at 6000) (Sample.creds "frank" "sinatra")
           Desk.office Desk.frank); try reflexivity.
  - repeat constructor.
  - repeat constructor.
Defined.

Lemma reset_then_login_succeeds_witness :
  exists p w1 r w2 a,
    Sample.resetUserPassword "ADM-000003-CCC" (Sample.env_at 1000) Sample.world
    = (Ok {| r_success := true; r_tempPassword := Some p; r_error := None |}, w1) /\
    Sample.login {| username := "carol"; password := p |} (Sample.env_at 1001) w1
    = (Ok r, w2) /\
    success r = true /\
    user r = Some a /\
    AuthUser.force_password_change a = true.
Proof.
  apply (reset_then_login_succeeds Sample.hash Sample.compare Sample.encode
           "ADM-000003-CCC" (Sample.env_at 1000) (Sample.env_at 1001) Sample.world
           Sample.carol); reflexivity.
Defined.

Lemma changePassword_then_login_witness :
  exists w1 r w2 a w3 u3,
    Sample.changePassword "STD-000001-AAA" "wonderland" "fresh" (Sample.env_at 1000)
      Sample.world
    = (Ok {| c_success := true; c_error := None |}, w1) /\
    Sample.login {| username := "alice"; password := "fresh" |} (Sample.env_at 2000) w1
    = (Ok r, w2) /\
    success r = true /\
    user r = Some a /\
    AuthUser.force_password_change a = false /\
    Sample.login {| username := "alice"; password := "wonderland" |} (Sample.env_at 2000)
      w1
    = (Ok invalid_credentials, w3) /\
    single (filter (eq_user_id "STD-000001-AAA") (users w3)) = Some u3 /\
    Row.failed_login_attempts u3 = Some 5.
Proof.
  apply (changePassword_then_login Sample.hash Sample.compare Sample.encode
           "STD-000001-AAA" "wonderland" "fresh" (Sample.env_at 1000) (Sample.env_at 2000)
           Sample.world Sample.alice); reflexivity.
Defined.

Lemma resetUserPassword_failure_witness :
  exists w',
    Sample.resetUserPassword "ADM-999999-ZZZ" (Sample.env_at 1000) Sample.world
    = (Ok {| r_success := false; r_tempPassword := None;
             r_error := Some "Failed to reset password" |}, w') /\
    users w' = users Sample.world /\
    audit_trail w' = [] /\
    session_of w' = session_of Sample.world.
Proof.
  apply (resetUserPassword_failure Sample.hash "ADM-999999-ZZZ" (Sample.env_at 1000)
           Sample.world).
  right. reflexivity.
Defined.

Lemma updateUser_failure_witness :
  exists r w',
    UserService.updateUser "STD-000001-AAA" (toggle_updates Sample.alice)
      (Desk.env_update_down 1000) Sample.world
    = (Ok r, w') /\
    u_success r = false /\
    u_error r = Some "Failed to update user" /\
    users w' = users Sample.world.
Proof.
  destruct (updateUser_failure "STD-000001-AAA" (toggle_updates Sample.alice)
              (Desk.env_update_down 1000) Sample.world)
    as [r [w' [Hrun [Hf [_ [Hus [Hmsg Hiff]]]]]]].
  { left. discriminate. }
  exists r, w'. split; [exact Hrun|]. split; [exact Hf|]. split; [|exact Hus].
  destruct Hmsg as [Hm|Hm]; [|exact Hm].
  exfalso. apply Hiff in Hm. destruct Hm as [pe [Hpe [Hcode _]]].
  injection Hpe as Hpe. subst pe. discriminate.
Defined.

Lemma toggleUserStatus_flips_witness :
  exists r w' u' a,
    UserService.toggleUserStatus "STD-000001-AAA" (Sample.env_at 1000) Sample.world
    = (Ok r, w') /\
    u_success r = true /\
    u_user r = Some a /\
    AuthUser.is_active a = false /\
    single (filter (eq_user_id "STD-000001-AAA") (users w')) = Some u' /\
    Row.is_active u' = false /\
    apply_profile_updates (toggle_updates u') u' = Sample.alice /\
    Row.failed_login_attempts u' = Some 4 /\
    Row.locked_until u' = None /\
    Row.last_login u' = Some 500 /\
    audit_trail w' = [] /\
    session_of w' = session_of Sample.world.
Proof.
  apply (toggleUserStatus_flips "STD-000001-AAA" (Sample.env_at 1000) Sample.world
           Sample.alice); reflexivity.
Defined.

Lemma toggleUserStatus_twice_witness :
  exists r1 w1 r2 w2,
    UserService.toggleUserStatus "STD-000001-AAA" (Sample.env_at 1000) Sample.world
    = (Ok r1, w1) /\
    UserService.toggleUserStatus "STD-000001-AAA" (Sample.env_at 2000) w1 = (Ok r2, w2) /\
    u_success r1 = true /\
    u_success r2 = true /\
    users w2 = users Sample.world.
Proof.
  apply (toggleUserStatus_twice "STD-000001-AAA" (Sample.env_at 1000) (Sample.env_at 2000)
           Sample.world Sample.alice); reflexivity.
Defined.

Lemma toggleUserStatus_missing_witness :
  UserService.toggleUserStatus "STD-999999-ZZZ" (Sample.env_at 1000) Sample.world
  = (Ok (user_result_error "User not found"), Sample.world).
Proof.
  apply (proj2 (toggleUserStatus_missing "STD-999999-ZZZ" (Sample.env_at 1000)
                  Sample.world)); reflexivity.
Defined.

Lemma deactivate_then_login_witness :
  exists r w1,
    UserService.toggleUserStatus "STD-000001-AAA" (Sample.env_at 1000) Sample.world
    = (Ok r, w1) /\
    u_success r = true /\
    Sample.login (Sample.creds "alice" "wonderland") (Sample.env_at 2000) w1
    = (Ok account_inactive, w1).
Proof.
  apply (deactivate_then_login Sample.compare Sample.encode
           "STD-000001-AAA" (Sample.env_at 1000) (Sample.env_at 2000)
           (Sample.creds "alice" "wonderland") Sample.world Sample.alice); reflexivity.
Defined.

Lemma deleteUser_removes_witness :
  exists w',
    UserService.deleteUser Desk.answers "TCH-000002-BBB" (Sample.env_at 1000) Sample.world
    = (Ok {| c_success := true; c_error := None |}, w') /\
    users w' = [Sample.alice; Sample.carol; Sample.dave].
Proof.
  destruct (deleteUser_removes Desk.answers "TCH-000002-BBB" (Sample.env_at 1000)
              Sample.world eq_refl)
    as [w' [Hrun [_ [_ [Hus _]]]]].
  exists w'. split; [exact Hrun|]. rewrite <- Hus. reflexivity.
Defined.

Lemma delete_then_login_witness :
  exists w1 w2,
    UserService.deleteUser Desk.answers "STD-000001-AAA" (Sample.env_at 1000) Sample.world
    = (Ok {| c_success := true; c_error := None |}, w1) /\
    Sample.login (Sample.creds "alice" "wonderland") (Sample.env_at 2000) w1
    = (Ok invalid_credentials, w2) /\
    users w2 = users w1.
Proof.
  apply (delete_then_login Sample.compare Sample.encode Desk.answers
           (Sample.env_at 1000) (Sample.env_at 2000)
           (Sample.creds "alice" "wonderland") Sample.world Sample.alice); reflexivity.
Defined.

Lemma createUser_success_witness :
  exists w' row p a,
    createUser Sample.hash Desk.answers Desk.erin (Sample.env_at 1000) Sample.world
    = (Ok {| cr_success := true; cr_user := Some a; cr_tempPassword := Some p;
             cr_error := None |}, w') /\
    users w' = (users Sample.world ++ [row])%list /\
    p = "DMUbiry7%ENV" /\
    Row.password_hash row = "s1$DMUbiry7%ENV" /\
    Row.is_active row = true /\
    Row.force_password_change row = true /\
    Row.failed_login_attempts row = Some 0.
Proof.
  destruct (createUser_success Sample.hash Desk.answers Desk.erin (Sample.env_at 1000)
              Sample.world eq_refl)
    as [w' [row [p [a [Hrun [Hus _]]]]]].
  exists w', row, p, a. split; [exact Hrun|]. split; [exact Hus|].
  cbv in Hrun. injection Hrun as Ha Hp Hw.
  subst w'. cbn in Hus. injection Hus as Hrow. subst row p.
  repeat split.
Defined.

Lemma createUser_failure_witness :
  exists r w',
    createUser Sample.hash Desk.email_taken Desk.erin (Sample.env_at 1000) Sample.world
    = (Ok r, w') /\
    cr_success r = false /\
    cr_tempPassword r = None /\
    users w' = users Sample.world /\
    cr_error r = Some "Email address already exists".
Proof.
  destruct (createUser_failure Sample.hash Desk.email_taken Desk.erin (Sample.env_at 1000)
              Sample.world
              {| code := "23505";
                 message := "duplicate key value violates unique constraint users_email_key" |}
              eq_refl)
    as [r [w' [Hrun [Hf [_ [Ht [Hus [_ Hmsg]]]]]]]].
  exists r, w'. repeat split; try assumption.
Defined.

Lemma createUser_then_login_witness :
  exists p cr w1 r w2 a,
    createUser Sample.hash Desk.answers Desk.erin (Sample.env_at 1000) Sample.world
    = (Ok cr, w1) /\
    cr_tempPassword cr = Some p /\
    Sample.login {| username := "erin"; password := p |} (Sample.env_at 2000) w1
    = (Ok r, w2) /\
    success r = true /\
    user r = Some a /\
    AuthUser.force_password_change a = true /\
    AuthUser.user_id a = "STD-123456-K3F".
Proof.
  apply (createUser_then_login Sample.hash Sample.compare Sample.encode
           Desk.answers Desk.erin (Sample.env_at 1000) (Sample.env_at 2000) Sample.world);
    reflexivity.
Defined.

Lemma provider_login_rejected_keeps_service_session_witness :
  exists res st',
    AuthContext.login Sample.compare Sample.encode Desk.carol_in
      (Sample.creds "frank" "nope") (Sample.env_at 1000) Desk.office
    = (Ok (res, st'),
       snd (Sample.login (Sample.creds "frank" "nope") (Sample.env_at 1000) Desk.office)) /\
    c_success res = false /\
    c_error res = Some "Invalid username or password" /\
    AuthContext.user st' = None /\
    AuthContext.isAuthenticated st' = false /\
    getCurrentUser (Sample.env_at 1000)
      (snd (Sample.login (Sample.creds "frank" "nope") (Sample.env_at 1000) Desk.office))
    = (Ok (Some (toAuthUser Sample.carol)),
       snd (Sample.login (Sample.creds "frank" "nope") (Sample.env_at 1000) Desk.office)).
Proof.
  destruct (provider_login_rejected_keeps_service_session Sample.compare Sample.encode
              Desk.carol_in (Sample.creds "frank" "nope") (Sample.env_at 1000) Desk.office
              (snd (Sample.login (Sample.creds "frank" "nope") (Sample.env_at 1000)
                      Desk.office))
              invalid_credentials eq_refl (or_introl eq_refl))
    as [res [st' [Hrun [Hf [Herr [Hu [Ha [_ Hget]]]]]]]].
  exists res, st'. repeat split; assumption.
Defined.

Example generated_identifier :
  generateUserId Desk.ids "student" = "STD-123456-K3F".
Proof. reflexivity. Qed.

Example generated_identifier_short_clock :
  generateUserId {| id_now := 42; id_random36 := "" |} "registrar" = "STD-42-".
Proof. reflexivity. Qed.

Lemma provider_changePassword_guard_witness :
  AuthContext.changePassword Sample.hash Sample.compare AuthContext.initialState
    "singer" "fresh" (Sample.env_at 1000) Desk.office
  = (Ok ({| c_success := false; c_error := Some "User not authenticated" |},
         AuthContext.initialState), Desk.office) /\
  exists res st' w' a',
    AuthContext.changePassword Sample.hash Sample.compare Desk.carol_in
      "singer" "fresh" (Sample.env_at 1000) Desk.office
    = (Ok (res, st'), w') /\
    c_success res = true /\
    AuthContext.user st' = Some a' /\
    AuthUser.force_password_change (toAuthUser Sample.carol) = true /\
    AuthUser.force_password_change a' = false /\
    AuthUser.user_id a' = "ADM-000003-CCC" /\
    AuthUser.name a' = "carol" /\
    AuthUser.email a' = "carol@example.org" /\
    AuthUser.role a' = admin /\
    AuthUser.is_active a' = true /\
    AuthContext.token st' = Some "token:ADM-000003-CCC" /\
    AuthContext.isAuthenticated st' = true.
Proof.
  destruct (provider_changePassword_guard Sample.hash Sample.compare
              AuthContext.initialState "singer" "fresh" (Sample.env_at 1000) Desk.office)
    as [Hnone _].
  split; [apply Hnone; reflexivity|].
  destruct (provider_changePassword_guard Sample.hash Sample.compare
              Desk.carol_in "singer" "fresh" (Sample.env_at 1000) Desk.office)
    as [_ Hsome].
  destruct (Hsome (toAuthUser Sample.carol)
              {| c_success := true; c_error := None |}
              (AuthContext.authReducer Desk.carol_in
                 (AuthContext.UPDATE_USER
                    (AuthContext.password_changed (toAuthUser Sample.carol))))
              (snd (AuthContext.changePassword Sample.hash Sample.compare
                      Desk.carol_in "singer" "fresh" (Sample.env_at 1000) Desk.office))
              eq_refl)
    as [_ [Hok _]].
  - reflexivity.
  - destruct (Hok eq_refl)
      as [_ [Htok [Hauth [_ [a' [Hu [Hf [H1 [H2 [H3 [H4 [_ [_ [_ [H5 _]]]]]]]]]]]]]]].
    do 3 eexists. exists a'.
    split; [reflexivity|]. split; [reflexivity|]. split; [exact Hu|].
    split; [reflexivity|]. split; [exact Hf|].
    split; [exact H1|]. split; [exact H2|]. split; [exact H3|]. split; [exact H4|].
    split; [exact H5|]. split; [exact Htok | exact Hauth].
Defined.

Example number_toString_keeps_sign :
  Number_toString (-5) = "-5" /\ Number_toString 0 = "0" /\
  Number_toString 1730000123456 = "1730000123456".
Proof. repeat split. Qed.
